(** * Notification service: idempotent dispatch pipeline

    A shallow embedding of the TypeScript sources of the notification
    service (idempotency key derivation and cache, the notification,
    template and delivery-log models, the notification service, the delivery
    worker, the channel implementations, the error handler and the route that
    creates notifications), together with the properties of the dispatch
    pipeline that the specification states about them and further properties
    that the code shows.

    Conventions of the embedding.
    - A JavaScript string is the sequence of its UTF-8 bytes ([string]).
    - A JSON payload ([Record<string, any>]) is a [json] object whose members
      are listed in the order in which JavaScript enumerates own properties.
    - An [await]ed call on the database, the cache or the queue is one atomic
      action on the [World]; a program is a tree of such actions, so that two
      requests can be interleaved at their [await]s.
    - What the code only writes to the console is left out. *)

Set Warnings "-register-all".
From Stdlib Require Import ZArith List String Ascii Bool Lia.
From Stdlib Require Import PrimFloat Sorting.Sorted.
From stdpp Require Import gmap strings list.
Import ListNotations.

Local Open Scope string_scope.
Local Open Scope Z_scope.

(** ** JavaScript strings *)

Module Js.

(** [Array.prototype.join] on strings. *)
Fixpoint join (sep : string) (parts : list string) : string :=
  match parts with
  | [] => ""
  | [p] => p
  | p :: rest => p ++ sep ++ join sep rest
  end.

Definition digit_char (d : Z) : ascii := ascii_of_nat (Z.to_nat (48 + d)).

(** Decimal digits of a non-negative integer, most significant first.  The
    fuel is the number of digits that can be produced. *)
Fixpoint digits (fuel : nat) (n : Z) (acc : string) : string :=
  match fuel with
  | O => acc
  | S fuel' =>
      let acc' := String (digit_char (n mod 10)) acc in
      if n / 10 =? 0 then acc' else digits fuel' (n / 10) acc'
  end.

(** [Number.prototype.toString] for an integer-valued number. *)
Definition show_Z (n : Z) : string :=
  if n <? 0
  then String "-" (digits (S (Z.to_nat (Z.log2 (- n)))) (- n) "")
  else digits (S (Z.to_nat (Z.log2 n))) n "".

Definition hex_char (d : Z) : ascii :=
  if d <? 10 then ascii_of_nat (Z.to_nat (48 + d))
  else ascii_of_nat (Z.to_nat (87 + d)).

Definition code (c : ascii) : Z := Z.of_nat (nat_of_ascii c).

(** The number of characters of a string: its bytes that do not continue a
    UTF-8 sequence. *)
Fixpoint chars (s : string) : nat :=
  match s with
  | EmptyString => 0%nat
  | String c t =>
      let continuation := (128 <=? code c) && (code c <? 192) in
      ((if continuation then 0 else 1) + chars t)%nat
  end.

(** [\w] of a JavaScript regular expression: [[A-Za-z0-9_]]. *)
Definition is_word_char (c : ascii) : bool :=
  let n := code c in
  ((48 <=? n) && (n <=? 57)) || ((65 <=? n) && (n <=? 90))
  || ((97 <=? n) && (n <=? 122)) || (n =? 95).

End Js.

(** ** JSON values and [JSON.stringify] *)

(** Values of a parsed JSON document.  Numbers are the integer-valued ones. *)
Inductive json : Type :=
| JNull
| JBool (b : bool)
| JNum (n : Z)
| JStr (s : string)
| JArr (items : list json)
| JObj (members : list (string * json)).

(** A [Record<string, any>]: the own properties in enumeration order. *)
Definition JsObject : Type := list (string * json).

Module JSON.

(** The double quote character, U+0022. *)
Definition dquote : ascii := ascii_of_nat 34.

(** [QuoteJSONString]: the escapes of ECMA-262 24.5.2.2. *)
Definition escape_char (c : ascii) : string :=
  let n := Js.code c in
  if n =? 34 then String "\" (String dquote "")
  else if n =? 92 then "\\"
  else if n =? 8 then "\b"
  else if n =? 12 then "\f"
  else if n =? 10 then "\n"
  else if n =? 13 then "\r"
  else if n =? 9 then "\t"
  else if n <? 32 then
    "\u00" ++ String (Js.hex_char (n / 16)) (String (Js.hex_char (n mod 16)) "")
  else String c "".

Fixpoint escape (s : string) : string :=
  match s with
  | EmptyString => ""
  | String c rest => escape_char c ++ escape rest
  end.

Definition quote (s : string) : string :=
  String dquote (escape s ++ String dquote "").

Fixpoint stringify (v : json) : string :=
  match v with
  | JNull => "null"
  | JBool true => "true"
  | JBool false => "false"
  | JNum n => Js.show_Z n
  | JStr s => quote s
  | JArr items => "[" ++ Js.join "," (map stringify items) ++ "]"
  | JObj members =>
      "{" ++ Js.join ","
               (map (fun kv => quote (fst kv) ++ ":" ++ stringify (snd kv)) members)
          ++ "}"
  end.

End JSON.

(** ** SHA-256 (FIPS 180-4), as computed by [crypto.createHash('sha256')] *)

Module SHA256.

Definition mask32 : Z := 0xffffffff.
Definition add32 (x y : Z) : Z := Z.land (x + y) mask32.
Definition rotr (n x : Z) : Z :=
  Z.lor (Z.shiftr x n) (Z.land (Z.shiftl x (32 - n)) mask32).
Definition shr (n x : Z) : Z := Z.shiftr x n.
Definition not32 (x : Z) : Z := Z.lxor x mask32.

Definition Ch (x y z : Z) : Z := Z.lxor (Z.land x y) (Z.land (not32 x) z).
Definition Maj (x y z : Z) : Z :=
  Z.lxor (Z.lxor (Z.land x y) (Z.land x z)) (Z.land y z).
Definition Sigma0 (x : Z) : Z := Z.lxor (Z.lxor (rotr 2 x) (rotr 13 x)) (rotr 22 x).
Definition Sigma1 (x : Z) : Z := Z.lxor (Z.lxor (rotr 6 x) (rotr 11 x)) (rotr 25 x).
Definition sigma0 (x : Z) : Z := Z.lxor (Z.lxor (rotr 7 x) (rotr 18 x)) (shr 3 x).
Definition sigma1 (x : Z) : Z := Z.lxor (Z.lxor (rotr 17 x) (rotr 19 x)) (shr 10 x).

(** The largest [r] below [2 ^ bits] with [r ^ 3 <= n], and likewise for the
    square, found bit by bit from the top. *)
Fixpoint root (power : Z) (bits : nat) (n r : Z) : Z :=
  match bits with
  | O => r
  | S b =>
      let r' := r + 2 ^ Z.of_nat b in
      root power b n (if r' ^ power <=? n then r' else r)
  end.

Definition is_prime (p : Z) : bool :=
  forallb (fun d => negb (p mod d =? 0))
          (map Z.of_nat (seq 2 (Z.to_nat (Z.sqrt p) - 1))).

(** The first 64 primes: those up to 311. *)
Definition primes : list Z :=
  List.filter is_prime (map Z.of_nat (seq 2 310)).

(** The first 32 bits of the fractional part of the [power]-th root of [p]. *)
Definition fractional_bits (power : Z) (p : Z) : Z :=
  Z.land (root power 40 (p * 2 ^ (32 * power)) 0) mask32.

(** The round constants of 4.2.2: from the cube roots of the first 64 primes. *)
Definition K : list Z := Eval vm_compute in map (fractional_bits 3) primes.

(** The initial hash value of 5.3.3: from the square roots of the first 8
    primes. *)
Definition H0 : list Z := Eval vm_compute in map (fractional_bits 2) (firstn 8 primes).

Definition bytes_of_string (s : string) : list Z :=
  map Js.code (list_ascii_of_string s).

(** Big-endian bytes of the low [8 * n] bits of [x]. *)
Fixpoint be_bytes (n : nat) (x : Z) : list Z :=
  match n with
  | O => []
  | S n' => Z.land (Z.shiftr x (8 * Z.of_nat n')) 0xff :: be_bytes n' x
  end.

(** Padding of 5.1.1: a 1 bit, zero bits up to 56 mod 64 bytes, then the
    message length in bits as a 64-bit big-endian integer. *)
Definition pad (msg : list Z) : list Z :=
  let len := Z.of_nat (List.length msg) in
  let zeros := Z.to_nat ((55 - len) mod 64) in
  msg ++ 0x80 :: repeat 0 zeros ++ be_bytes 8 (8 * len).

Fixpoint be_word (bs : list Z) (acc : Z) : Z :=
  match bs with
  | [] => acc
  | b :: rest => be_word rest (Z.lor (Z.shiftl acc 8) b)
  end.

(** The sixteen 32-bit words of a 64-byte block. *)
Fixpoint block_words (n : nat) (bs : list Z) : list Z :=
  match n with
  | O => []
  | S n' => be_word (firstn 4 bs) 0 :: block_words n' (skipn 4 bs)
  end.

(** The message schedule, kept newest first: [W_t] is computed from
    [W_(t-2)], [W_(t-7)], [W_(t-15)] and [W_(t-16)]. *)
Fixpoint extend (n : nat) (rev_w : list Z) : list Z :=
  match n with
  | O => rev_w
  | S n' =>
      let wt := add32 (add32 (sigma1 (nth 1 rev_w 0)) (nth 6 rev_w 0))
                      (add32 (sigma0 (nth 14 rev_w 0)) (nth 15 rev_w 0)) in
      extend n' (wt :: rev_w)
  end.

Definition schedule (block : list Z) : list Z :=
  rev (extend 48 (rev (block_words 16 block))).

Record regs : Type := Regs { ra : Z; rb : Z; rc : Z; rd : Z; re : Z; rf : Z; rg : Z; rh : Z }.

Definition round (r : regs) (kw : Z * Z) : regs :=
  let t1 := add32 (add32 (add32 (rh r) (Sigma1 (re r))) (Ch (re r) (rf r) (rg r)))
                  (add32 (fst kw) (snd kw)) in
  let t2 := add32 (Sigma0 (ra r)) (Maj (ra r) (rb r) (rc r)) in
  Regs (add32 t1 t2) (ra r) (rb r) (rc r) (add32 (rd r) t1) (re r) (rf r) (rg r).

Definition regs_of (h : list Z) : regs :=
  Regs (nth 0 h 0) (nth 1 h 0) (nth 2 h 0) (nth 3 h 0)
       (nth 4 h 0) (nth 5 h 0) (nth 6 h 0) (nth 7 h 0).

Definition compress (h : list Z) (block : list Z) : list Z :=
  let r := fold_left round (combine K (schedule block)) (regs_of h) in
  [ add32 (nth 0 h 0) (ra r); add32 (nth 1 h 0) (rb r);
    add32 (nth 2 h 0) (rc r); add32 (nth 3 h 0) (rd r);
    add32 (nth 4 h 0) (re r); add32 (nth 5 h 0) (rf r);
    add32 (nth 6 h 0) (rg r); add32 (nth 7 h 0) (rh r) ].

Fixpoint blocks (n : nat) (h : list Z) (bs : list Z) : list Z :=
  match n with
  | O => h
  | S n' => blocks n' (compress h (firstn 64 bs)) (skipn 64 bs)
  end.

Definition digest (msg : list Z) : list Z :=
  let padded := pad msg in
  flat_map (be_bytes 4) (blocks (List.length padded / 64) H0 padded).

Definition hex_byte (b : Z) : string :=
  String (Js.hex_char (b / 16)) (String (Js.hex_char (b mod 16)) "").

(** [createHash('sha256').update(content).digest('hex')]. *)
Definition hex (content : string) : string :=
  String.concat "" (map hex_byte (digest (bytes_of_string content))).

End SHA256.

(** ** Property access and string conversion of payload values *)

Module JsValue.

(** What [data[key]] can evaluate to for an object obtained from a JSON
    document: an own member, or a member inherited from [Object.prototype],
    of which only the text of its [toString()] is kept. *)
Inductive property : Type :=
| Own (v : json)
| Inherited (text : string).

(** The members of [Object.prototype] and what [toString()] returns on each. *)
Definition object_prototype : list (string * string) :=
  [ ("constructor", "function Object() { [native code] }");
    ("__defineGetter__", "function __defineGetter__() { [native code] }");
    ("__defineSetter__", "function __defineSetter__() { [native code] }");
    ("hasOwnProperty", "function hasOwnProperty() { [native code] }");
    ("__lookupGetter__", "function __lookupGetter__() { [native code] }");
    ("__lookupSetter__", "function __lookupSetter__() { [native code] }");
    ("isPrototypeOf", "function isPrototypeOf() { [native code] }");
    ("propertyIsEnumerable", "function propertyIsEnumerable() { [native code] }");
    ("toString", "function toString() { [native code] }");
    ("valueOf", "function valueOf() { [native code] }");
    ("__proto__", "[object Object]");
    ("toLocaleString", "function toLocaleString() { [native code] }") ].

Fixpoint assoc {V : Type} (key : string) (l : list (string * V)) : option V :=
  match l with
  | [] => None
  | (k, v) :: rest => if String.eqb k key then Some v else assoc key rest
  end.

(** [o[key]]; [None] stands for [undefined]. *)
Definition get (o : JsObject) (key : string) : option property :=
  match assoc key o with
  | Some v => Some (Own v)
  | None =>
      match assoc key object_prototype with
      | Some text => Some (Inherited text)
      | None => None
      end
  end.

(** Truthiness of a value, as tested by [||], [?:] and [if]. *)
Definition truthy (v : json) : bool :=
  match v with
  | JNull => false
  | JBool b => b
  | JNum n => negb (n =? 0)
  | JStr s => negb (String.eqb s "")
  | JArr _ | JObj _ => true
  end.

End JsValue.

(** ** Errors and results *)

(** The exceptions that the code throws or lets through. [DatabaseError] is
    the error with which [pool.query] rejects, carrying the SQLSTATE code and
    the violated constraint; [ProviderError] is the error with which the
    promise of a provider rejects, with its message and its enumerable
    properties. *)
Inductive Error : Type :=
| NotFoundError (message : string)
| BadRequestError (message : string)
| DatabaseError (code : string) (constraint : string)
| ProviderError (message : string) (details : json)
| TypeError (message : string)
| JsError (message : string).

(** [error.message]; for a [DatabaseError], the message of the server is
    abridged to the constraint and the code. *)
Definition message_of (e : Error) : string :=
  match e with
  | NotFoundError m | BadRequestError m | TypeError m | JsError m => m
  | ProviderError m _ => m
  | DatabaseError code constraint =>
      "violates constraint " ++ constraint ++ " (" ++ code ++ ")"
  end.

(** [String(error)]: the [name] of the error, then the message.  The classes
    of [errorHandler.ts] do not set a name of their own; the driver names its
    errors [error]. *)
Definition string_of_error (e : Error) : string :=
  match e with
  | TypeError m => "TypeError: " ++ m
  | DatabaseError _ _ => "error: " ++ message_of e
  | _ => "Error: " ++ message_of e
  end.

(** Result of a synchronous computation: a value, or a thrown error. *)
Inductive Outcome (A : Type) : Type :=
| Returned (a : A)
| Thrown (e : Error).
Arguments Returned {A} a.
Arguments Thrown {A} e.

Module JsString.

(** [String.prototype.padStart] with a one-character filler. *)
Definition padStart (s : string) (target : nat) (fill : ascii) : string :=
  string_of_list_ascii (repeat fill (target - String.length s)) ++ s.

(** [ToString] of a payload value, as [x.toString()] and [Array.prototype.join]
    compute it.  An object that has an own member named [toString] shadows
    [Object.prototype.toString] with a value that is not callable, and the
    conversion throws. *)
Fixpoint toString (v : json) : Outcome string :=
  match v with
  | JNull => Returned "null"
  | JBool true => Returned "true"
  | JBool false => Returned "false"
  | JNum n => Returned (Js.show_Z n)
  | JStr s => Returned s
  | JArr items =>
      (fix elements (l : list json) : Outcome string :=
         match l with
         | [] => Returned ""
         | x :: rest =>
             match (match x with JNull => Returned "" | _ => toString x end) with
             | Thrown e => Thrown e
             | Returned sx =>
                 match rest with
                 | [] => Returned sx
                 | _ :: _ =>
                     match elements rest with
                     | Thrown e => Thrown e
                     | Returned sr => Returned (sx ++ "," ++ sr)
                     end
                 end
             end
         end) items
  | JObj members =>
      match JsValue.assoc "toString" members with
      | Some _ => Thrown (TypeError "toString is not a function")
      | None => Returned "[object Object]"
      end
  end.

End JsString.

(** ** utils/idempotency.ts: key derivation *)

(** The string that is hashed: [`${userId}:${template}:${JSON.stringify(data)}`]. *)
Definition idempotency_content (userId template : string) (data : JsObject) : string :=
  userId ++ ":" ++ template ++ ":" ++ JSON.stringify (JObj data).

Definition generateIdempotencyKey (userId template : string) (data : JsObject) : string :=
  SHA256.hex (idempotency_content userId template data).

Arguments generateIdempotencyKey : simpl never.

(** Two payloads are equal as key-to-value maps when every key reads the same
    own member in both. *)
Definition same_map (d1 d2 : JsObject) : Prop :=
  forall key, JsValue.assoc key d1 = JsValue.assoc key d2.

(** ** Data model *)

(** Modelled from the spec: [types.ts] is not among the sources; the channel
    enumeration is the one of the spec (email, sms, push) and of the CHECK
    constraint of the [notifications] table. *)
Inductive NotificationChannel : Type := EMAIL | SMS | PUSH.

(** Modelled from the spec: [types.ts] is not among the sources; the statuses
    are those of the lifecycle of the spec and of the CHECK constraint of the
    [notifications] table. *)
Inductive NotificationStatus : Type :=
| PENDING | QUEUED | PROCESSING | SENT | FAILED | RETRYING.

Global Instance NotificationChannel_eq_dec : EqDecision NotificationChannel.
Proof. solve_decision. Defined.
Global Instance NotificationStatus_eq_dec : EqDecision NotificationStatus.
Proof. solve_decision. Defined.

(** Generated identifiers ([gen_random_uuid()]) are numbered. *)
Definition Uuid : Type := nat.

Definition uuid_text (u : Uuid) : string := Js.show_Z (Z.of_nat u).

(** Modelled from the spec: the request body [{user_id, channel, template,
    data}] ([CreateNotificationDTO] of [types.ts]). *)
Record CreateNotificationDTO : Type := {
  dto_user_id : string;
  dto_channel : NotificationChannel;
  dto_template : string;
  dto_data : JsObject }.

(** Modelled from the spec: a row of the [notifications] table, with the
    columns of the schema. *)
Record Notification : Type := {
  n_id : Uuid;
  n_user_id : string;
  n_channel : NotificationChannel;
  n_template_id : string;
  n_data : JsObject;
  n_status : NotificationStatus;
  n_idempotency_key : string;
  n_error_message : option string;
  n_retry_count : Z;
  n_created_at : Z;
  n_updated_at : Z }.

(** Modelled from the spec: a row of the [templates] table. *)
Record Template : Type := {
  t_id : string;
  t_name : string;
  t_channel : NotificationChannel;
  t_subject : option string;
  t_body : string;
  t_variables : list string }.

(** Modelled from the spec: a row of the [delivery_logs] table. *)
Record DeliveryLog : Type := {
  l_id : Uuid;
  l_notification_id : Uuid;
  l_attempt : Z;
  l_status : NotificationStatus;
  l_error_message : option string;
  l_provider_response : option string;
  l_created_at : Z }.

(** A job of the BullMQ queue: the payload [{notificationId}], the options it
    was added with and the number of attempts already made. *)
Record Job : Type := {
  job_name : string;
  job_notificationId : Uuid;
  job_attempts : option Z;
  job_backoff_delay : Z;
  job_attemptsMade : Z }.

(** ** The world: database, cache and queue *)

Record World : Type := {
  notifications : list Notification;
  templates : list Template;
  delivery_logs : list DeliveryLog;
  (** Redis: key to value and the time at which the entry expires. *)
  cache : gmap string (Uuid * Z);
  (** Jobs added to the [notifications] queue, oldest first. *)
  queue : list Job;
  (** Whether [notificationQueue.add] can reach the queue. *)
  queue_up : bool;
  (** [CURRENT_TIMESTAMP], in seconds. *)
  clock : Z;
  (** The next identifier that [gen_random_uuid()] hands out. *)
  next_uuid : Uuid }.

Definition set_notifications (w : World) (ns : list Notification) : World :=
  {| notifications := ns; templates := templates w;
     delivery_logs := delivery_logs w; cache := cache w; queue := queue w;
     queue_up := queue_up w; clock := clock w; next_uuid := next_uuid w |}.

Definition set_delivery_logs (w : World) (ls : list DeliveryLog) : World :=
  {| notifications := notifications w; templates := templates w;
     delivery_logs := ls; cache := cache w; queue := queue w;
     queue_up := queue_up w; clock := clock w; next_uuid := next_uuid w |}.

Definition set_cache (w : World) (c : gmap string (Uuid * Z)) : World :=
  {| notifications := notifications w; templates := templates w;
     delivery_logs := delivery_logs w; cache := c; queue := queue w;
     queue_up := queue_up w; clock := clock w; next_uuid := next_uuid w |}.

Definition set_queue (w : World) (q : list Job) : World :=
  {| notifications := notifications w; templates := templates w;
     delivery_logs := delivery_logs w; cache := cache w; queue := q;
     queue_up := queue_up w; clock := clock w; next_uuid := next_uuid w |}.

Definition set_templates (w : World) (ts : list Template) : World :=
  {| notifications := notifications w; templates := ts;
     delivery_logs := delivery_logs w; cache := cache w; queue := queue w;
     queue_up := queue_up w; clock := clock w; next_uuid := next_uuid w |}.

Definition fresh_uuid (w : World) : World :=
  {| notifications := notifications w; templates := templates w;
     delivery_logs := delivery_logs w; cache := cache w; queue := queue w;
     queue_up := queue_up w; clock := clock w; next_uuid := S (next_uuid w) |}.

(** ** Asynchronous programs *)

(** An [async] function body: it returns, throws, or [await]s an atomic
    action on the world and continues with its result. *)
Inductive Prog (A : Type) : Type :=
| Ret (a : A)
| Throw (e : Error)
| Await (X : Type) (action : World -> World * X) (k : X -> Prog A).
Arguments Ret {A} a.
Arguments Throw {A} e.
Arguments Await {A X} action k.

Fixpoint bind {A B : Type} (p : Prog A) (f : A -> Prog B) : Prog B :=
  match p with
  | Ret a => f a
  | Throw e => Throw e
  | Await action k => Await action (fun x => bind (k x) f)
  end.

(** [try { p } catch (error) { handler error }]. *)
Fixpoint try_catch {A : Type} (p : Prog A) (handler : Error -> Prog A) : Prog A :=
  match p with
  | Ret a => Ret a
  | Throw e => handler e
  | Await action k => Await action (fun x => try_catch (k x) handler)
  end.

(** An awaited call that resolves with a value or rejects with an error. *)
Definition await {X : Type} (action : World -> World * Outcome X) : Prog X :=
  Await action (fun r => match r with Returned x => Ret x | Thrown e => Throw e end).

(** A synchronous call that returns or throws. *)
Definition lift {A : Type} (o : Outcome A) : Prog A :=
  match o with Returned a => Ret a | Thrown e => Throw e end.

Global Instance Prog_ret : MRet Prog := fun A a => Ret a.
Global Instance Prog_bind : MBind Prog := fun A B f p => bind p f.

(** Running one program to completion, with no other program interleaved. *)
Fixpoint run {A : Type} (p : Prog A) (w : World) : World * Outcome A :=
  match p with
  | Ret a => (w, Returned a)
  | Throw e => (w, Thrown e)
  | Await action k => let '(w', x) := action w in run (k x) w'
  end.

(** One atomic action of a program. *)
Definition step {A : Type} (p : Prog A) (w : World) : World * Prog A :=
  match p with
  | Await action k => let '(w', x) := action w in (w', k x)
  | _ => (w, p)
  end.

(** Two requests served concurrently: the schedule says which of the two
    performs its next atomic action; when the schedule is exhausted the first
    request runs to completion, then the second. *)
Fixpoint concurrently {A B : Type} (schedule : list bool) (p : Prog A) (q : Prog B)
    (w : World) : World * Outcome A * Outcome B :=
  match schedule with
  | [] =>
      let '(w1, rp) := run p w in
      let '(w2, rq) := run q w1 in
      (w2, rp, rq)
  | true :: rest => let '(w', p') := step p w in concurrently rest p' q w'
  | false :: rest => let '(w', q') := step q w in concurrently rest p q' w'
  end.

(** ** The collaborators: PostgreSQL, Redis and the BullMQ queue *)

(** [pool.query] on the three tables.  Every query is one atomic action; it
    resolves with [result.rows] or rejects with the error of the violated
    constraint. *)
Module Db.

Definition has_id (id : Uuid) (n : Notification) : bool := Nat.eqb (n_id n) id.
Definition has_key (key : string) (n : Notification) : bool :=
  String.eqb (n_idempotency_key n) key.

(** [INSERT INTO notifications (...) VALUES (...) RETURNING *]: the id and the
    timestamps are column defaults, [retry_count] defaults to 0, and the
    UNIQUE constraint on [idempotency_key] rejects a second row with the
    same key. *)
Definition insert_notification (user_id : string) (channel : NotificationChannel)
    (template_id : string) (data : JsObject) (status : NotificationStatus)
    (key : string) (w : World) : World * Outcome (list Notification) :=
  if existsb (has_key key) (notifications w)
  then (w, Thrown (DatabaseError "23505" "notifications_idempotency_key_key"))
  else
    let row := {| n_id := next_uuid w; n_user_id := user_id; n_channel := channel;
                  n_template_id := template_id; n_data := data; n_status := status;
                  n_idempotency_key := key; n_error_message := None;
                  n_retry_count := 0; n_created_at := clock w;
                  n_updated_at := clock w |} in
    (fresh_uuid (set_notifications w (notifications w ++ [row])), Returned [row]).

(** [SELECT * FROM notifications WHERE id = $1 LIMIT 1]. *)
Definition select_notification_by_id (id : Uuid) (w : World)
    : World * Outcome (list Notification) :=
  (w, Returned (firstn 1 (List.filter (has_id id) (notifications w)))).

(** [SELECT * FROM notifications WHERE idempotency_key = $1 LIMIT 1]. *)
Definition select_notification_by_key (key : string) (w : World)
    : World * Outcome (list Notification) :=
  (w, Returned (firstn 1 (List.filter (has_key key) (notifications w)))).

(** [UPDATE notifications SET ... WHERE id = $1 RETURNING *]. *)
Definition update_notification (id : Uuid) (change : Notification -> Notification)
    (w : World) : World * Outcome (list Notification) :=
  let rows := map (fun n => if has_id id n then change n else n) (notifications w) in
  (set_notifications w rows, Returned (List.filter (has_id id) rows)).

Definition set_status (status : NotificationStatus) (error_message : option string)
    (now : Z) (n : Notification) : Notification :=
  {| n_id := n_id n; n_user_id := n_user_id n; n_channel := n_channel n;
     n_template_id := n_template_id n; n_data := n_data n; n_status := status;
     n_idempotency_key := n_idempotency_key n; n_error_message := error_message;
     n_retry_count := n_retry_count n; n_created_at := n_created_at n;
     n_updated_at := now |}.

Definition add_retry (now : Z) (n : Notification) : Notification :=
  {| n_id := n_id n; n_user_id := n_user_id n; n_channel := n_channel n;
     n_template_id := n_template_id n; n_data := n_data n; n_status := n_status n;
     n_idempotency_key := n_idempotency_key n; n_error_message := n_error_message n;
     n_retry_count := n_retry_count n + 1; n_created_at := n_created_at n;
     n_updated_at := now |}.

(** [SET status = $2, error_message = $3, updated_at = CURRENT_TIMESTAMP]. *)
Definition update_status (id : Uuid) (status : NotificationStatus)
    (error_message : option string) (w : World) :=
  update_notification id (set_status status error_message (clock w)) w.

(** [SET retry_count = retry_count + 1, updated_at = CURRENT_TIMESTAMP]. *)
Definition increment_retry_count (id : Uuid) (w : World) :=
  update_notification id (add_retry (clock w)) w.

(** [SELECT * FROM templates WHERE id = $1 LIMIT 1]. *)
Definition select_template_by_id (id : string) (w : World)
    : World * Outcome (list Template) :=
  (w, Returned (firstn 1 (List.filter (fun t => String.eqb (t_id t) id) (templates w)))).

(** [INSERT INTO delivery_logs (...) VALUES (...) RETURNING *]; the foreign
    key requires the notification to exist. *)
Definition insert_delivery_log (notification_id : Uuid) (attempt : Z)
    (status : NotificationStatus) (error_message provider_response : option string)
    (w : World) : World * Outcome (list DeliveryLog) :=
  if existsb (has_id notification_id) (notifications w)
  then
    let row := {| l_id := next_uuid w; l_notification_id := notification_id;
                  l_attempt := attempt; l_status := status;
                  l_error_message := error_message;
                  l_provider_response := provider_response;
                  l_created_at := clock w |} in
    (fresh_uuid (set_delivery_logs w (delivery_logs w ++ [row])), Returned [row])
  else (w, Thrown (DatabaseError "23503" "delivery_logs_notification_id_fkey")).

(** The rows that [FROM delivery_logs [WHERE created_at >= $1]] ranges over. *)
Definition logs_since (since : option Z) (w : World) : list DeliveryLog :=
  match since with
  | Some s => List.filter (fun l => s <=? l_created_at l) (delivery_logs w)
  | None => delivery_logs w
  end.

Definition is_sent (l : DeliveryLog) : bool :=
  bool_decide (l_status l = SENT).

(** [SELECT COUNT(CASE WHEN status = 'sent' THEN 1 END), COUNT( * ) FROM
    delivery_logs [WHERE created_at >= $1]]: one row with the two counts. *)
Definition select_sent_and_total (since : option Z) (w : World)
    : World * Outcome (nat * nat) :=
  let rows := logs_since since w in
  (w, Returned (List.length (List.filter is_sent rows), List.length rows)).

(** [ORDER BY]: the rows in the order of their keys.  SQL leaves the order of
    rows with equal keys open; here they stay in table order. *)
Fixpoint insert_by {A : Type} (le : A -> A -> bool) (x : A) (l : list A) : list A :=
  match l with
  | [] => [x]
  | y :: rest => if le x y then x :: l else y :: insert_by le x rest
  end.

Definition order_by {A : Type} (le : A -> A -> bool) (l : list A) : list A :=
  fold_right (insert_by le) [] l.

Definition of_user (user_id : string) (n : Notification) : bool :=
  String.eqb (n_user_id n) user_id.

Definition newer (n m : Notification) : bool := n_created_at m <=? n_created_at n.

(** [SELECT * FROM notifications WHERE user_id = $1 ORDER BY created_at DESC
    LIMIT $2 OFFSET $3]; the server rejects a negative OFFSET or LIMIT. *)
Definition select_notifications_by_user (user_id : string) (limit offset : Z)
    (w : World) : World * Outcome (list Notification) :=
  if offset <? 0 then (w, Thrown (DatabaseError "2201X" ""))
  else if limit <? 0 then (w, Thrown (DatabaseError "2201W" ""))
  else
    (w, Returned (firstn (Z.to_nat limit)
                    (skipn (Z.to_nat offset)
                       (order_by newer (List.filter (of_user user_id) (notifications w)))))).

Definition log_of (notification_id : Uuid) (l : DeliveryLog) : bool :=
  Nat.eqb (l_notification_id l) notification_id.

(** [DELETE FROM notifications WHERE id = $1], resolving with [rowCount]; the
    delivery logs of a deleted notification go with it ([ON DELETE CASCADE]). *)
Definition delete_notification (id : Uuid) (w : World) : World * Outcome nat :=
  if existsb (has_id id) (notifications w)
  then
    (set_delivery_logs
       (set_notifications w (List.filter (fun n => negb (has_id id n)) (notifications w)))
       (List.filter (fun l => negb (log_of id l)) (delivery_logs w)),
     Returned (List.length (List.filter (has_id id) (notifications w))))
  else (w, Returned 0%nat).

Definition lower_attempt (l m : DeliveryLog) : bool := l_attempt l <=? l_attempt m.
Definition later_log (l m : DeliveryLog) : bool := l_created_at m <=? l_created_at l.

(** [SELECT * FROM delivery_logs WHERE notification_id = $1 ORDER BY attempt
    ASC]. *)
Definition select_logs_by_notification (notification_id : Uuid) (w : World)
    : World * Outcome (list DeliveryLog) :=
  (w, Returned (order_by lower_attempt
                  (List.filter (log_of notification_id) (delivery_logs w)))).

(** [SELECT * FROM delivery_logs WHERE notification_id = $1 ORDER BY
    created_at DESC LIMIT 1]. *)
Definition select_latest_log (notification_id : Uuid) (w : World)
    : World * Outcome (list DeliveryLog) :=
  (w, Returned (firstn 1 (order_by later_log
                            (List.filter (log_of notification_id) (delivery_logs w))))).

(** [SELECT COUNT( * ) as count FROM delivery_logs WHERE status = $1 [AND
    created_at >= $2]]. *)
Definition count_logs_by_status (status : NotificationStatus) (since : option Z)
    (w : World) : World * Outcome nat :=
  (w, Returned (List.length
                  (List.filter (fun l => bool_decide (l_status l = status))
                     (logs_since since w)))).

Definition template_with_id (id : string) (t : Template) : bool := String.eqb (t_id t) id.

(** [INSERT INTO templates (...) VALUES (...) RETURNING *]: [id] is the
    primary key, and [id], [name] and [subject] have the widths of their
    columns, in characters. *)
Definition insert_template (id name : string) (channel : NotificationChannel)
    (subject : option string) (body : string) (variables : list string) (w : World)
    : World * Outcome (list Template) :=
  if (255 <? Js.chars id)%nat || (255 <? Js.chars name)%nat
     || match subject with Some s => (500 <? Js.chars s)%nat | None => false end
  then (w, Thrown (DatabaseError "22001" ""))
  else if existsb (template_with_id id) (templates w)
  then (w, Thrown (DatabaseError "23505" "templates_pkey"))
  else
    let row := {| t_id := id; t_name := name; t_channel := channel;
                  t_subject := subject; t_body := body; t_variables := variables |} in
    (set_templates w (templates w ++ [row]), Returned [row]).

(** [DELETE FROM templates WHERE id = $1], resolving with [rowCount]. *)
Definition delete_template (id : string) (w : World) : World * Outcome nat :=
  (set_templates w (List.filter (fun t => negb (template_with_id id t)) (templates w)),
   Returned (List.length (List.filter (template_with_id id) (templates w)))).

End Db.

(** [redisClient]: [GET] and [SETEX] on keys with a time to live. *)
Module Redis.

(** The value under a key that has not expired. *)
Definition live (key : string) (w : World) : option Uuid :=
  match cache w !! key with
  | Some (value, expires) => if clock w <? expires then Some value else None
  | None => None
  end.

Definition get (key : string) (w : World) : World * Outcome (option Uuid) :=
  (w, Returned (live key w)).

Definition setex (key : string) (ttl : Z) (value : Uuid) (w : World)
    : World * Outcome unit :=
  (set_cache w (<[key := (value, clock w + ttl)]> (cache w)), Returned tt).

(** [DEL key ...] on the entries of the cache: the keys are removed one after
    the other, and the number of those that held a live value is counted. *)
Fixpoint del_keys (keys : list string) (now : Z) (c : gmap string (Uuid * Z))
    : gmap string (Uuid * Z) * nat :=
  match keys with
  | [] => (c, 0%nat)
  | key :: rest =>
      let found := match c !! key with
                   | Some (_, expires) => now <? expires
                   | None => false
                   end in
      let '(c', n) := del_keys rest now (delete key c) in
      (c', if found then S n else n)
  end.

(** [redisClient.del(...keys)]; the server rejects the command without a
    key. *)
Definition del (keys : list string) (w : World) : World * Outcome nat :=
  match keys with
  | [] => (w, Thrown (JsError "ERR wrong number of arguments for 'del' command"))
  | _ :: _ =>
      let '(c, n) := del_keys keys (clock w) (cache w) in
      (set_cache w c, Returned n)
  end.

(** [redisClient.keys(prefix + '*')]: the keys with the prefix that hold a
    live value. *)
Definition keys (prefix : string) (w : World) : World * Outcome (list string) :=
  (w, Returned (List.filter
                  (fun key => String.prefix prefix key
                              && match live key w with Some _ => true | None => false end)
                  (map fst (map_to_list (cache w))))).

End Redis.

(** [notificationQueue.add(name, data, opts)]. *)
Module Queue.

Definition add (name : string) (notificationId : Uuid) (attempts : option Z)
    (backoff_delay : Z) (w : World) : World * Outcome Job :=
  if queue_up w then
    let job := {| job_name := name; job_notificationId := notificationId;
                  job_attempts := attempts; job_backoff_delay := backoff_delay;
                  job_attemptsMade := 0 |} in
    (set_queue w (queue w ++ [job]), Returned job)
  else (w, Thrown (JsError "Connection is closed.")).

End Queue.

(** ** models/Notification.ts *)

Module NotificationModel.

(** [parseNotification] copies the columns of the row. *)
Definition parseNotification (row : Notification) : Notification := row.

Definition create (dto : CreateNotificationDTO) (idempotencyKey : string)
    : Prog Notification :=
  rows ← await (Db.insert_notification (dto_user_id dto) (dto_channel dto)
                  (dto_template dto) (dto_data dto) PENDING idempotencyKey);
  match rows with
  | row :: _ => Ret (parseNotification row)
  | [] => Throw (TypeError "Cannot read properties of undefined")
  end.

Definition not_found (id : Uuid) : Error :=
  NotFoundError ("Notification with ID " ++ uuid_text id ++ " not found").

Definition findById (id : Uuid) : Prog Notification :=
  rows ← await (Db.select_notification_by_id id);
  match rows with
  | [] => Throw (not_found id)
  | row :: _ => Ret (parseNotification row)
  end.

Definition findByIdempotencyKey (key : string) : Prog (option Notification) :=
  rows ← await (Db.select_notification_by_key key);
  match rows with
  | [] => Ret None
  | row :: _ => Ret (Some (parseNotification row))
  end.

(** [errorMessage || null]: an absent or empty message is stored as NULL. *)
Definition or_null (errorMessage : option string) : option string :=
  match errorMessage with
  | Some m => if String.eqb m "" then None else Some m
  | None => None
  end.

Definition updateStatus (id : Uuid) (status : NotificationStatus)
    (errorMessage : option string) : Prog Notification :=
  rows ← await (Db.update_status id status (or_null errorMessage));
  match rows with
  | [] => Throw (not_found id)
  | row :: _ => Ret (parseNotification row)
  end.

Definition incrementRetryCount (id : Uuid) : Prog Notification :=
  rows ← await (Db.increment_retry_count id);
  match rows with
  | [] => Throw (not_found id)
  | row :: _ => Ret (parseNotification row)
  end.

(** [limit] and [offset] default to 50 and 0 when they are not given. *)
Definition findByUser (userId : string) (limit offset : option Z)
    : Prog (list Notification) :=
  rows ← await (Db.select_notifications_by_user userId (default 50 limit)
                  (default 0 offset));
  Ret (map parseNotification rows).

Definition delete (id : Uuid) : Prog unit :=
  rowCount ← await (Db.delete_notification id);
  if Nat.eqb rowCount 0 then Throw (not_found id) else Ret tt.

End NotificationModel.

(** ** models/Template.ts *)

Module TemplateModel.

Definition findById (id : string) : Prog Template :=
  rows ← await (Db.select_template_by_id id);
  match rows with
  | [] => Throw (NotFoundError ("Template with ID " ++ id ++ " not found"))
  | row :: _ => Ret row
  end.

(** [template.variables.filter(varName => data[varName] === undefined)]. *)
Definition missingVars (template : Template) (data : JsObject) : list string :=
  List.filter (fun varName => match JsValue.get data varName with
                         | None => true
                         | Some _ => false
                         end) (t_variables template).

Definition validateVariables (template : Template) (data : JsObject)
    : bool * list string :=
  let missing := missingVars template data in
  (Nat.eqb (List.length missing) 0, missing).

(** [template.subject || null]: an absent or empty subject is stored as
    NULL. *)
Definition create (template : Template) : Prog Template :=
  rows ← await (Db.insert_template (t_id template) (t_name template)
                  (t_channel template) (NotificationModel.or_null (t_subject template))
                  (t_body template) (t_variables template));
  match rows with
  | row :: _ => Ret row
  | [] => Throw (TypeError "Cannot read properties of undefined")
  end.

(** The fields that [update] can set; [None] stands for [undefined]. *)
Record TemplateUpdates : Type := {
  u_name : option string;
  u_subject : option string;
  u_body : option string;
  u_variables : option (list string) }.

(** One step of the construction of the SET clause: the clause and the value
    of a field that is given, and the index of the next parameter. *)
Definition set_field (column : string) (value : option json)
    (acc : list string * list json * Z) : list string * list json * Z :=
  let '(setClauses, values, paramIndex) := acc in
  match value with
  | Some v => ((setClauses ++ [(column ++ " = " ++ Js.show_Z paramIndex)%string])%list,
               (values ++ [v])%list, paramIndex + 1)
  | None => acc
  end.

(** [update], up to its call of [pool.query]: the text of the statement and
    the values that are passed with it, or the error for an update that sets
    no field.  The clauses are built with [`name = ${paramIndex}`]. *)
Definition update_statement (id : string) (updates : TemplateUpdates)
    : Outcome (string * list json) :=
  let '(setClauses, values, _) :=
    set_field "variables"
      (option_map (fun vs => JStr (JSON.stringify (JArr (map JStr vs))))
         (u_variables updates))
      (set_field "body" (option_map JStr (u_body updates))
         (set_field "subject" (option_map JStr (u_subject updates))
            (set_field "name" (option_map JStr (u_name updates)) ([], [], 2)))) in
  let setClauses := (setClauses ++ ["updated_at = CURRENT_TIMESTAMP"])%list in
  if Nat.eqb (List.length setClauses) 1 then Thrown (JsError "No fields to update")
  else
    Returned ("
      UPDATE templates
      SET " ++ Js.join ", " setClauses ++ "
      WHERE id = $1
      RETURNING *
    ",
              JStr id :: values).

Definition delete (id : string) : Prog unit :=
  rowCount ← await (Db.delete_template id);
  if Nat.eqb rowCount 0
  then Throw (NotFoundError ("Template with ID " ++ id ++ " not found"))
  else Ret tt.

End TemplateModel.

(** ** utils/idempotency.ts: the cache *)

Definition cache_key (key : string) : string := "idempotency:" ++ key.

Definition checkIdempotency (key : string) : Prog (option Uuid) :=
  await (Redis.get (cache_key key)).

Definition storeIdempotencyKey (key : string) (notificationId : Uuid)
    (ttlSeconds : Z) : Prog unit :=
  await (Redis.setex (cache_key key) ttlSeconds notificationId).

Definition deleteIdempotencyKey (key : string) : Prog unit :=
  await (Redis.del [cache_key key]);;
  Ret tt.

Definition getAllIdempotencyKeys : Prog (list string) :=
  await (Redis.keys "idempotency:").

Definition clearAllIdempotencyKeys : Prog nat :=
  keys ← getAllIdempotencyKeys;
  if Nat.eqb (List.length keys) 0 then Ret 0%nat
  else await (Redis.del keys).

(** The default of the [ttlSeconds] parameter: 24 hours. *)
Definition default_ttl : Z := 86400.

(** ** channels/NotificationChannels.ts *)

Global Instance Outcome_ret : MRet Outcome := fun A a => Returned a.
Global Instance Outcome_bind : MBind Outcome := fun A B f o =>
  match o with
  | Returned a => f a
  | Thrown e => Thrown e
  end.

(** Synchronous [try { o } catch (error) { handler error }]. *)
Definition catch {A : Type} (o : Outcome A) (handler : Error -> Outcome A) : Outcome A :=
  match o with
  | Returned a => Returned a
  | Thrown e => handler e
  end.

Record ChannelSendResult : Type := {
  success : bool;
  messageId : option string;
  error : option string;
  providerResponse : option json }.

(** What the provider answers to a send: the promise of [sgMail.send] or of
    [client.messages.create] resolves or rejects; for the simulated push
    provider, [Accepted] is the branch [Math.random() > 0.10]. *)
Inductive ProviderReply : Type :=
| Accepted (message_id : string) (response : json)
| Rejected (message : string) (details : json).

(** The environment of one delivery attempt: the provider, and the random
    suffix of the mock device token. *)
Record Env : Type := {
  deliver : NotificationChannel -> string -> option string -> string -> ProviderReply;
  random_suffix : string }.

(** The longest prefix of [\w] characters, and what follows it. *)
Fixpoint span_word (s : string) : string * string :=
  match s with
  | String c t =>
      if Js.is_word_char c
      then let '(w, r) := span_word t in (String c w, r)
      else ("", s)
  | EmptyString => ("", "")
  end.

(** Whether [/\{\{(\w+)\}\}/] matches at the start of [s], and the captured
    variable name. *)
Definition match_placeholder (s : string) : option string :=
  match s with
  | String "{"%char (String "{"%char t) =>
      match span_word t with
      | (String c w, String "}"%char (String "}"%char _)) => Some (String c w)
      | _ => None
      end
  | _ => None
  end.

Definition placeholder (key : string) : string := "{{" ++ key ++ "}}".

(** [s.replace(/\{\{(\w+)\}\}/g, callback)]: the matches are found from left
    to right and do not overlap; [skip] counts the characters of the current
    match that are still to be passed over. *)
Fixpoint replace_placeholders (callback : string -> string -> Outcome string)
    (skip : nat) (s : string) : Outcome string :=
  match s with
  | EmptyString => Returned ""
  | String c t =>
      match skip with
      | S skip' => replace_placeholders callback skip' t
      | O =>
          match match_placeholder s with
          | Some key =>
              replacement ← callback (placeholder key) key;
              rest ← replace_placeholders callback (String.length key + 3) t;
              Returned (replacement ++ rest)
          | None =>
              rest ← replace_placeholders callback 0 t;
              Returned (String c rest)
          end
      end
  end.

(** The callback [(match, key) => data[key]?.toString() || match]. *)
Definition substitution (data : JsObject) (matched key : string) : Outcome string :=
  match JsValue.get data key with
  | None => Returned matched
  | Some (JsValue.Own JNull) => Returned matched
  | Some (JsValue.Own v) =>
      text ← JsString.toString v;
      Returned (if String.eqb text "" then matched else text)
  | Some (JsValue.Inherited text) =>
      Returned (if String.eqb text "" then matched else text)
  end.

Definition renderTemplate (template : string) (data : JsObject) : Outcome string :=
  replace_placeholders (substitution data) 0 template.

(** The caught error as a value: what [JSON.stringify] later sees of it are
    its enumerable properties, of which a plain [Error] has none. *)
Definition error_object (e : Error) : json :=
  match e with
  | ProviderError _ details => details
  | _ => JObj []
  end.

(** The awaited call to the provider. *)
Definition call_provider (reply : ProviderReply) : Outcome (string * json) :=
  match reply with
  | Accepted message_id response => Returned (message_id, response)
  | Rejected message details => Thrown (ProviderError message details)
  end.

Definition is_space (c : ascii) : bool :=
  let n := Js.code c in ((9 <=? n) && (n <=? 13)) || (n =? 32).

Definition is_digit (c : ascii) : bool :=
  let n := Js.code c in (48 <=? n) && (n <=? 57).

Module EmailChannel.

Definition getName : NotificationChannel := EMAIL.

Definition plain (c : ascii) : bool := negb (is_space c) && negb (Js.code c =? 64).

(** Some [.] of [s] has a character before it and one after it. *)
Fixpoint inner_dot (first : bool) (s : string) : bool :=
  match s with
  | String c (String d t as rest) =>
      (negb first && (Js.code c =? 46)) || inner_dot false rest
  | _ => false
  end.

(** [/^[^\s@]+@[^\s@]+\.[^\s@]+$/], for the white space of ASCII. *)
Fixpoint validate (seen_local : bool) (s : string) : bool :=
  match s with
  | EmptyString => false
  | String c t =>
      if Js.code c =? 64
      then seen_local && forallb plain (list_ascii_of_string t) && inner_dot true t
      else plain c && validate true t
  end.

Definition validateRecipient (email : string) : bool := validate false email.

(** The message is rendered before the [try]; [template.subject!] is an
    unchecked assertion, and rendering an absent subject calls [replace] on
    [null].  The API key and the sender address of the environment are taken
    to be configured. *)
Definition send (env : Env) (recipient : string) (template : Template)
    (data : JsObject) : Outcome ChannelSendResult :=
  subject ← match t_subject template with
            | Some s => renderTemplate s data
            | None => Thrown (TypeError "Cannot read properties of null (reading 'replace')")
            end;
  html ← renderTemplate (t_body template) data;
  catch
    ('(message_id, response) ← call_provider (deliver env EMAIL recipient (Some subject) html);
     Returned {| success := true; messageId := Some message_id; error := None;
                 providerResponse := Some response |})
    (fun e =>
       Returned {| success := false; messageId := Some ""; error := None;
                   providerResponse := Some (error_object e) |}).

End EmailChannel.

Module SMSChannel.

Definition getName : NotificationChannel := SMS.

(** [/^\+[1-9]\d{9,14}$/]. *)
Definition validateRecipient (phone : string) : bool :=
  match phone with
  | String "+"%char (String c digits) =>
      is_digit c && negb (Js.code c =? 48)
      && forallb is_digit (list_ascii_of_string digits)
      && (9 <=? String.length digits)%nat && (String.length digits <=? 14)%nat
  | _ => false
  end.

Definition send (env : Env) (recipient : string) (template : Template)
    (data : JsObject) : Outcome ChannelSendResult :=
  catch
    (body ← renderTemplate (t_body template) data;
     '(message_id, response) ← call_provider (deliver env SMS recipient None body);
     Returned {| success := true; messageId := Some message_id; error := None;
                 providerResponse := Some response |})
    (fun e =>
       Returned {| success := false; messageId := Some ""; error := None;
                   providerResponse := Some (error_object e) |}).

End SMSChannel.

Module PushChannel.

Definition getName : NotificationChannel := PUSH.

(** [token.length > 20 && token.length < 300]. *)
Definition validateRecipient (token : string) : bool :=
  (20 <? String.length token)%nat && (String.length token <? 300)%nat.

(** The simulated provider: the failure branch throws inside the [try].  The
    rendered body is also parsed as JSON, with a fallback, for the title and
    the body that are written to the console; the result does not depend on
    it. *)
Definition send (env : Env) (recipient : string) (template : Template)
    (data : JsObject) : Outcome ChannelSendResult :=
  catch
    (if negb (validateRecipient recipient)
     then Returned {| success := false; messageId := None;
                      error := Some ("Invalid device token: "
                                       ++ String.substring 0 20 recipient ++ "...");
                      providerResponse := None |}
     else
       body ← renderTemplate (t_body template) data;
       match deliver env PUSH recipient None body with
       | Accepted message_id response =>
           Returned {| success := true; messageId := Some message_id; error := None;
                       providerResponse := Some response |}
       | Rejected _ _ => Thrown (JsError "Invalid device token or app not installed")
       end)
    (fun e =>
       Returned {| success := false; messageId := None; error := Some (message_of e);
                   providerResponse :=
                     Some (JObj [("provider", JStr "FCM");
                                 ("error", JStr (message_of e))]) |}).

End PushChannel.

(** The interface [INotificationChannel]. *)
Record INotificationChannel : Type := {
  send : Env -> string -> Template -> JsObject -> Outcome ChannelSendResult;
  validateRecipient : string -> bool;
  getName : NotificationChannel }.

Definition emailChannel : INotificationChannel :=
  {| send := EmailChannel.send; validateRecipient := EmailChannel.validateRecipient;
     getName := EmailChannel.getName |}.
Definition smsChannel : INotificationChannel :=
  {| send := SMSChannel.send; validateRecipient := SMSChannel.validateRecipient;
     getName := SMSChannel.getName |}.
Definition pushChannel : INotificationChannel :=
  {| send := PushChannel.send; validateRecipient := PushChannel.validateRecipient;
     getName := PushChannel.getName |}.

Definition channel_name (c : NotificationChannel) : string :=
  match c with EMAIL => "email" | SMS => "sms" | PUSH => "push" end.

(** Modelled from the spec: the values of the status enumeration of
    [types.ts], as the CHECK constraint of the [notifications] table and the
    query of [getSuccessRate] spell them. *)
Definition status_name (s : NotificationStatus) : string :=
  match s with
  | PENDING => "pending" | QUEUED => "queued" | PROCESSING => "processing"
  | SENT => "sent" | FAILED => "failed" | RETRYING => "retrying"
  end.

Module ChannelFactory.

(** The registry built at start-up. *)
Definition channels : list (NotificationChannel * INotificationChannel) :=
  [ (EMAIL, emailChannel); (SMS, smsChannel); (PUSH, pushChannel) ].

Definition getChannel (channel : NotificationChannel) : Outcome INotificationChannel :=
  match List.find (fun entry => bool_decide (fst entry = channel)) channels with
  | Some entry => Returned (snd entry)
  | None => Thrown (JsError ("Unsupported channel: " ++ channel_name channel))
  end.

End ChannelFactory.

(** ** models/DeliveryLog.ts *)

Module DeliveryLogModel.

Definition parseDeliveryLog (row : DeliveryLog) : DeliveryLog := row.

(** [providerResponse ? JSON.stringify(providerResponse) : null]. *)
Definition response_column (providerResponse : option json) : option string :=
  match providerResponse with
  | Some v => if JsValue.truthy v then Some (JSON.stringify v) else None
  | None => None
  end.

Definition create (notificationId : Uuid) (attempt : Z) (status : NotificationStatus)
    (errorMessage : option string) (providerResponse : option json)
    : Prog DeliveryLog :=
  rows ← await (Db.insert_delivery_log notificationId attempt status
                  (NotificationModel.or_null errorMessage)
                  (response_column providerResponse));
  match rows with
  | row :: _ => Ret (parseDeliveryLog row)
  | [] => Throw (TypeError "Cannot read properties of undefined")
  end.

Definition findByNotification (notificationId : Uuid) : Prog (list DeliveryLog) :=
  rows ← await (Db.select_logs_by_notification notificationId);
  Ret (map parseDeliveryLog rows).

Definition findLatest (notificationId : Uuid) : Prog (option DeliveryLog) :=
  rows ← await (Db.select_latest_log notificationId);
  match rows with
  | [] => Ret None
  | row :: _ => Ret (Some (parseDeliveryLog row))
  end.

Definition countByStatus (status : NotificationStatus) (since : option Z) : Prog nat :=
  await (Db.count_logs_by_status status since).

(** The double nearest to a count; exact below 2^53. *)
Fixpoint float_of_positive (p : positive) : float :=
  match p with
  | xH => 1%float
  | xO q => (2 * float_of_positive q)%float
  | xI q => (2 * float_of_positive q + 1)%float
  end.

Definition float_of_count (n : nat) : float :=
  match N.of_nat n with
  | N0 => 0%float
  | Npos p => float_of_positive p
  end.

(** [Math.round] on [0 <= x < 2^52]: the nearest integer, a tie going up.
    Adding and subtracting 2^52 rounds [x] to an integer [r]; the integer
    below [x] is [r] or [r - 1], and the distance from it to [x] is exact. *)
Definition Math_round (x : float) : float :=
  let r := (x + 4503599627370496 - 4503599627370496)%float in
  let floor := if (x <? r)%float then (r - 1)%float else r in
  if (x - floor <? 0.5)%float then floor else (floor + 1)%float.

(** The arithmetic of [getSuccessRate] on the two counts of the query. *)
Definition rate (sent total : float) : float :=
  if (total =? 0)%float then 0%float
  else (Math_round (sent / total * 100 * 100) / 100)%float.

Definition getSuccessRate (since : option Z) : Prog float :=
  '(sent, total) ← await (Db.select_sent_and_total since);
  Ret (rate (float_of_count sent) (float_of_count total)).

End DeliveryLogModel.

(** ** services/NotificationService.ts *)

Module NotificationService.

(** The [try]/[catch] around [TemplateModel.findById]. *)
Definition find_template (template : string) : Prog Template :=
  try_catch (TemplateModel.findById template)
    (fun error =>
       match error with
       | NotFoundError _ =>
           Throw (BadRequestError ("Template '" ++ template ++ "' not found"))
       | _ => Throw error
       end).

Definition createNotification (dto : CreateNotificationDTO) : Prog Notification :=
  let idempotencyKey :=
    generateIdempotencyKey (dto_user_id dto) (dto_template dto) (dto_data dto) in
  cachedNotificationId ← checkIdempotency idempotencyKey;
  match cachedNotificationId with
  | Some cached => NotificationModel.findById cached
  | None =>
      existingNotification ← NotificationModel.findByIdempotencyKey idempotencyKey;
      match existingNotification with
      | Some existing =>
          storeIdempotencyKey idempotencyKey (n_id existing) default_ttl;;
          Ret existing
      | None =>
          template ← find_template (dto_template dto);
          if bool_decide (t_channel template ≠ dto_channel dto) then
            Throw (BadRequestError
                     ("Template '" ++ dto_template dto ++ "' is for "
                        ++ channel_name (t_channel template) ++ ", not "
                        ++ channel_name (dto_channel dto)))
          else
            let validation := TemplateModel.validateVariables template (dto_data dto) in
            if negb (fst validation) then
              Throw (BadRequestError
                       ("Missing required template variables: "
                          ++ Js.join ", " (snd validation)))
            else
              notification ← NotificationModel.create dto idempotencyKey;
              await (Queue.add "send-notification" (n_id notification) (Some 3) 2000);;
              storeIdempotencyKey idempotencyKey (n_id notification) default_ttl;;
              Ret notification
      end
  end.

Definition getNotificationById (id : Uuid) : Prog Notification :=
  NotificationModel.findById id.

(** [updateData] is built and not used: the error message is not passed on. *)
Definition updateNotificationStatus (id : Uuid) (status : NotificationStatus)
    (errorMessage : option string) : Prog Notification :=
  NotificationModel.updateStatus id status None.

(** [updateData], with [retry_count + 1], is built and not used: the status
    becomes RETRYING and the count is left as it is. *)
Definition incrementRetryCount (id : Uuid) : Prog Notification :=
  notification ← NotificationModel.findById id;
  NotificationModel.updateStatus id RETRYING None.

Definition getUserNotifications (userId : string) (limit offset : option Z)
    : Prog (list Notification) :=
  NotificationModel.findByUser userId (Some (default 50 limit)) (Some (default 0 offset)).

Definition retryFailedNotification (id : Uuid) : Prog Notification :=
  notification ← NotificationModel.findById id;
  if bool_decide (n_status notification ≠ FAILED) then
    Throw (BadRequestError ("Cannot retry notification with status: "
                              ++ status_name (n_status notification)))
  else
    NotificationModel.updateStatus id RETRYING None;;
    await (Queue.add "send-notification" id (Some 3) 2000);;
    NotificationModel.findById id.

End NotificationService.

(** ** middleware/errorHandler.ts and routes/notifications.ts *)

(** The body of a response: [{success: true, message: 'Notification queued
    for processing', data: {id, status, created_at}}] of
    [POST /api/notifications], and [{success: false, error}] of the error
    handler. *)
Inductive Body : Type :=
| QueuedBody (id : Uuid) (status : NotificationStatus) (created_at : Z)
| ErrorBody (error : string).

Record Response : Type := {
  res_status : Z;
  res_body : Body }.

(** [statusCode] of an error that is an [ApiError]. *)
Definition api_status (err : Error) : option Z :=
  match err with
  | BadRequestError _ => Some 400
  | NotFoundError _ => Some 404
  | _ => None
  end.

(** The response of [errorHandler]; the [stack] and the [details] that a
    development deployment adds to the body are left out. *)
Definition errorHandler (err : Error) : Response :=
  match api_status err with
  | Some statusCode => {| res_status := statusCode; res_body := ErrorBody (message_of err) |}
  | None => {| res_status := 500; res_body := ErrorBody "Internal Server Error" |}
  end.

(** [asyncHandler(fn)] in the application: a rejection of the handler is
    passed to [next], which is answered by [errorHandler]. *)
Definition asyncHandler (handler : Prog Response) : Prog Response :=
  try_catch handler (fun err => Ret (errorHandler err)).

Module Routes.

(** [POST /api/notifications], once the body has passed validation. *)
Definition post (dto : CreateNotificationDTO) : Prog Response :=
  asyncHandler
    (notification ← NotificationService.createNotification dto;
     Ret {| res_status := 202;
            res_body := QueuedBody (n_id notification) (n_status notification)
                          (n_created_at notification) |}).

End Routes.

(** ** workers/NotificationWorker.ts *)

Module NotificationWorker.

Definition getRecipientForUser (env : Env) (userId : string)
    (channel : NotificationChannel) : string :=
  match channel with
  | EMAIL => "user" ++ userId ++ "@example.com"
  | SMS => "+1555" ++ JsString.padStart userId 7 "0"
  | PUSH => "fcm_token_" ++ userId ++ "_" ++ random_suffix env
  end.

(** The resolved value of the job: [{ success, messageId? }]. *)
Record JobResult : Type := {
  jr_success : bool;
  jr_messageId : option string }.

(** [job.opts.attempts || 1]. *)
Definition max_attempts (job : Job) : Z :=
  match job_attempts job with
  | Some a => if a =? 0 then 1 else a
  | None => 1
  end.

(** [result.error || 'Failed to send notification']. *)
Definition failure_message (result : ChannelSendResult) : string :=
  match error result with
  | Some m => if String.eqb m "" then "Failed to send notification" else m
  | None => "Failed to send notification"
  end.

Definition processNotification (env : Env) (job : Job) : Prog JobResult :=
  let notificationId := job_notificationId job in
  try_catch
    (notification ← NotificationModel.findById notificationId;
     if bool_decide (n_status notification = SENT) then
       Ret {| jr_success := true; jr_messageId := None |}
     else
       NotificationModel.updateStatus notificationId PROCESSING None;;
       template ← TemplateModel.findById (n_template_id notification);
       let recipient :=
         getRecipientForUser env (n_user_id notification) (n_channel notification) in
       channel ← lift (ChannelFactory.getChannel (n_channel notification));
       result ← lift (send channel env recipient template (n_data notification));
       (if success result then
          NotificationModel.updateStatus notificationId SENT None
        else
          let isLastAttempt := max_attempts job <=? job_attemptsMade job + 1 in
          NotificationModel.updateStatus notificationId
            (if isLastAttempt then FAILED else RETRYING) None);;
       DeliveryLogModel.create notificationId (job_attemptsMade job + 1)
         (if success result then SENT else FAILED)
         (error result) (providerResponse result);;
       if success result then
         Ret {| jr_success := true; jr_messageId := messageId result |}
       else
         Throw (JsError (failure_message result)))
    (fun error =>
       try_catch
         (DeliveryLogModel.create notificationId (job_attemptsMade job + 1) FAILED
            (Some (message_of error))
            (Some (JObj [("error", JStr (string_of_error error))]));;
          Ret tt)
         (fun logError => Ret tt);;
       Throw error).

End NotificationWorker.

(** * Vocabulary of the properties *)

(** ** Programs *)

(** A relation between the world before and after that every atomic action
    of a program respects is respected by the whole run. *)
Inductive Respects {A : Type} (R : World -> World -> Prop) : Prog A -> Prop :=
| Respects_Ret (a : A) : Respects R (Ret a)
| Respects_Throw (e : Error) : Respects R (Throw e)
| Respects_Await (X : Type) (action : World -> World * X) (k : X -> Prog A) :
    (forall w, R w (fst (action w))) ->
    (forall x, Respects R (k x)) ->
    Respects R (Await action k).

(** The first [n] atomic actions of a program. *)
Fixpoint steps {A : Type} (n : nat) (p : Prog A) (w : World) : World * Prog A :=
  match n with
  | O => (w, p)
  | S n' => let '(w', p') := step p w in steps n' p' w'
  end.

(** ** Sample data *)

(** Templates like those of the migration, the request of Scenario A of the
    specification, and two providers. *)
Module Sample.

Definition welcome_email : Template :=
  {| t_id := "welcome_email"; t_name := "Welcome Email"; t_channel := EMAIL;
     t_subject := Some "Welcome to {{app_name}}!";
     t_body := "Hello {{name}}, welcome! Get started: {{link}}";
     t_variables := ["name"; "app_name"; "link"] |}.

Definition order_shipped : Template :=
  {| t_id := "order_shipped"; t_name := "Order Shipped"; t_channel := SMS;
     t_subject := None;
     t_body := "Hi {{name}}, your order #{{order_id}} has shipped! Track it here: {{tracking_link}}";
     t_variables := ["name"; "order_id"; "tracking_link"] |}.

(** An email template without a subject, as the [templates] table allows. *)
Definition plain_email : Template :=
  {| t_id := "plain_email"; t_name := "Plain"; t_channel := EMAIL;
     t_subject := None; t_body := "Hello {{name}}"; t_variables := ["name"] |}.

(** The store after the migration: no notification, no log, nothing cached or
    queued. *)
Definition seeded : World :=
  {| notifications := []; templates := [welcome_email; order_shipped; plain_email];
     delivery_logs := []; cache := ∅; queue := []; queue_up := true;
     clock := 1000; next_uuid := 0%nat |}.

Definition john : JsObject :=
  [("name", JStr "John"); ("app_name", JStr "X"); ("link", JStr "https://x")].

Definition request : CreateNotificationDTO :=
  {| dto_user_id := "u1"; dto_channel := EMAIL; dto_template := "welcome_email";
     dto_data := john |}.

(** The same logical request, asked for on another channel. *)
Definition request_sms : CreateNotificationDTO :=
  {| dto_user_id := "u1"; dto_channel := SMS; dto_template := "welcome_email";
     dto_data := john |}.

(** The store once [request] has been accepted, and the notification that it
    holds. *)
Definition accepted : World :=
  Eval vm_compute in fst (run (NotificationService.createNotification request) seeded).

Definition stored : Notification :=
  Eval vm_compute in hd (Build_Notification 0%nat "" EMAIL "" [] PENDING "" None 0 0 0)
                        (notifications accepted).

(** The job that was enqueued for it, at its first attempt. *)
Definition first_attempt : Job :=
  {| job_name := "send-notification"; job_notificationId := 0%nat;
     job_attempts := Some 3; job_backoff_delay := 2000; job_attemptsMade := 0 |}.

(** A provider that accepts every message, and one that rejects them all. *)
Definition accepting : Env :=
  {| deliver := fun _ _ _ _ => Accepted "msg-1" (JObj [("statusCode", JNum 202)]);
     random_suffix := "k3j9x0q2m1z" |}.
Definition rejecting : Env :=
  {| deliver := fun _ _ _ _ => Rejected "Unauthorized" (JObj [("code", JNum 401)]);
     random_suffix := "k3j9x0q2m1z" |}.

End Sample.

(** ** The store and the requests *)

(** The idempotency key of a request. *)
Definition request_key (dto : CreateNotificationDTO) : string :=
  generateIdempotencyKey (dto_user_id dto) (dto_template dto) (dto_data dto).

(** The constraints of the [notifications] table: [id] is the primary key,
    identifiers that were handed out are not handed out again, and
    [idempotency_key] is UNIQUE. *)
Record store_ok (w : World) : Prop := {
  ids_unique : NoDup (map n_id (notifications w));
  ids_used : Forall (fun n => (n_id n < next_uuid w)%nat) (notifications w);
  keys_unique : NoDup (map n_idempotency_key (notifications w)) }.

(** The constraints are kept from one world to the other. *)
Definition keeps_store_ok (w w' : World) : Prop := store_ok w -> store_ok w'.

(** The template that [TemplateModel.findById] reads. *)
Definition template_named (id : string) (w : World) : option Template :=
  head (List.filter (fun t => String.eqb (t_id t) id) (templates w)).

(** No live cache entry and no stored notification for the key of the
    request. *)
Definition not_duplicate (dto : CreateNotificationDTO) (w : World) : Prop :=
  Redis.live (cache_key (request_key dto)) w = None
  /\ existsb (Db.has_key (request_key dto)) (notifications w) = false.

(** A request that passes every check of [createNotification]. *)
Record acceptable (dto : CreateNotificationDTO) (w : World) (template : Template)
    : Prop := {
  acceptable_fresh : not_duplicate dto w;
  acceptable_template : template_named (dto_template dto) w = Some template;
  acceptable_channel : t_channel template = dto_channel dto;
  acceptable_variables : TemplateModel.missingVars template (dto_data dto) = [] }.

(** The row that an accepted request inserts. *)
Definition new_row (dto : CreateNotificationDTO) (w : World) : Notification :=
  {| n_id := next_uuid w; n_user_id := dto_user_id dto; n_channel := dto_channel dto;
     n_template_id := dto_template dto; n_data := dto_data dto; n_status := PENDING;
     n_idempotency_key := request_key dto; n_error_message := None;
     n_retry_count := 0; n_created_at := clock w; n_updated_at := clock w |}.

(** The job that an accepted request enqueues. *)
Definition new_job (w : World) : Job :=
  {| job_name := "send-notification"; job_notificationId := next_uuid w;
     job_attempts := Some 3; job_backoff_delay := 2000; job_attemptsMade := 0 |}.

(** The world once a request has been accepted. *)
Definition accept (dto : CreateNotificationDTO) (w : World) : World :=
  {| notifications := notifications w ++ [new_row dto w];
     templates := templates w; delivery_logs := delivery_logs w;
     cache := <[cache_key (request_key dto) := (next_uuid w, clock w + default_ttl)]>
                (cache w);
     queue := queue w ++ [new_job w]; queue_up := queue_up w; clock := clock w;
     next_uuid := S (next_uuid w) |}.

(** ** The attempts of the worker *)

(** The retry counts of the stored notifications are the same in both
    worlds. *)
Definition same_retry_counts (w w' : World) : Prop :=
  map n_retry_count (notifications w') = map n_retry_count (notifications w).

(** What the channel of a notification answers to the worker's call. *)
Definition send_outcome (env : Env) (n : Notification) (template : Template)
    : Outcome ChannelSendResult :=
  channel ← ChannelFactory.getChannel (n_channel n);
  send channel env
    (NotificationWorker.getRecipientForUser env (n_user_id n) (n_channel n))
    template (n_data n).

(** The number of [DeliveryLogModel.create] calls that insert a row during
    one attempt, by the answer of the channel. *)
Definition logs_written (o : Outcome ChannelSendResult) : nat :=
  match o with
  | Returned result => if success result then 1 else 2
  | Thrown _ => 1
  end.

(** The row that [DeliveryLogModel.create] inserts. *)
Definition new_log (id : Uuid) (attempt : Z) (status : NotificationStatus)
    (message : option string) (response : option json) (w : World) : DeliveryLog :=
  {| l_id := next_uuid w; l_notification_id := id; l_attempt := attempt;
     l_status := status; l_error_message := NotificationModel.or_null message;
     l_provider_response := DeliveryLogModel.response_column response;
     l_created_at := clock w |}.

(** The world once a delivery log has been inserted. *)
Definition log_appended (row : DeliveryLog) (w : World) : World :=
  fresh_uuid (set_delivery_logs w (delivery_logs w ++ [row])).

(** ** The delivery log *)

(** The logs of the window that record a sent attempt, and all its logs. *)
Definition sent_count (since : option Z) (w : World) : nat :=
  List.length (List.filter Db.is_sent (Db.logs_since since w)).
Definition total_count (since : option Z) (w : World) : nat :=
  List.length (Db.logs_since since w).

(** The ratio of the two counts, 0 for an empty window. *)
Definition ratio (sent total : nat) : float :=
  if Nat.eqb total 0 then 0%float
  else (DeliveryLogModel.float_of_count sent / DeliveryLogModel.float_of_count total)%float.

(** The percentage that the two counts give. *)
Definition percentage (sent total : nat) : float :=
  DeliveryLogModel.rate (DeliveryLogModel.float_of_count sent)
    (DeliveryLogModel.float_of_count total).

(** A delivery log of the given status, written at the given time. *)
Definition log_at (id : Uuid) (status : NotificationStatus) (time : Z) : DeliveryLog :=
  {| l_id := id; l_notification_id := 0%nat; l_attempt := 1; l_status := status;
     l_error_message := None; l_provider_response := None; l_created_at := time |}.

(** A log with 950 sent and 50 failed attempts. *)
Definition world_950_50 : World :=
  {| notifications := []; templates := [];
     delivery_logs := repeat (log_at 1%nat SENT 10) 950 ++ repeat (log_at 2%nat FAILED 10) 50;
     cache := ∅; queue := []; queue_up := true; clock := 20; next_uuid := 3%nat |}.

(** A log with 1 sent and 2 failed attempts. *)
Definition world_1_2 : World :=
  {| notifications := []; templates := [];
     delivery_logs := [log_at 1%nat SENT 10; log_at 2%nat FAILED 10; log_at 3%nat FAILED 10];
     cache := ∅; queue := []; queue_up := true; clock := 20; next_uuid := 4%nat |}.

(** ** Templates *)

Fixpoint all_word (s : string) : bool :=
  match s with
  | EmptyString => true
  | String c t => Js.is_word_char c && all_word t
  end.

(** A variable name: a non-empty run of [\w] characters. *)
Definition is_variable (key : string) : bool :=
  match key with
  | EmptyString => false
  | String _ _ => all_word key
  end.

(** Text in which no placeholder can start. *)
Fixpoint brace_free (s : string) : bool :=
  match s with
  | EmptyString => true
  | String c t => negb (Ascii.eqb c "{") && brace_free t
  end.

(** A template as a sequence of texts and [{{variable}}] placeholders. *)
Inductive segment : Type :=
| Text (s : string)
| Variable_ (key : string).

(** The template that a list of segments spells. *)
Definition source (segments : list segment) : string :=
  fold_right String.append ""
    (map (fun seg => match seg with
                     | Text s => s
                     | Variable_ key => placeholder key
                     end) segments).

(** What a segment is rendered as, for the payloads that the property covers:
    text without [{] stays; a placeholder whose variable has a value that is
    not null and whose string form is not empty becomes that string form; a
    placeholder whose variable is null, or is neither in the payload nor a
    member of [Object.prototype], stays. *)
Inductive renders (data : JsObject) : segment -> string -> Prop :=
| renders_text (s : string) :
    brace_free s = true -> renders data (Text s) s
| renders_value (key : string) (v : json) (text : string) :
    is_variable key = true ->
    JsValue.assoc key data = Some v -> v <> JNull ->
    JsString.toString v = Returned text -> text <> "" ->
    renders data (Variable_ key) text
| renders_null (key : string) :
    is_variable key = true ->
    JsValue.assoc key data = Some JNull ->
    renders data (Variable_ key) (placeholder key)
| renders_missing (key : string) :
    is_variable key = true ->
    JsValue.assoc key data = None ->
    JsValue.assoc key JsValue.object_prototype = None ->
    renders data (Variable_ key) (placeholder key).

(** The variable names of the placeholders of a template, in order. *)
Fixpoint placeholders (skip : nat) (s : string) : list string :=
  match s with
  | EmptyString => []
  | String c t =>
      match skip with
      | S skip' => placeholders skip' t
      | O =>
          match match_placeholder s with
          | Some key => key :: placeholders (String.length key + 3) t
          | None => placeholders 0 t
          end
      end
  end.

(** The string without its first [n] characters. *)
Fixpoint drop (n : nat) (s : string) : string :=
  match n, s with
  | S n', String _ t => drop n' t
  | _, _ => s
  end.

(** ** JSON texts *)

(** Induction on a JSON value, with the property known of the items of an
    array and of the member values of an object. *)
Section JsonInduction.

Variable P : json -> Prop.
Hypothesis Hnull : P JNull.
Hypothesis Hbool : forall b, P (JBool b).
Hypothesis Hnum : forall n, P (JNum n).
Hypothesis Hstr : forall s, P (JStr s).
Hypothesis Harr : forall items, Forall P items -> P (JArr items).
Hypothesis Hobj : forall members, Forall (fun kv => P (snd kv)) members -> P (JObj members).

Fixpoint json_induction (v : json) : P v :=
  match v with
  | JNull => Hnull
  | JBool b => Hbool b
  | JNum n => Hnum n
  | JStr s => Hstr s
  | JArr items =>
      Harr items
        ((fix all (l : list json) : Forall P l :=
            match l with
            | [] => List.Forall_nil P
            | x :: rest => List.Forall_cons P x rest (json_induction x) (all rest)
            end) items)
  | JObj members =>
      Hobj members
        ((fix all (l : list (string * json)) : Forall (fun kv => P (snd kv)) l :=
            match l with
            | [] => List.Forall_nil _
            | kv :: rest => List.Forall_cons _ kv rest (json_induction (snd kv)) (all rest)
            end) members)
  end.

End JsonInduction.

(** Strings of decimal digits. *)
Fixpoint all_digits (s : string) : bool :=
  match s with
  | EmptyString => true
  | String c t => is_digit c && all_digits t
  end.

(** The number that a string of digits denotes, continuing from [acc]. *)
Fixpoint value (acc : Z) (s : string) : Z :=
  match s with
  | EmptyString => acc
  | String c t => value (10 * acc + (Js.code c - 48)) t
  end.

(** What may follow a value in a JSON text: nothing, or a character that is
    not a digit. *)
Definition after_value (r : string) : Prop :=
  match r with
  | EmptyString => True
  | String c _ => is_digit c = false
  end.

(** The value of a lower-case hexadecimal digit. *)
Definition hex_value (c : ascii) : Z :=
  let n := Js.code c in if n <? 58 then n - 48 else n - 87.

(** Reads back the first character of an escaped string. *)
Definition unescape_head (s : string) : option (ascii * string) :=
  match s with
  | String "\" (String c r) =>
      if Js.code c =? 34 then Some (c, r)
      else if Js.code c =? 92 then Some (c, r)
      else if Js.code c =? 98 then Some (ascii_of_nat 8, r)
      else if Js.code c =? 102 then Some (ascii_of_nat 12, r)
      else if Js.code c =? 110 then Some (ascii_of_nat 10, r)
      else if Js.code c =? 114 then Some (ascii_of_nat 13, r)
      else if Js.code c =? 116 then Some (ascii_of_nat 9, r)
      else
        match r with
        | String _ (String _ (String h (String l r'))) =>
            Some (ascii_of_nat (Z.to_nat (16 * hex_value h + hex_value l)), r')
        | _ => None
        end
  | String c r => if Js.code c =? 34 then None else Some (c, r)
  | EmptyString => None
  end.

(** The kind of value that a JSON text starts, told by its first character. *)
Definition kind_of_text (s : string) : Z :=
  match s with
  | EmptyString => 0
  | String c _ =>
      let n := Js.code c in
      if n =? 110 then 1 else if n =? 116 then 2 else if n =? 102 then 3
      else if (n =? 45) || is_digit c then 4
      else if n =? 34 then 5 else if n =? 91 then 6 else if n =? 123 then 7
      else 0
  end.

(** The kind of a value, numbered as [kind_of_text] numbers them. *)
Definition kind_of (v : json) : Z :=
  match v with
  | JNull => 1
  | JBool true => 2
  | JBool false => 3
  | JNum _ => 4
  | JStr _ => 5
  | JArr _ => 6
  | JObj _ => 7
  end.

(** A value is read back from any text that starts with its serialization. *)
Definition readable (v : json) : Prop :=
  forall v' r r', after_value r -> after_value r' ->
    JSON.stringify v ++ r = JSON.stringify v' ++ r' -> v = v' /\ r = r'.

(** The text of a member of an object: its quoted key, a colon, its value. *)
Definition member_text (kv : string * json) : string :=
  JSON.quote (fst kv) ++ ":" ++ JSON.stringify (snd kv).

(** An element is read back from any text that starts with its text. *)
Definition element_readable {A : Type} (text : A -> string) (x : A) : Prop :=
  forall y r r', after_value r -> after_value r' ->
    text x ++ r = text y ++ r' -> x = y /\ r = r'.

(** ** Idempotency keys *)

(** Strings without the separator [:] of the hashed content. *)
Fixpoint colon_free (s : string) : bool :=
  match s with
  | EmptyString => true
  | String c t => negb (Js.code c =? 58) && colon_free t
  end.

(** Two different contents with the same SHA-256 digest. *)
Definition sha256_collision (c1 c2 : string) : Prop :=
  c1 <> c2 /\ SHA256.hex c1 = SHA256.hex c2.

(** ** Idempotency keys: their shape *)

(** A lowercase hexadecimal digit. *)
Definition is_hex_digit (c : ascii) : bool :=
  let n := Js.code c in
  ((48 <=? n) && (n <=? 57)) || ((97 <=? n) && (n <=? 102)).

Fixpoint all_hex (s : string) : bool :=
  match s with
  | EmptyString => true
  | String c t => is_hex_digit c && all_hex t
  end.

(** ** The cache *)

(** The world when the clock shows [now]. *)
Definition at_time (now : Z) (w : World) : World :=
  {| notifications := notifications w; templates := templates w;
     delivery_logs := delivery_logs w; cache := cache w; queue := queue w;
     queue_up := queue_up w; clock := now; next_uuid := next_uuid w |}.

(** The entries of the cache that hold a live idempotency key. *)
Definition live_idempotency_entries (w : World) : list (string * (Uuid * Z)) :=
  List.filter (fun entry => String.prefix "idempotency:" (fst entry)
                            && (clock w <? snd (snd entry)))
    (map_to_list (cache w)).

(** A world with two cached keys, one of them expired, and an entry of
    another kind. *)
Definition cached : World :=
  {| notifications := []; templates := []; delivery_logs := [];
     cache := <[cache_key "k1" := (1%nat, 2000)]>
                (<[cache_key "k2" := (2%nat, 500)]>
                   (<["session:9" := (9%nat, 2000)]> ∅));
     queue := []; queue_up := true; clock := 1000; next_uuid := 3%nat |}.

(** ** Deleted notifications *)

(** The store once the notification of [Sample.accepted] has been delivered
    at the first attempt, and once it has then been deleted. *)
Definition delivered : World :=
  Eval vm_compute in
    fst (run (NotificationWorker.processNotification Sample.accepting Sample.first_attempt)
           Sample.accepted).

Definition deleted : World :=
  Eval vm_compute in fst (run (NotificationModel.delete 0%nat) delivered).

(** ** The outcome of an attempt *)

(** What the worker gets from the template lookup and the channel: the answer
    of the channel, or the error of a template that is not stored. *)
Definition attempt_outcome (env : Env) (n : Notification) (w : World)
    : Outcome ChannelSendResult :=
  match template_named (n_template_id n) w with
  | Some template => send_outcome env n template
  | None => Thrown (NotFoundError ("Template with ID " ++ n_template_id n ++ " not found"))
  end.

(** The status in which an attempt leaves the notification. *)
Definition status_after (job : Job) (o : Outcome ChannelSendResult) : NotificationStatus :=
  match o with
  | Returned result =>
      if success result then SENT
      else if NotificationWorker.max_attempts job <=? job_attemptsMade job + 1
           then FAILED else RETRYING
  | Thrown _ => PROCESSING
  end.

(** What the attempt resolves with, or the error that it hands to the
    queue. *)
Definition result_of_attempt (o : Outcome ChannelSendResult)
    : Outcome NotificationWorker.JobResult :=
  match o with
  | Returned result =>
      if success result
      then Returned {| NotificationWorker.jr_success := true;
                       NotificationWorker.jr_messageId := messageId result |}
      else Thrown (JsError (NotificationWorker.failure_message result))
  | Thrown e => Thrown e
  end.

(** The last of the three attempts of a job. *)
Definition last_attempt : Job :=
  {| job_name := "send-notification"; job_notificationId := 0%nat;
     job_attempts := Some 3; job_backoff_delay := 2000; job_attemptsMade := 2 |}.

(** The store of [Sample.accepted] without its templates. *)
Definition without_templates : World := set_templates Sample.accepted [].

(** ** What a request and an attempt leave alone *)

(** The columns of a notification that no attempt of the worker writes. *)
Definition fixed_columns (n : Notification)
    : Uuid * string * NotificationChannel * string * JsObject * string * Z * Z :=
  (n_id n, n_user_id n, n_channel n, n_template_id n, n_data n, n_idempotency_key n,
   n_retry_count n, n_created_at n).

(** A delivery log of the attempt that a job stands for. *)
Definition log_of_attempt (job : Job) (l : DeliveryLog) : Prop :=
  l_notification_id l = job_notificationId job
  /\ l_attempt l = job_attemptsMade job + 1
  /\ (l_status l = SENT \/ l_status l = FAILED).

(** What an attempt of the worker may change: the status, the error message
    and the time of the last update of stored notifications, and the delivery
    logs, to which it appends logs of this attempt. *)
Record attempt_frame (job : Job) (w w' : World) : Prop := {
  attempt_templates : templates w' = templates w;
  attempt_cache : cache w' = cache w;
  attempt_queue : queue w' = queue w;
  attempt_rows : map fixed_columns (notifications w') = map fixed_columns (notifications w);
  attempt_logs : exists new, delivery_logs w' = (delivery_logs w ++ new)%list
                             /\ Forall (log_of_attempt job) new }.

(** What a create request may change: it appends notifications and jobs, and
    writes cache entries under idempotency keys. *)
Record request_frame (w w' : World) : Prop := {
  request_templates : templates w' = templates w;
  request_logs : delivery_logs w' = delivery_logs w;
  request_rows : exists new, notifications w' = (notifications w ++ new)%list;
  request_jobs : exists new, queue w' = (queue w ++ new)%list;
  request_cache : forall k, String.prefix "idempotency:" k = false ->
                            cache w' !! k = cache w !! k }.

(** The world in which the queue can, or cannot, be reached. *)
Definition with_queue_up (up : bool) (w : World) : World :=
  {| notifications := notifications w; templates := templates w;
     delivery_logs := delivery_logs w; cache := cache w; queue := queue w;
     queue_up := up; clock := clock w; next_uuid := next_uuid w |}.

(** The job that [retryFailedNotification] enqueues. *)
Definition retry_job (id : Uuid) : Job :=
  {| job_name := "send-notification"; job_notificationId := id;
     job_attempts := Some 3; job_backoff_delay := 2000; job_attemptsMade := 0 |}.

(** The store of [Sample.accepted] after the last attempt of the job has been
    answered with a failure by the provider. *)
Definition failed : World :=
  Eval vm_compute in
    fst (run (NotificationWorker.processNotification Sample.rejecting last_attempt)
           Sample.accepted).

(** ** Concurrent requests *)

(** The world that two programs leave when they are interleaved. *)
Definition world_after {A B : Type} (schedule : list bool) (p : Prog A) (q : Prog B)
    (w : World) : World :=
  fst (fst (concurrently schedule p q w)).

(** An action takes the world from [w] to [w'] and the credit of its program
    from [b] to [b']: every job that it adds is paid for by the credit, and
    every notification that it inserts adds to it. *)
Definition pays (b b' : nat) (w w' : World) : Prop :=
  (List.length (queue w') + b' + List.length (notifications w)
   <= b + List.length (notifications w') + List.length (queue w))%nat.

(** A program that, started with credit [b], never adds a job that its
    credit does not pay for; [post] is the credit that it returns with. *)
Inductive Credit {A : Type} (post : A -> nat) : nat -> Prog A -> Prop :=
| Credit_Ret (b : nat) (a : A) : (post a <= b)%nat -> Credit post b (Ret a)
| Credit_Throw (b : nat) (e : Error) : Credit post b (Throw e)
| Credit_Await (b : nat) (X : Type) (action : World -> World * X) (k : X -> Prog A)
    (b' : X -> nat) :
    (forall w, pays b (b' (snd (action w))) w (fst (action w))) ->
    (forall x, Credit post (b' x) (k x)) ->
    Credit post b (Await action k).

(** The rows that requests with the keys [k1] and [k2] may append. *)
Definition appends_keys (k1 k2 : string) (w w' : World) : Prop :=
  exists new, notifications w' = (notifications w ++ new)%list
              /\ Forall (fun n => n_idempotency_key n = k1 \/ n_idempotency_key n = k2) new.

(** ** Email addresses *)

(** Every character of the string is an ASCII character. *)
Fixpoint is_ascii (s : string) : bool :=
  match s with
  | EmptyString => true
  | String c t => (Js.code c <? 128) && is_ascii t
  end.

(** A non-empty string without white space and without [@]: what
    [[^\s@]+] matches in an ASCII string. *)
Fixpoint no_space_no_at (s : string) : bool :=
  match s with
  | EmptyString => true
  | String c t => EmailChannel.plain c && no_space_no_at t
  end.

Definition address_part (s : string) : Prop := s <> "" /\ no_space_no_at s = true.

(** ** Stored templates *)

(** The values of a template fit the columns of the [templates] table. *)
Definition fits_columns (t : Template) : Prop :=
  (Js.chars (t_id t) <= 255)%nat
  /\ (Js.chars (t_name t) <= 255)%nat
  /\ match t_subject t with
     | Some subject => (Js.chars subject <= 500)%nat
     | None => True
     end.

(** The row that [TemplateModel.create] stores for a template: an empty
    subject is stored as NULL. *)
Definition stored_template (t : Template) : Template :=
  {| t_id := t_id t; t_name := t_name t; t_channel := t_channel t;
     t_subject := NotificationModel.or_null (t_subject t); t_body := t_body t;
     t_variables := t_variables t |}.

(** A template for push notifications, which the migration does not
    install. *)
Definition push_alert : Template :=
  {| t_id := "push_alert"; t_name := "Alert"; t_channel := PUSH; t_subject := Some "";
     t_body := "Alert: {{text}}"; t_variables := ["text"] |}.

(** A request that lacks two of the three variables of its template. *)
Definition request_without_link : CreateNotificationDTO :=
  {| dto_user_id := "u1"; dto_channel := EMAIL; dto_template := "welcome_email";
     dto_data := [("name", JStr "John")] |}.

(** ** Histories and pages *)

(** A store with three logs of two attempts on the notification 0, and a log
    of another notification. *)
Definition logged : World :=
  {| notifications := []; templates := [];
     delivery_logs :=
       [ {| l_id := 10%nat; l_notification_id := 0%nat; l_attempt := 2; l_status := SENT;
            l_error_message := None; l_provider_response := None; l_created_at := 30 |};
         {| l_id := 11%nat; l_notification_id := 1%nat; l_attempt := 1; l_status := SENT;
            l_error_message := None; l_provider_response := None; l_created_at := 40 |};
         {| l_id := 12%nat; l_notification_id := 0%nat; l_attempt := 1; l_status := FAILED;
            l_error_message := None; l_provider_response := None; l_created_at := 10 |};
         {| l_id := 13%nat; l_notification_id := 0%nat; l_attempt := 1; l_status := FAILED;
            l_error_message := None; l_provider_response := None; l_created_at := 10 |} ];
     cache := ∅; queue := []; queue_up := true; clock := 50; next_uuid := 14%nat |}.

(** The logs of the window with the given status. *)
Definition status_count (status : NotificationStatus) (since : option Z) (w : World) : nat :=
  List.length (List.filter (fun l => bool_decide (l_status l = status))
                 (Db.logs_since since w)).

(** ** Responses *)

(** The response to an accepted request, and to its repetitions: the id, the
    status and the time of creation of the notification. *)
Definition queued_response (n : Notification) : Response :=
  {| res_status := 202;
     res_body := QueuedBody (n_id n) (n_status n) (n_created_at n) |}.

(** ** Statements *)

Fixpoint count_char (c : ascii) (s : string) : nat :=
  match s with
  | EmptyString => 0%nat
  | String d t => ((if Ascii.eqb c d then 1 else 0) + count_char c t)%nat
  end.

Definition given {A : Type} (field : option A) : nat :=
  match field with Some _ => 1 | None => 0 end.

(** The number of fields that an update sets. *)
Definition fields_given (updates : TemplateModel.TemplateUpdates) : nat :=
  (given (TemplateModel.u_name updates) + given (TemplateModel.u_subject updates)
   + given (TemplateModel.u_body updates) + given (TemplateModel.u_variables updates))%nat.

(** An update of the name and the body of a template. *)
Definition rename : TemplateModel.TemplateUpdates :=
  {| TemplateModel.u_name := Some "Welcome"; TemplateModel.u_subject := None;
     TemplateModel.u_body := Some "Hi {{name}}"; TemplateModel.u_variables := None |}.

(** * Properties *)

(** ** The delivery log: success rate *)

(** Two doubles that [===] tells apart are different. *)
Lemma float_neq (x y : float) :
  PrimFloat.eqb x y = false -> PrimFloat.eqb y y = true -> x <> y.
Proof. intros Hxy Hyy Heq. subst x. congruence. Qed.

Lemma run_getSuccessRate (since : option Z) (w : World) :
  run (DeliveryLogModel.getSuccessRate since) w
  = (w, Returned (percentage (sent_count since w) (total_count since w))).
Proof. reflexivity. Qed.

Lemma counts_950_50 :
  sent_count None world_950_50 = 950%nat /\ total_count None world_950_50 = 1000%nat.
Proof. split; vm_compute; reflexivity. Qed.

Lemma counts_1_2 :
  sent_count None world_1_2 = 1%nat /\ total_count None world_1_2 = 3%nat.
Proof. split; reflexivity. Qed.

(** C8, as stated, fails: with 950 logs of status sent and 50 of status
    failed, [getSuccessRate] returns 95, which is not the ratio
    [sent_count / total_count] = 0.95; and what it returns is not the ratio
    as a percentage either: with 1 log of status sent and 2 of status failed
    it returns 3333 / 100, which is not [(1 / 3) * 100]. *)
Lemma getSuccessRate_not_ratio :
  ~ (forall since w,
       snd (run (DeliveryLogModel.getSuccessRate since) w)
       = Returned (ratio (sent_count since w) (total_count since w)))
  /\ ~ (forall since w,
          snd (run (DeliveryLogModel.getSuccessRate since) w)
          = Returned (ratio (sent_count since w) (total_count since w) * 100)%float).
Proof.
  split; intros H.
  - specialize (H None world_950_50).
    rewrite run_getSuccessRate in H. cbn [snd] in H.
    destruct counts_950_50 as [Hsent Htotal]. rewrite Hsent, Htotal in H.
    apply (f_equal (fun o => match o with Returned x => x | Thrown _ => 0%float end)) in H.
    revert H. apply float_neq; vm_compute; reflexivity.
  - specialize (H None world_1_2).
    rewrite run_getSuccessRate in H. cbn [snd] in H.
    destruct counts_1_2 as [Hsent Htotal]. rewrite Hsent, Htotal in H.
    apply (f_equal (fun o => match o with Returned x => x | Thrown _ => 0%float end)) in H.
    revert H. apply float_neq; vm_compute; reflexivity.
Qed.

(** C8, amended: [getSuccessRate] leaves the store unchanged and returns the
    success percentage of the window rounded to two decimals, that is
    [Math.round((sent / total) * 100 * 100) / 100] on the counts of sent and
    of all logs of the window, and 0 when the window has no log; with 950 sent
    and 50 failed logs it returns 95.0, with 1 sent log out of 3 it returns
    3333 / 100, and with no log it returns 0. *)
Theorem getSuccessRate_percentage :
  (forall since w,
     run (DeliveryLogModel.getSuccessRate since) w
     = (w, Returned (percentage (sent_count since w) (total_count since w))))
  /\ (forall sent : nat, percentage sent 0 = 0%float)
  /\ snd (run (DeliveryLogModel.getSuccessRate None) world_950_50) = Returned 95%float
  /\ percentage 1 3 = (3333 / 100)%float.
Proof.
  split; [reflexivity|]. split; [reflexivity|]. split.
  - rewrite run_getSuccessRate. cbn [snd].
    destruct counts_950_50 as [-> ->]. vm_compute. reflexivity.
  - vm_compute. reflexivity.
Qed.

(** ** Running programs *)

Section Running.

Context {A B : Type}.

Lemma run_bind (p : Prog A) (f : A -> Prog B) (w : World) :
  run (p ≫= f) w
  = match run p w with
    | (w', Returned a) => run (f a) w'
    | (w', Thrown e) => (w', Thrown e)
    end.
Proof.
  unfold mbind, Prog_bind. revert w.
  induction p as [a|e|X action k IH]; intros w; cbn; try reflexivity.
  destruct (action w) as [w' x]. apply IH.
Qed.

Lemma run_try_catch (p : Prog A) (handler : Error -> Prog A) (w : World) :
  run (try_catch p handler) w
  = match run p w with
    | (w', Returned a) => (w', Returned a)
    | (w', Thrown e) => run (handler e) w'
    end.
Proof.
  revert w. induction p as [a|e|X action k IH]; intros w; cbn; try reflexivity.
  destruct (action w) as [w' x]. apply IH.
Qed.

Lemma run_await (action : World -> World * Outcome A) (w : World) :
  run (await action) w = action w.
Proof.
  unfold await. cbn. destruct (action w) as [w' [a|e]]; reflexivity.
Qed.

Lemma run_lift (o : Outcome A) (w : World) : run (lift o) w = (w, o).
Proof. destruct o; reflexivity. Qed.

End Running.

Section Respecting.

Context (R : World -> World -> Prop).
Hypothesis R_refl : forall w, R w w.
Hypothesis R_trans : forall w1 w2 w3, R w1 w2 -> R w2 w3 -> R w1 w3.

Lemma Respects_run {A : Type} (p : Prog A) :
  Respects R p -> forall w, R w (fst (run p w)).
Proof using R_refl R_trans.
  induction 1 as [a|e|X action k Haction _ IH]; intros w; cbn; auto.
  specialize (Haction w). destruct (action w) as [w' x]. cbn in Haction.
  eapply R_trans; [exact Haction|apply IH].
Qed.

Lemma Respects_bind {A B : Type} (p : Prog A) (f : A -> Prog B) :
  Respects R p -> (forall a, Respects R (f a)) -> Respects R (p ≫= f).
Proof.
  intros Hp Hf. unfold mbind, Prog_bind.
  induction Hp; cbn; auto using Respects_Throw, Respects_Await.
Qed.

Lemma Respects_try_catch {A : Type} (p : Prog A) (handler : Error -> Prog A) :
  Respects R p -> (forall e, Respects R (handler e)) -> Respects R (try_catch p handler).
Proof.
  intros Hp Hh. induction Hp; cbn; auto using Respects_Ret, Respects_Await.
Qed.

Lemma Respects_await {X : Type} (action : World -> World * Outcome X) :
  (forall w, R w (fst (action w))) -> Respects R (await action).
Proof.
  intros H. apply Respects_Await; [exact H|].
  intros [x|e]; constructor.
Qed.

Lemma Respects_lift {A : Type} (o : Outcome A) : Respects R (lift o).
Proof. destruct o; constructor. Qed.

End Respecting.

(** One step of a proof that a program respects a relation: through the
    binds, the handlers and the branches, down to its atomic actions. *)
Ltac respects_step :=
  first
    [ apply Respects_Ret
    | apply Respects_Throw
    | apply Respects_lift
    | apply Respects_bind; [|intros ?]
    | apply Respects_try_catch; [|intros ?]
    | apply Respects_await; intros ?
    | match goal with
      | |- Respects _ (if ?b then _ else _) => destruct b
      | |- Respects _ (match ?x with _ => _ end) => destruct x
      end ].

(** ** The store: primary key and uniqueness constraint *)

Section Store.

Lemma filter_unique {K : Type} (proj : Notification -> K) (test : Notification -> bool)
    (rows : list Notification) (e : Notification) :
  (forall n, test n = true <-> proj n = proj e) ->
  NoDup (map proj rows) -> e ∈ rows -> List.filter test rows = [e].
Proof.
  intros Htest. induction rows as [|n rows IH]; cbn; intros Hnodup Hin.
  { apply elem_of_nil in Hin. destruct Hin. }
  apply NoDup_cons in Hnodup as [Hnotin Hrest].
  assert (Hnone : forall l, proj e ∉ map proj l -> List.filter test l = []).
  { induction l as [|m l IHl]; cbn; intros Hl; [reflexivity|].
    apply not_elem_of_cons in Hl as [Hm Hl].
    destruct (test m) eqn:Em.
    - exfalso. apply Hm. symmetry. apply Htest. exact Em.
    - apply IHl. exact Hl. }
  apply elem_of_cons in Hin as [->|Hin].
  - rewrite (proj2 (Htest n) eq_refl). f_equal. apply Hnone. exact Hnotin.
  - destruct (test n) eqn:En.
    + exfalso. apply Hnotin. apply Htest in En. rewrite En.
      apply list_elem_of_In, in_map, list_elem_of_In. exact Hin.
    + apply IH; assumption.
Qed.

Lemma has_id_spec (e n : Notification) : Db.has_id (n_id e) n = true <-> n_id n = n_id e.
Proof. unfold Db.has_id. apply Nat.eqb_eq. Qed.

Lemma has_key_spec (e n : Notification) :
  Db.has_key (n_idempotency_key e) n = true <-> n_idempotency_key n = n_idempotency_key e.
Proof. unfold Db.has_key. apply String.eqb_eq. Qed.

Lemma select_by_id (w : World) (e : Notification) :
  store_ok w -> e ∈ notifications w ->
  List.filter (Db.has_id (n_id e)) (notifications w) = [e].
Proof.
  intros [Hids _ _] Hin. apply (filter_unique n_id); auto using has_id_spec.
Qed.

Lemma select_by_key (w : World) (e : Notification) :
  store_ok w -> e ∈ notifications w ->
  List.filter (Db.has_key (n_idempotency_key e)) (notifications w) = [e].
Proof.
  intros [_ _ Hkeys] Hin. apply (filter_unique n_idempotency_key); auto using has_key_spec.
Qed.

Lemma no_row_with_key (key : string) (rows : list Notification) :
  existsb (Db.has_key key) rows = false <-> List.filter (Db.has_key key) rows = [].
Proof.
  induction rows as [|n rows IH]; cbn; [tauto|].
  destruct (Db.has_key key n); cbn; [split; discriminate|exact IH].
Qed.

End Store.

(** ** What the models do when run *)

Section Models.

Lemma run_findById (id : Uuid) (w : World) :
  run (NotificationModel.findById id) w
  = (w, match List.filter (Db.has_id id) (notifications w) with
        | [] => Thrown (NotificationModel.not_found id)
        | row :: _ => Returned row
        end).
Proof.
  unfold NotificationModel.findById. rewrite run_bind, run_await. cbn.
  destruct (List.filter _ _); reflexivity.
Qed.

Lemma run_findByIdempotencyKey (key : string) (w : World) :
  run (NotificationModel.findByIdempotencyKey key) w
  = (w, Returned (head (List.filter (Db.has_key key) (notifications w)))).
Proof.
  unfold NotificationModel.findByIdempotencyKey. rewrite run_bind, run_await. cbn.
  destruct (List.filter _ _); reflexivity.
Qed.

Lemma run_find_template (id : string) (w : World) :
  run (NotificationService.find_template id) w
  = (w, match List.filter (fun t => String.eqb (t_id t) id) (templates w) with
        | [] => Thrown (BadRequestError ("Template '" ++ id ++ "' not found"))
        | row :: _ => Returned row
        end).
Proof.
  unfold NotificationService.find_template, TemplateModel.findById.
  rewrite run_try_catch, run_bind, run_await. cbn.
  destruct (List.filter _ _); reflexivity.
Qed.

Lemma run_TemplateModel_findById (id : string) (w : World) :
  run (TemplateModel.findById id) w
  = (w, match List.filter (fun t => String.eqb (t_id t) id) (templates w) with
        | [] => Thrown (NotFoundError ("Template with ID " ++ id ++ " not found"))
        | row :: _ => Returned row
        end).
Proof.
  unfold TemplateModel.findById. rewrite run_bind, run_await. cbn.
  destruct (List.filter _ _); reflexivity.
Qed.

Lemma run_storeIdempotencyKey (key : string) (id : Uuid) (ttl : Z) (w : World) :
  run (storeIdempotencyKey key id ttl) w
  = (set_cache w (<[cache_key key := (id, clock w + ttl)]> (cache w)), Returned tt).
Proof. unfold storeIdempotencyKey. rewrite run_await. reflexivity. Qed.

Lemma run_checkIdempotency (key : string) (w : World) :
  run (checkIdempotency key) w = (w, Returned (Redis.live (cache_key key) w)).
Proof. unfold checkIdempotency. rewrite run_await. reflexivity. Qed.

End Models.

(** ** The constraints of the store are invariant *)

Section StoreInvariant.

Lemma keeps_store_ok_refl (w : World) : keeps_store_ok w w.
Proof. intros H. exact H. Qed.

Lemma keeps_store_ok_trans (w1 w2 w3 : World) :
  keeps_store_ok w1 w2 -> keeps_store_ok w2 w3 -> keeps_store_ok w1 w3.
Proof. unfold keeps_store_ok. auto. Qed.

(** What does not touch the notifications and does not take back an
    identifier keeps the constraints. *)
Lemma same_rows_keep_store_ok (w w' : World) :
  notifications w' = notifications w -> (next_uuid w <= next_uuid w')%nat ->
  keeps_store_ok w w'.
Proof.
  intros Hrows Hnext [Hids Hused Hkeys]. split; rewrite Hrows; try assumption.
  eapply Forall_impl; [exact Hused|]. cbn. intros n Hn. lia.
Qed.

Lemma insert_notification_keeps_store_ok (user_id : string)
    (channel : NotificationChannel) (template_id : string) (data : JsObject)
    (status : NotificationStatus) (key : string) (w : World) :
  keeps_store_ok w
    (fst (Db.insert_notification user_id channel template_id data status key w)).
Proof.
  unfold Db.insert_notification.
  destruct (existsb (Db.has_key key) (notifications w)) eqn:Hkey;
    [apply keeps_store_ok_refl|].
  intros [Hids Hused Hkeys].
  split; cbn [fst fresh_uuid set_notifications notifications next_uuid].
  - rewrite map_app. apply NoDup_app. split; [exact Hids|]. split.
    + intros id Hin Hnew. cbn in Hnew. apply list_elem_of_singleton in Hnew. subst id.
      apply list_elem_of_In, in_map_iff in Hin as (n & Hn & Hin).
      rewrite Forall_forall in Hused. apply list_elem_of_In in Hin.
      specialize (Hused n Hin). cbn in Hused. lia.
    + cbn. apply NoDup_singleton.
  - apply Forall_app. split.
    + eapply Forall_impl; [exact Hused|]. cbn. intros n Hn. lia.
    + apply Forall_singleton. cbn. lia.
  - rewrite map_app. apply NoDup_app. split; [exact Hkeys|]. split.
    + intros k Hin Hnew. cbn in Hnew. apply list_elem_of_singleton in Hnew. subst k.
      apply list_elem_of_In, in_map_iff in Hin as (n & Hn & Hin).
      assert (Htrue : existsb (Db.has_key key) (notifications w) = true).
      { apply existsb_exists. exists n. split; [exact Hin|].
        unfold Db.has_key. apply String.eqb_eq. exact Hn. }
      congruence.
    + cbn. apply NoDup_singleton.
Qed.

Lemma update_notification_keeps_store_ok (id : Uuid)
    (change : Notification -> Notification) (w : World) :
  (forall n, n_id (change n) = n_id n) ->
  (forall n, n_idempotency_key (change n) = n_idempotency_key n) ->
  keeps_store_ok w (fst (Db.update_notification id change w)).
Proof.
  intros Hid Hkey [Hids Hused Hkeys]. unfold Db.update_notification.
  cbn [fst set_notifications notifications next_uuid].
  assert (Hmap_id : map n_id (map (fun n => if Db.has_id id n then change n else n)
                                 (notifications w)) = map n_id (notifications w)).
  { rewrite map_map. apply map_ext. intros n. destruct (Db.has_id id n); auto. }
  assert (Hmap_key : map n_idempotency_key
                       (map (fun n => if Db.has_id id n then change n else n)
                          (notifications w))
                     = map n_idempotency_key (notifications w)).
  { rewrite map_map. apply map_ext. intros n. destruct (Db.has_id id n); auto. }
  split; cbn [fst set_notifications notifications next_uuid].
  - rewrite Hmap_id. exact Hids.
  - apply Forall_forall. intros n Hin.
    apply list_elem_of_In, in_map_iff in Hin as (m & <- & Hin).
    rewrite Forall_forall in Hused. apply list_elem_of_In in Hin.
    specialize (Hused m Hin). cbn in Hused.
    destruct (Db.has_id id m); [rewrite Hid|]; exact Hused.
  - rewrite Hmap_key. exact Hkeys.
Qed.

Lemma insert_delivery_log_keeps_store_ok (id : Uuid) (attempt : Z)
    (status : NotificationStatus) (message response : option string) (w : World) :
  keeps_store_ok w (fst (Db.insert_delivery_log id attempt status message response w)).
Proof.
  unfold Db.insert_delivery_log.
  destruct (existsb _ _); [|apply keeps_store_ok_refl].
  apply same_rows_keep_store_ok; cbn; [reflexivity|lia].
Qed.

Lemma queue_add_keeps_store_ok (name : string) (id : Uuid) (attempts : option Z)
    (delay : Z) (w : World) :
  keeps_store_ok w (fst (Queue.add name id attempts delay w)).
Proof.
  unfold Queue.add. destruct (queue_up w); [|apply keeps_store_ok_refl].
  apply same_rows_keep_store_ok; cbn; [reflexivity|lia].
Qed.

End StoreInvariant.

Ltac keeps_store_ok_step :=
  first
    [ apply keeps_store_ok_refl
    | apply insert_notification_keeps_store_ok
    | apply update_notification_keeps_store_ok; reflexivity
    | apply insert_delivery_log_keeps_store_ok
    | apply queue_add_keeps_store_ok
    | (apply same_rows_keep_store_ok; cbn; [reflexivity|lia]) ].

Lemma createNotification_respects_store_ok (dto : CreateNotificationDTO) :
  Respects keeps_store_ok (NotificationService.createNotification dto).
Proof.
  unfold NotificationService.createNotification, NotificationService.find_template,
    checkIdempotency, storeIdempotencyKey, NotificationModel.findById,
    NotificationModel.findByIdempotencyKey, NotificationModel.create,
    TemplateModel.findById.
  cbv zeta.
  repeat respects_step; keeps_store_ok_step.
Qed.

Lemma processNotification_respects_store_ok (env : Env) (job : Job) :
  Respects keeps_store_ok (NotificationWorker.processNotification env job).
Proof.
  unfold NotificationWorker.processNotification, NotificationModel.findById,
    NotificationModel.updateStatus, TemplateModel.findById, DeliveryLogModel.create.
  repeat respects_step; keeps_store_ok_step.
Qed.

(** The constraints of the store hold after the migration and are kept by
    every request and by every attempt of the worker. *)
Lemma store_ok_invariant :
  store_ok Sample.seeded
  /\ (forall dto w, store_ok w ->
                    store_ok (fst (run (NotificationService.createNotification dto) w)))
  /\ (forall env job w, store_ok w ->
                        store_ok (fst (run (NotificationWorker.processNotification env job) w))).
Proof.
  split; [|split].
  - split; cbn; constructor.
  - intros dto w.
    apply (Respects_run keeps_store_ok keeps_store_ok_refl keeps_store_ok_trans).
    apply createNotification_respects_store_ok.
  - intros env job w.
    apply (Respects_run keeps_store_ok keeps_store_ok_refl keeps_store_ok_trans).
    apply processNotification_respects_store_ok.
Qed.

(** ** The service: duplicates *)

Section Duplicates.

Import NotificationService.

Variable dto : CreateNotificationDTO.
Variable w : World.

Lemma createNotification_cache_hit (id : Uuid) :
  Redis.live (cache_key (request_key dto)) w = Some id ->
  run (createNotification dto) w = run (NotificationModel.findById id) w.
Proof.
  intros Hhit. unfold createNotification. cbv zeta.
  fold (request_key dto).
  rewrite run_bind, run_checkIdempotency, Hhit. reflexivity.
Qed.

Lemma createNotification_store_hit (e : Notification) :
  Redis.live (cache_key (request_key dto)) w = None ->
  head (List.filter (Db.has_key (request_key dto)) (notifications w)) = Some e ->
  run (createNotification dto) w
  = (set_cache w (<[cache_key (request_key dto)
                    := (n_id e, clock w + default_ttl)]> (cache w)),
     Returned e).
Proof.
  intros Hmiss Hrow. unfold createNotification. cbv zeta.
  fold (request_key dto).
  rewrite run_bind, run_checkIdempotency, Hmiss.
  rewrite run_bind, run_findByIdempotencyKey, Hrow.
  rewrite run_bind, run_storeIdempotencyKey. reflexivity.
Qed.

End Duplicates.

(** Once the cache entry has expired, the duplicate is found in the store and
    the cache is filled again. *)
Example duplicate_after_expiry :
  let later := {| notifications := notifications Sample.accepted;
                  templates := templates Sample.accepted;
                  delivery_logs := []; cache := cache Sample.accepted;
                  queue := queue Sample.accepted; queue_up := true;
                  clock := 1000 + 2 * default_ttl; next_uuid := 1%nat |} in
  Redis.live (cache_key (request_key Sample.request)) later = None
  /\ (let '(w', result) :=
        run (NotificationService.createNotification Sample.request) later in
      result = Returned Sample.stored
      /\ notifications w' = [Sample.stored]
      /\ queue w' = queue Sample.accepted
      /\ Redis.live (cache_key (request_key Sample.request)) w' = Some 0%nat).
Proof. vm_compute. repeat split. Qed.

(** C1: a create request whose idempotency key is that of a persisted
    notification [e] -- the cache holds the id of [e] under the key, or the
    cache has no live entry for the key and [e] is in the store -- returns
    [e], with its id and status, and neither inserts a notification row nor
    enqueues a job. *)
Theorem createNotification_returns_existing
    (dto : CreateNotificationDTO) (w : World) (e : Notification) :
  store_ok w ->
  e ∈ notifications w ->
  n_idempotency_key e = request_key dto ->
  Redis.live (cache_key (request_key dto)) w = Some (n_id e)
  \/ Redis.live (cache_key (request_key dto)) w = None ->
  exists w',
    run (NotificationService.createNotification dto) w = (w', Returned e)
    /\ notifications w' = notifications w
    /\ queue w' = queue w
    /\ delivery_logs w' = delivery_logs w.
Proof.
  intros Hok Hin Hkey [Hhit|Hmiss].
  - exists w. rewrite (createNotification_cache_hit dto w _ Hhit), run_findById.
    rewrite (select_by_id w e Hok Hin). auto.
  - eexists. rewrite (createNotification_store_hit dto w e Hmiss).
    + cbn. auto.
    + rewrite <- Hkey, (select_by_key w e Hok Hin). reflexivity.
Qed.

(** ** The service: requests that are not duplicates *)

Section Fresh.

Import NotificationService.

Variable dto : CreateNotificationDTO.
Variable w : World.
Hypothesis Hfresh : not_duplicate dto w.

Lemma createNotification_checks :
  run (createNotification dto) w
  = match template_named (dto_template dto) w with
    | None =>
        (w, Thrown (BadRequestError ("Template '" ++ dto_template dto ++ "' not found")))
    | Some template =>
        if bool_decide (t_channel template ≠ dto_channel dto) then
          (w, Thrown (BadRequestError
                        ("Template '" ++ dto_template dto ++ "' is for "
                           ++ channel_name (t_channel template) ++ ", not "
                           ++ channel_name (dto_channel dto))))
        else if negb (fst (TemplateModel.validateVariables template (dto_data dto))) then
          (w, Thrown (BadRequestError
                        ("Missing required template variables: "
                           ++ Js.join ", "
                                (snd (TemplateModel.validateVariables template
                                        (dto_data dto))))))
        else if queue_up w then (accept dto w, Returned (new_row dto w))
        else (fresh_uuid (set_notifications w (notifications w ++ [new_row dto w])),
              Thrown (JsError "Connection is closed."))
    end.
Proof using Hfresh.
  destruct Hfresh as [Hmiss Hnone].
  unfold createNotification. cbv zeta. fold (request_key dto).
  rewrite run_bind, run_checkIdempotency, Hmiss.
  rewrite run_bind, run_findByIdempotencyKey.
  rewrite (proj1 (no_row_with_key _ _) Hnone). cbn [head].
  rewrite run_bind, run_find_template. unfold template_named.
  destruct (List.filter _ (templates w)) as [|template ?]; cbn [head]; [reflexivity|].
  destruct (bool_decide (t_channel template ≠ dto_channel dto)); [reflexivity|].
  destruct (negb _); [reflexivity|].
  rewrite run_bind. unfold NotificationModel.create.
  rewrite run_bind, run_await. unfold Db.insert_notification.
  rewrite Hnone. cbn [run NotificationModel.parseNotification].
  rewrite run_bind, run_await. unfold Queue.add. cbn [queue_up fresh_uuid set_notifications].
  destruct (queue_up w); [|reflexivity].
  rewrite run_bind, run_storeIdempotencyKey. reflexivity.
Qed.

End Fresh.

Ltac store_ok_by_computation :=
  split; apply (bool_decide_unpack _); vm_compute; exact I.

Lemma createNotification_returns_existing_witness :
  store_ok Sample.accepted
  /\ Sample.stored ∈ notifications Sample.accepted
  /\ n_idempotency_key Sample.stored = request_key Sample.request
  /\ exists w',
       run (NotificationService.createNotification Sample.request) Sample.accepted
       = (w', Returned Sample.stored)
       /\ notifications w' = notifications Sample.accepted
       /\ queue w' = queue Sample.accepted
       /\ delivery_logs w' = delivery_logs Sample.accepted.
Proof.
  assert (Hok : store_ok Sample.accepted) by store_ok_by_computation.
  assert (Hin : Sample.stored ∈ notifications Sample.accepted)
    by (apply list_elem_of_In; left; reflexivity).
  assert (Hkey : n_idempotency_key Sample.stored = request_key Sample.request)
    by (vm_compute; reflexivity).
  split; [exact Hok|]. split; [exact Hin|]. split; [exact Hkey|].
  apply (createNotification_returns_existing Sample.request Sample.accepted
           Sample.stored Hok Hin Hkey).
  left. vm_compute. reflexivity.
Defined.

(** C10, as stated, fails: a request for the email template [welcome_email]
    on the sms channel whose key is already stored is answered with the
    stored notification, not with a [BadRequestError]. *)
Lemma duplicate_precedes_channel_check :
  ~ (forall dto w template,
       template_named (dto_template dto) w = Some template ->
       t_channel template <> dto_channel dto ->
       exists message,
         run (NotificationService.createNotification dto) w
         = (w, Thrown (BadRequestError message))).
Proof.
  intros H.
  destruct (H Sample.request_sms Sample.accepted Sample.welcome_email)
    as [message Hrun]; [reflexivity|discriminate|].
  vm_compute in Hrun. discriminate Hrun.
Qed.

(** C10, amended: a create request that is not a duplicate (no live cache
    entry and no stored notification for its key), whose template exists and
    is for another channel than the requested one, throws a
    [BadRequestError], and the world is unchanged: nothing is persisted,
    enqueued or cached. *)
Theorem createNotification_channel_mismatch
    (dto : CreateNotificationDTO) (w : World) (template : Template) :
  not_duplicate dto w ->
  template_named (dto_template dto) w = Some template ->
  t_channel template <> dto_channel dto ->
  run (NotificationService.createNotification dto) w
  = (w, Thrown (BadRequestError
                  ("Template '" ++ dto_template dto ++ "' is for "
                     ++ channel_name (t_channel template) ++ ", not "
                     ++ channel_name (dto_channel dto)))).
Proof.
  intros Hfresh Htemplate Hchannel.
  rewrite (createNotification_checks dto w Hfresh), Htemplate.
  rewrite bool_decide_true by exact Hchannel. reflexivity.
Qed.

Lemma createNotification_channel_mismatch_witness :
  not_duplicate Sample.request_sms Sample.seeded
  /\ template_named "welcome_email" Sample.seeded = Some Sample.welcome_email
  /\ t_channel Sample.welcome_email <> SMS
  /\ run (NotificationService.createNotification Sample.request_sms) Sample.seeded
     = (Sample.seeded,
        Thrown (BadRequestError "Template 'welcome_email' is for email, not sms")).
Proof.
  assert (Hfresh : not_duplicate Sample.request_sms Sample.seeded)
    by (split; vm_compute; reflexivity).
  assert (Hchannel : t_channel Sample.welcome_email <> SMS) by discriminate.
  split; [exact Hfresh|]. split; [reflexivity|]. split; [exact Hchannel|].
  exact (createNotification_channel_mismatch Sample.request_sms Sample.seeded
           Sample.welcome_email Hfresh eq_refl Hchannel).
Defined.

(** An accepted request is persisted as PENDING, enqueued and cached, and the
    notification that is returned, like the stored row, is still PENDING. *)
Lemma createNotification_accepted
    (dto : CreateNotificationDTO) (w : World) (template : Template) :
  acceptable dto w template ->
  queue_up w = true ->
  run (NotificationService.createNotification dto) w
  = (accept dto w, Returned (new_row dto w)).
Proof.
  intros [Hfresh Htemplate Hchannel Hvars] Hup.
  rewrite (createNotification_checks dto w Hfresh), Htemplate.
  rewrite bool_decide_false by (intros Hne; apply Hne; exact Hchannel).
  unfold TemplateModel.validateVariables. rewrite Hvars. cbn. rewrite Hup.
  reflexivity.
Qed.

Lemma sample_request_acceptable :
  acceptable Sample.request Sample.seeded Sample.welcome_email.
Proof. split; [split|..]; vm_compute; reflexivity. Qed.

(** C3, on the code: the request of Scenario A is accepted and its job is
    enqueued, yet the notification that [createNotification] returns and the
    row that it leaves in the store have status PENDING; no statement of
    [createNotification] sets QUEUED. *)
Theorem createNotification_leaves_pending :
  run (NotificationService.createNotification Sample.request) Sample.seeded
  = (accept Sample.request Sample.seeded, Returned Sample.stored)
  /\ n_status Sample.stored = PENDING
  /\ map n_status (notifications (accept Sample.request Sample.seeded)) = [PENDING]
  /\ map job_notificationId (queue (accept Sample.request Sample.seeded))
     = [n_id Sample.stored].
Proof.
  split; [|repeat split].
  exact (createNotification_accepted Sample.request Sample.seeded
           Sample.welcome_email sample_request_acceptable eq_refl).
Qed.

(** ** The service: a lost race *)

Section LostRace.

Import NotificationService.

Lemma step_await_bind {X A : Type} (action : World -> World * Outcome X)
    (f : X -> Prog A) (w : World) :
  step (await action ≫= f) w
  = (fst (action w),
     match snd (action w) with
     | Returned x => f x
     | Thrown e => Throw e
     end).
Proof.
  unfold await, mbind, Prog_bind. cbn.
  destruct (action w) as [w' [x|e]]; reflexivity.
Qed.

(** The state of an acceptable request after its three reads (cache, store,
    template): the world is as it was, and what remains is the insert, the
    enqueue and the cache write. *)
Lemma createNotification_after_checks
    (dto : CreateNotificationDTO) (w : World) (template : Template) :
  acceptable dto w template ->
  steps 3 (createNotification dto) w
  = (w, notification ← NotificationModel.create dto (request_key dto);
        await (Queue.add "send-notification" (n_id notification) (Some 3) 2000);;
        storeIdempotencyKey (request_key dto) (n_id notification) default_ttl;;
        Ret notification).
Proof.
  intros [[Hmiss Hnone] Htemplate Hchannel Hvars].
  unfold createNotification. cbv zeta. fold (request_key dto).
  unfold checkIdempotency. cbn [steps]. rewrite step_await_bind.
  cbn [Redis.get fst snd]. rewrite Hmiss.
  unfold NotificationModel.findByIdempotencyKey.
  cbn [mbind Prog_bind bind await step].
  cbn [Db.select_notification_by_key].
  rewrite (proj1 (no_row_with_key _ _) Hnone). cbn [firstn bind].
  unfold find_template, TemplateModel.findById.
  cbn [mbind Prog_bind bind await try_catch step Db.select_template_by_id].
  unfold template_named in Htemplate.
  destruct (List.filter _ (templates w)) as [|row rows]; [discriminate|].
  cbn in Htemplate. injection Htemplate as ->.
  cbn [firstn bind try_catch].
  rewrite bool_decide_false by (intros Hne; apply Hne; exact Hchannel).
  unfold TemplateModel.validateVariables. rewrite Hvars. reflexivity.
Qed.

End LostRace.

(** C5, as stated, fails: when the insert of a request that had passed the
    duplicate checks is rejected because a notification with its key has been
    stored in the meantime, [createNotification] does not return that
    notification. *)
Lemma lost_race_not_absorbed :
  ~ (forall dto w w' template winner,
       acceptable dto w template ->
       head (List.filter (Db.has_key (request_key dto)) (notifications w'))
       = Some winner ->
       run (snd (steps 3 (NotificationService.createNotification dto) w)) w'
       = (w', Returned winner)).
Proof.
  intros H.
  specialize (H Sample.request Sample.seeded Sample.accepted Sample.welcome_email
                Sample.stored sample_request_acceptable eq_refl).
  vm_compute in H. discriminate H.
Qed.

(** C5, amended: when the insert of an acceptable request is rejected by the
    uniqueness constraint on [idempotency_key] -- a notification with its key
    was stored after its duplicate checks -- [createNotification] does not
    query again: the error of the insert is thrown to the caller, and the
    rejected call leaves the world as it is (no row, no job, no cache
    entry). *)
Theorem lost_race_throws_insert_error
    (dto : CreateNotificationDTO) (w w' : World) (template : Template) :
  acceptable dto w template ->
  existsb (Db.has_key (request_key dto)) (notifications w') = true ->
  fst (steps 3 (NotificationService.createNotification dto) w) = w
  /\ run (snd (steps 3 (NotificationService.createNotification dto) w)) w'
     = (w', Thrown (DatabaseError "23505" "notifications_idempotency_key_key")).
Proof.
  intros Hdto Hwinner.
  rewrite (createNotification_after_checks dto w template Hdto). cbn [fst snd].
  split; [reflexivity|].
  rewrite run_bind. unfold NotificationModel.create.
  rewrite run_bind, run_await. unfold Db.insert_notification.
  rewrite Hwinner. reflexivity.
Qed.

Lemma lost_race_throws_insert_error_witness :
  acceptable Sample.request Sample.seeded Sample.welcome_email
  /\ existsb (Db.has_key (request_key Sample.request)) (notifications Sample.accepted)
     = true
  /\ fst (steps 3 (NotificationService.createNotification Sample.request) Sample.seeded)
     = Sample.seeded
  /\ run (snd (steps 3 (NotificationService.createNotification Sample.request)
                 Sample.seeded)) Sample.accepted
     = (Sample.accepted,
        Thrown (DatabaseError "23505" "notifications_idempotency_key_key")).
Proof.
  assert (Hwinner : existsb (Db.has_key (request_key Sample.request))
                      (notifications Sample.accepted) = true)
    by (vm_compute; reflexivity).
  split; [exact sample_request_acceptable|]. split; [exact Hwinner|].
  exact (lost_race_throws_insert_error Sample.request Sample.seeded Sample.accepted
           Sample.welcome_email sample_request_acceptable Hwinner).
Defined.

(** Two identical requests served concurrently, each doing its three reads
    before either inserts: the first is accepted, the second is thrown the
    error of the insert, and one notification and one job exist. *)
Example concurrent_duplicates :
  let '(w', first, second) :=
    concurrently [true; true; true; false; false; false]
      (NotificationService.createNotification Sample.request)
      (NotificationService.createNotification Sample.request) Sample.seeded in
  first = Returned Sample.stored
  /\ second = Thrown (DatabaseError "23505" "notifications_idempotency_key_key")
  /\ notifications w' = [Sample.stored]
  /\ List.length (queue w') = 1%nat.
Proof. vm_compute. repeat split. Qed.

(** ** The worker: retry count *)

Section RetryCount.

Lemma same_retry_counts_refl (w : World) : same_retry_counts w w.
Proof. reflexivity. Qed.

Lemma same_retry_counts_trans (w1 w2 w3 : World) :
  same_retry_counts w1 w2 -> same_retry_counts w2 w3 -> same_retry_counts w1 w3.
Proof. unfold same_retry_counts. congruence. Qed.

Lemma update_status_retry_counts (id : Uuid) (status : NotificationStatus)
    (message : option string) (w : World) :
  same_retry_counts w (fst (Db.update_status id status message w)).
Proof.
  unfold same_retry_counts, Db.update_status, Db.update_notification.
  cbn [fst set_notifications notifications]. rewrite map_map.
  apply map_ext. intros n. destruct (Db.has_id id n); reflexivity.
Qed.

Lemma insert_delivery_log_retry_counts (id : Uuid) (attempt : Z)
    (status : NotificationStatus) (message response : option string) (w : World) :
  same_retry_counts w (fst (Db.insert_delivery_log id attempt status message response w)).
Proof.
  unfold same_retry_counts, Db.insert_delivery_log.
  destruct (existsb _ _); reflexivity.
Qed.

End RetryCount.

Lemma processNotification_respects_retry_counts (env : Env) (job : Job) :
  Respects same_retry_counts (NotificationWorker.processNotification env job).
Proof.
  unfold NotificationWorker.processNotification, NotificationModel.findById,
    NotificationModel.updateStatus, TemplateModel.findById, DeliveryLogModel.create.
  repeat respects_step;
    first [ reflexivity
          | apply update_status_retry_counts
          | apply insert_delivery_log_retry_counts ].
Qed.

Lemma service_incrementRetryCount_respects_retry_counts (id : Uuid) :
  Respects same_retry_counts (NotificationService.incrementRetryCount id).
Proof.
  unfold NotificationService.incrementRetryCount, NotificationModel.findById,
    NotificationModel.updateStatus.
  repeat respects_step;
    first [ reflexivity | apply update_status_retry_counts ].
Qed.

(** The one statement that changes [retry_count]: the atomic increment of the
    model adds exactly 1 to the notification with the given id. *)
Lemma model_incrementRetryCount_adds_one (id : Uuid) (w : World) :
  map n_retry_count
      (notifications (fst (run (NotificationModel.incrementRetryCount id) w)))
  = map (fun n => if Db.has_id id n then n_retry_count n + 1 else n_retry_count n)
        (notifications w).
Proof.
  unfold NotificationModel.incrementRetryCount.
  rewrite run_bind, run_await. unfold Db.increment_retry_count, Db.update_notification.
  destruct (List.filter _ _) as [|row rows];
    cbn [run fst set_notifications notifications];
    rewrite map_map; apply map_ext; intros m; destruct (Db.has_id id m); reflexivity.
Qed.

(** C4, on the code: a worker attempt changes no [retry_count] -- whatever the
    job, the provider and the store; neither does
    [NotificationService.incrementRetryCount]; the first attempt on the
    notification of Scenario A delivers it and leaves its [retry_count] at 0,
    where the claim has 1. *)
Theorem processNotification_keeps_retry_count :
  (forall env job w,
     same_retry_counts w (fst (run (NotificationWorker.processNotification env job) w)))
  /\ (forall id w,
        same_retry_counts w (fst (run (NotificationService.incrementRetryCount id) w)))
  /\ (let '(w', result) :=
        run (NotificationWorker.processNotification Sample.accepting Sample.first_attempt)
            Sample.accepted in
      result = Returned {| NotificationWorker.jr_success := true;
                           NotificationWorker.jr_messageId := Some "msg-1" |}
      /\ map n_status (notifications w') = [SENT]
      /\ map n_retry_count (notifications w') = [0]).
Proof.
  split; [|split].
  - intros env job w.
    apply (Respects_run same_retry_counts same_retry_counts_refl
             same_retry_counts_trans).
    apply processNotification_respects_retry_counts.
  - intros id w.
    apply (Respects_run same_retry_counts same_retry_counts_refl
             same_retry_counts_trans).
    apply service_incrementRetryCount_respects_retry_counts.
  - vm_compute. repeat split.
Qed.

(** ** The worker: delivery logs *)

Section WorkerLogs.

Lemma filter_update (id : Uuid) (change : Notification -> Notification)
    (rows : list Notification) :
  (forall n, n_id (change n) = n_id n) ->
  forall id',
    List.filter (Db.has_id id')
      (map (fun n => if Db.has_id id n then change n else n) rows)
    = map (fun n => if Db.has_id id n then change n else n)
        (List.filter (Db.has_id id') rows).
Proof.
  intros Hid id'. induction rows as [|n rows IH]; cbn; [reflexivity|].
  assert (Hsame : Db.has_id id' (if Db.has_id id n then change n else n)
                  = Db.has_id id' n).
  { unfold Db.has_id at 1 3. destruct (Db.has_id id n); [rewrite Hid|]; reflexivity. }
  rewrite Hsame. destruct (Db.has_id id' n); cbn; rewrite IH; reflexivity.
Qed.

Lemma existsb_filter (id : Uuid) (rows : list Notification) :
  existsb (Db.has_id id) rows
  = match List.filter (Db.has_id id) rows with [] => false | _ :: _ => true end.
Proof.
  induction rows as [|n rows IH]; cbn; [reflexivity|].
  destruct (Db.has_id id n); cbn; [reflexivity|exact IH].
Qed.

Lemma run_updateStatus (id : Uuid) (status : NotificationStatus)
    (message : option string) (w : World) :
  run (NotificationModel.updateStatus id status message) w
  = (fst (Db.update_status id status (NotificationModel.or_null message) w),
     match List.filter (Db.has_id id) (notifications w) with
     | [] => Thrown (NotificationModel.not_found id)
     | row :: _ =>
         Returned (Db.set_status status (NotificationModel.or_null message) (clock w) row)
     end).
Proof.
  unfold NotificationModel.updateStatus. rewrite run_bind, run_await.
  unfold Db.update_status, Db.update_notification. cbn [fst].
  rewrite filter_update by reflexivity.
  destruct (List.filter (Db.has_id id) (notifications w)) as [|row rows] eqn:Hrows;
    cbn [map run]; [reflexivity|].
  assert (Hrow : Db.has_id id row = true).
  { assert (Hin : In row (List.filter (Db.has_id id) (notifications w)))
      by (rewrite Hrows; left; reflexivity).
    apply filter_In in Hin. tauto. }
  rewrite Hrow. reflexivity.
Qed.

Lemma filter_after_update (id id' : Uuid) (status : NotificationStatus)
    (message : option string) (w : World) :
  List.filter (Db.has_id id')
    (notifications (fst (Db.update_status id status message w)))
  = map (fun n => if Db.has_id id n then Db.set_status status message (clock w) n else n)
      (List.filter (Db.has_id id') (notifications w)).
Proof.
  unfold Db.update_status, Db.update_notification. cbn [fst set_notifications notifications].
  apply filter_update. reflexivity.
Qed.

Lemma row_survives_update (id id' : Uuid) (status : NotificationStatus)
    (message : option string) (w : World) :
  List.filter (Db.has_id id) (notifications w) <> [] ->
  List.filter (Db.has_id id)
    (notifications (fst (Db.update_status id' status message w))) <> [].
Proof.
  intros Hrow. rewrite filter_after_update.
  destruct (List.filter (Db.has_id id) (notifications w)); [contradiction|discriminate].
Qed.

Lemma run_log_create (id : Uuid) (attempt : Z) (status : NotificationStatus)
    (message : option string) (response : option json) (w : World) :
  List.filter (Db.has_id id) (notifications w) <> [] ->
  run (DeliveryLogModel.create id attempt status message response) w
  = (log_appended (new_log id attempt status message response w) w,
     Returned (new_log id attempt status message response w)).
Proof.
  intros Hrow. unfold DeliveryLogModel.create. rewrite run_bind, run_await.
  unfold Db.insert_delivery_log. rewrite existsb_filter.
  destruct (List.filter _ _); [contradiction|reflexivity].
Qed.

(** One attempt on a stored notification that is not SENT and whose template
    exists: the delivery logs grow by the rows of this attempt, one when the
    channel reports success or throws, two when it reports a failure -- the
    [throw] that follows the first [DeliveryLogModel.create] is inside the
    [try], so the [catch] block logs the attempt again. *)
Lemma processNotification_logs (env : Env) (job : Job) (w : World)
    (e : Notification) (rest : list Notification) (template : Template) :
  List.filter (Db.has_id (job_notificationId job)) (notifications w) = e :: rest ->
  n_status e <> SENT ->
  template_named (n_template_id e) w = Some template ->
  exists logs : list DeliveryLog,
    delivery_logs (fst (run (NotificationWorker.processNotification env job) w))
    = (delivery_logs w ++ logs)%list
    /\ List.length logs = logs_written (send_outcome env e template)
    /\ Forall (fun l => l_notification_id l = job_notificationId job
                        /\ l_attempt l = job_attemptsMade job + 1) logs.
Proof.
  intros Hrow Hstatus Htemplate.
  unfold NotificationWorker.processNotification. cbv zeta.
  set (id := job_notificationId job) in *.
  rewrite run_try_catch, run_bind, run_findById, Hrow.
  cbn [NotificationModel.parseNotification].
  rewrite bool_decide_false by exact Hstatus.
  rewrite run_bind, run_updateStatus, Hrow.
  set (w1 := fst (Db.update_status id PROCESSING _ w)).
  assert (Hrow0 : List.filter (Db.has_id id) (notifications w) <> []) by (rewrite Hrow; discriminate).
  pose proof (row_survives_update id id PROCESSING (NotificationModel.or_null None) w Hrow0) as Hrow1.
  fold w1 in Hrow1.
  rewrite run_bind, run_TemplateModel_findById.
  change (templates w1) with (templates w).
  unfold template_named in Htemplate.
  destruct (List.filter _ (templates w)) as [|t ts]; [discriminate|].
  cbn in Htemplate. injection Htemplate as ->.
  rewrite run_bind, run_lift.
  unfold send_outcome.
  destruct (ChannelFactory.getChannel (n_channel e)) as [channel|err] eqn:Hchannel.
  2:{ destruct (n_channel e); discriminate. }
  cbn [mbind Outcome_bind].
  rewrite run_bind, run_lift.
  destruct (send channel env _ template (n_data e)) as [result|err] eqn:Hsend.
  - cbn [logs_written].
    destruct (List.filter (Db.has_id id) (notifications w1)) as [|row1 rows1] eqn:Hrows1;
      [contradiction|].
    destruct (success result) eqn:Hsuccess.
    + rewrite run_bind, run_updateStatus, Hrows1.
      rewrite run_bind, run_log_create
        by (apply row_survives_update; rewrite Hrows1; discriminate).
      cbn [run fst]. eexists [_]. split; [reflexivity|]. split; [reflexivity|].
      repeat constructor.
    + rewrite run_bind, run_updateStatus, Hrows1.
      set (w2 := fst (Db.update_status id _ _ w1)).
      assert (Hrows2 : List.filter (Db.has_id id) (notifications w2) <> [])
        by (apply row_survives_update; rewrite Hrows1; discriminate).
      rewrite run_bind, run_log_create by exact Hrows2.
      cbn [run].
      rewrite run_bind, run_try_catch, run_bind, run_log_create by exact Hrows2.
      cbn [run fst log_appended fresh_uuid set_delivery_logs delivery_logs].
      rewrite <- app_assoc. eexists [_; _].
      split; [reflexivity|]. split; [reflexivity|]. repeat constructor.
  - cbn [logs_written].
    rewrite run_bind, run_try_catch, run_bind, run_log_create by exact Hrow1.
    cbn [run fst]. eexists [_]. split; [reflexivity|]. split; [reflexivity|].
    repeat constructor.
Qed.

(** An attempt that fails before the channel is reached (the template is
    gone) writes one log, from the [catch] block. *)
Lemma processNotification_logs_without_template (env : Env) (job : Job) (w : World)
    (e : Notification) (rest : list Notification) :
  List.filter (Db.has_id (job_notificationId job)) (notifications w) = e :: rest ->
  n_status e <> SENT ->
  template_named (n_template_id e) w = None ->
  exists log : DeliveryLog,
    delivery_logs (fst (run (NotificationWorker.processNotification env job) w))
    = (delivery_logs w ++ [log])%list
    /\ l_notification_id log = job_notificationId job
    /\ l_attempt log = job_attemptsMade job + 1
    /\ l_status log = FAILED.
Proof.
  intros Hrow Hstatus Htemplate.
  unfold NotificationWorker.processNotification. cbv zeta.
  set (id := job_notificationId job) in *.
  rewrite run_try_catch, run_bind, run_findById, Hrow.
  cbn [NotificationModel.parseNotification].
  rewrite bool_decide_false by exact Hstatus.
  rewrite run_bind, run_updateStatus, Hrow.
  set (w1 := fst (Db.update_status id PROCESSING _ w)).
  assert (Hrow1 : List.filter (Db.has_id id) (notifications w1) <> []).
  { apply row_survives_update. rewrite Hrow. discriminate. }
  rewrite run_bind, run_TemplateModel_findById.
  change (templates w1) with (templates w).
  unfold template_named in Htemplate.
  destruct (List.filter _ (templates w)) as [|t ts]; [|discriminate].
  rewrite run_bind, run_try_catch, run_bind, run_log_create by exact Hrow1.
  cbn [run fst]. eexists. split; [reflexivity|]. repeat split.
Qed.

End WorkerLogs.

(** A job for a notification that is already SENT is skipped: nothing is
    updated and no log is written. *)
Example sent_notification_is_skipped :
  let '(delivered, _) :=
    run (NotificationWorker.processNotification Sample.accepting Sample.first_attempt)
        Sample.accepted in
  run (NotificationWorker.processNotification Sample.rejecting Sample.first_attempt)
      delivered
  = (delivered, Returned {| NotificationWorker.jr_success := true;
                            NotificationWorker.jr_messageId := None |}).
Proof. vm_compute. reflexivity. Qed.

(** C2, on the code: the first attempt on the notification of Scenario A,
    with a provider that rejects the message.  The channel returns
    [success = false]; the attempt ends with two rows in [delivery_logs] for
    attempt 1, where the claim has exactly one. *)
Theorem provider_failure_is_logged_twice :
  delivery_logs Sample.accepted = []
  /\ (let '(w', result) :=
        run (NotificationWorker.processNotification Sample.rejecting Sample.first_attempt)
            Sample.accepted in
      result = Thrown (JsError "Failed to send notification")
      /\ map n_status (notifications w') = [RETRYING]
      /\ map l_notification_id (delivery_logs w') = [0%nat; 0%nat]
      /\ map l_attempt (delivery_logs w') = [1; 1]
      /\ map l_status (delivery_logs w') = [FAILED; FAILED]).
Proof. vm_compute. repeat split. Qed.

(** ** The channels: the result contract of [send] *)

Section SendNeverThrows.

Variables (env : Env) (recipient : string) (template : Template) (data : JsObject).

(** [SMSChannel.send] and [PushChannel.send] do all their work inside the
    [try]: they return a result on every input. *)
Lemma SMSChannel_send_returns :
  exists result, SMSChannel.send env recipient template data = Returned result.
Proof.
  unfold SMSChannel.send.
  destruct (renderTemplate (t_body template) data) as [body|e]; cbn; [|eauto].
  destruct (deliver env SMS recipient None body); cbn; eauto.
Qed.

Lemma PushChannel_send_returns :
  exists result, PushChannel.send env recipient template data = Returned result.
Proof.
  unfold PushChannel.send.
  destruct (negb (PushChannel.validateRecipient recipient)); cbn; [eauto|].
  destruct (renderTemplate (t_body template) data) as [body|e]; cbn; [|eauto].
  destruct (deliver env PUSH recipient None body); cbn; eauto.
Qed.

(** [EmailChannel.send] throws exactly when rendering throws, which happens
    before its [try]. *)
Lemma EmailChannel_send_throws (e : Error) :
  EmailChannel.send env recipient template data = Thrown e
  <-> match t_subject template with
      | None => e = TypeError "Cannot read properties of null (reading 'replace')"
      | Some subject =>
          renderTemplate subject data = Thrown e
          \/ (exists s, renderTemplate subject data = Returned s)
             /\ renderTemplate (t_body template) data = Thrown e
      end.
Proof.
  unfold EmailChannel.send.
  destruct (t_subject template) as [subject|]; cbn.
  - destruct (renderTemplate subject data) as [s|e1]; cbn.
    + destruct (renderTemplate (t_body template) data) as [html|e2]; cbn.
      * destruct (deliver env EMAIL recipient (Some s) html); cbn;
          split; [discriminate|intros [?|[_ ?]]; discriminate
                 |discriminate|intros [?|[_ ?]]; discriminate].
      * split; [intros [= ->]; right; eauto|intros [?|[_ [= ->]]]; [discriminate|reflexivity]].
    + split; [intros [= ->]; left; reflexivity|].
      intros [[= ->]|[[s ?] _]]; [reflexivity|discriminate].
  - split; [intros [= <-]; reflexivity|intros ->; reflexivity].
Qed.

End SendNeverThrows.

(** C6, on the code: [EmailChannel.send] throws for an email template without
    a subject, whatever the provider and the payload; and when the provider
    rejects the message, the result of the email and of the sms channel has
    [success = false] and the raw answer of the provider, and no error
    message. *)
Theorem send_breaks_result_contract :
  (forall env recipient data,
     EmailChannel.send env recipient Sample.plain_email data
     = Thrown (TypeError "Cannot read properties of null (reading 'replace')"))
  /\ (forall recipient,
        EmailChannel.send Sample.rejecting recipient Sample.welcome_email Sample.john
        = Returned {| success := false; messageId := Some ""; error := None;
                      providerResponse := Some (JObj [("code", JNum 401)]) |})
  /\ (forall recipient,
        SMSChannel.send Sample.rejecting recipient Sample.order_shipped
          [("name", JStr "John"); ("order_id", JNum 7); ("tracking_link", JStr "t")]
        = Returned {| success := false; messageId := Some ""; error := None;
                      providerResponse := Some (JObj [("code", JNum 401)]) |}).
Proof. repeat split. Qed.

(** ** The channels: rendering *)

Section Rendering.

Variable callback : string -> string -> Outcome string.

Lemma append_cons (c : ascii) (s t : string) : String c s ++ t = String c (s ++ t).
Proof. reflexivity. Qed.

Lemma append_empty (t : string) : "" ++ t = t.
Proof. reflexivity. Qed.

Lemma append_assoc (s t u : string) : (s ++ t) ++ u = s ++ (t ++ u).
Proof.
  induction s as [|c s IH]; [reflexivity|].
  rewrite !append_cons, IH. reflexivity.
Qed.

Lemma length_append (s t : string) :
  String.length (s ++ t) = (String.length s + String.length t)%nat.
Proof.
  induction s as [|c s IH]; [reflexivity|].
  rewrite append_cons. cbn [String.length]. rewrite IH. reflexivity.
Qed.

Lemma span_word_variable (key rest : string) :
  all_word key = true ->
  span_word (key ++ String "}" rest) = (key, String "}" rest).
Proof.
  induction key as [|c key IH]; intros Hkey.
  - reflexivity.
  - cbn [all_word] in Hkey. apply andb_true_iff in Hkey as [Hc Hkey].
    rewrite append_cons. cbn [span_word]. rewrite Hc, (IH Hkey). reflexivity.
Qed.

Lemma match_placeholder_variable (key rest : string) :
  is_variable key = true ->
  match_placeholder (placeholder key ++ rest) = Some key.
Proof.
  intros Hkey. unfold placeholder.
  destruct key as [|c key]; [discriminate|].
  cbn [is_variable] in Hkey.
  rewrite !append_assoc, !append_cons, append_empty.
  cbn [match_placeholder].
  rewrite <- append_cons, span_word_variable by exact Hkey. reflexivity.
Qed.

Lemma skip_prefix (pre s : string) (k : nat) :
  replace_placeholders callback (String.length pre + k) (pre ++ s)
  = replace_placeholders callback k s.
Proof.
  induction pre as [|c pre IH]; [reflexivity|].
  rewrite append_cons. cbn [String.length Nat.add replace_placeholders]. exact IH.
Qed.

Lemma match_placeholder_text (c : ascii) (s : string) :
  Ascii.eqb c "{" = false -> match_placeholder (String c s) = None.
Proof.
  intros Hc. unfold match_placeholder.
  destruct c as [[] [] [] [] [] [] [] []]; try reflexivity. discriminate Hc.
Qed.

Lemma replace_text (text rest : string) :
  brace_free text = true ->
  replace_placeholders callback 0 (text ++ rest)
  = (out ← replace_placeholders callback 0 rest; Returned (text ++ out)).
Proof.
  induction text as [|c text IH]; intros Hfree.
  - rewrite append_empty.
    destruct (replace_placeholders callback 0 rest); reflexivity.
  - cbn [brace_free] in Hfree. apply andb_true_iff in Hfree as [Hc Hfree].
    apply negb_true_iff in Hc.
    rewrite append_cons. cbn [replace_placeholders].
    rewrite (match_placeholder_text c _ Hc), (IH Hfree).
    destruct (replace_placeholders callback 0 rest); reflexivity.
Qed.

Lemma replace_variable (key rest : string) :
  is_variable key = true ->
  replace_placeholders callback 0 (placeholder key ++ rest)
  = (replacement ← callback (placeholder key) key;
     out ← replace_placeholders callback 0 rest;
     Returned (replacement ++ out)).
Proof.
  intros Hkey.
  pose proof (match_placeholder_variable key rest Hkey) as Hmatch.
  remember (placeholder key ++ rest) as s eqn:Hs.
  assert (Hshape : s = String "{" (String "{" key ++ String "}" (String "}" rest))).
  { subst s. unfold placeholder.
    rewrite !append_assoc, !append_cons, !append_empty. reflexivity. }
  rewrite Hshape in Hmatch |- *. clear Hs Hshape.
  cbn [replace_placeholders]. rewrite Hmatch.
  replace (String.length key + 3)%nat
    with (String.length (String "{" key ++ "}}") + 0)%nat.
  2:{ rewrite length_append. cbn [String.length]. lia. }
  replace (String "{" key ++ String "}" (String "}" rest))
    with ((String "{" key ++ "}}") ++ rest).
  2:{ rewrite append_assoc. reflexivity. }
  rewrite skip_prefix. reflexivity.
Qed.

Lemma span_word_sound (s w r : string) : span_word s = (w, r) -> s = w ++ r.
Proof.
  revert w r. induction s as [|c s IH]; cbn [span_word]; intros w r H.
  - injection H as <- <-. reflexivity.
  - destruct (Js.is_word_char c).
    + destruct (span_word s) as [w' r']. injection H as <- <-.
      rewrite append_cons, (IH w' r' eq_refl). reflexivity.
    + injection H as <- <-. reflexivity.
Qed.

Lemma match_placeholder_sound (s key : string) :
  match_placeholder s = Some key ->
  exists rest, s = String "{" (String "{" key ++ String "}" (String "}" rest)).
Proof.
  unfold match_placeholder.
  destruct s as [|c1 [|c2 t]]; try discriminate;
    try (destruct c1 as [[] [] [] [] [] [] [] []]; discriminate).
  destruct c1 as [[] [] [] [] [] [] [] []]; try discriminate.
  destruct c2 as [[] [] [] [] [] [] [] []]; try discriminate.
  destruct (span_word t) as [w r] eqn:Hspan.
  destruct w as [|c w]; [discriminate|].
  destruct r as [|r1 [|r2 rest]]; try discriminate;
    try (destruct r1 as [[] [] [] [] [] [] [] []]; discriminate).
  destruct r1 as [[] [] [] [] [] [] [] []]; try discriminate.
  destruct r2 as [[] [] [] [] [] [] [] []]; try discriminate.
  intros [= <-]. exists rest.
  rewrite append_cons. rewrite (span_word_sound _ _ _ Hspan). reflexivity.
Qed.

Lemma drop_prefix (pre s : string) : drop (String.length pre) (pre ++ s) = s.
Proof. induction pre as [|c pre IH]; [destruct s; reflexivity|exact IH]. Qed.

Lemma replace_identity (s : string) (skip : nat) :
  (forall key, In key (placeholders skip s) ->
               callback (placeholder key) key = Returned (placeholder key)) ->
  replace_placeholders callback skip s = Returned (drop skip s).
Proof.
  revert skip. induction s as [|c t IH]; intros skip Hkeys.
  - destruct skip; reflexivity.
  - destruct skip as [|skip]; cbn [replace_placeholders placeholders drop] in *.
    + destruct (match_placeholder (String c t)) as [key|] eqn:Hmatch.
      * rewrite (Hkeys key) by (left; reflexivity).
        rewrite IH by (intros k Hk; apply Hkeys; right; exact Hk).
        cbn [mbind Outcome_bind]. f_equal.
        destruct (match_placeholder_sound _ _ Hmatch) as [rest Hshape].
        injection Hshape as -> ->.
        replace (String.length key + 3)%nat with (String.length (String "{" key ++ "}}")).
        2:{ rewrite length_append. cbn [String.length]. lia. }
        replace (String "{" key ++ String "}" (String "}" rest))
          with ((String "{" key ++ "}}") ++ rest) by (rewrite append_assoc; reflexivity).
        rewrite drop_prefix. unfold placeholder.
        rewrite !append_assoc, !append_cons, !append_empty. reflexivity.
      * rewrite IH by exact Hkeys. cbn [mbind Outcome_bind].
        destruct t; reflexivity.
    + apply IH. exact Hkeys.
Qed.

End Rendering.

Lemma substitution_renders (data : JsObject) (key text : string) :
  renders data (Variable_ key) text ->
  substitution data (placeholder key) key = Returned text.
Proof.
  inversion 1 as [|? v ? _ Hv Hnull Hstring Htext|? _ Hv|? _ Hv Hproto]; subst;
    unfold substitution, JsValue.get.
  - rewrite Hv. destruct v; try contradiction; rewrite Hstring; cbn [mbind Outcome_bind];
      (destruct (String.eqb_spec text ""); [contradiction|reflexivity]).
  - rewrite Hv. reflexivity.
  - rewrite Hv, Hproto. reflexivity.
Qed.

Lemma renderTemplate_segments (data : JsObject) (segments : list segment)
    (rendered : list string) :
  Forall2 (renders data) segments rendered ->
  renderTemplate (source segments) data = Returned (fold_right String.append "" rendered).
Proof.
  unfold renderTemplate. induction 1 as [|seg text segments rendered Hseg _ IH].
  - reflexivity.
  - unfold source in *. cbn [map fold_right].
    destruct seg as [s|key].
    + inversion Hseg as [? Hfree| | |]; subst.
      rewrite replace_text by exact Hfree. rewrite IH. reflexivity.
    + assert (Hkey : is_variable key = true) by (inversion Hseg; assumption).
      rewrite replace_variable by exact Hkey.
      rewrite (substitution_renders data key text Hseg), IH. reflexivity.
Qed.


(** A placeholder that names a member of [Object.prototype] is replaced even
    though the payload has no value for it, and a value that shadows
    [toString] makes rendering throw. *)
Example inherited_member_is_substituted :
  renderTemplate "{{constructor}}" [] = Returned "function Object() { [native code] }".
Proof. reflexivity. Qed.

Example shadowed_toString_throws :
  renderTemplate "{{name}}" [("name", JObj [("toString", JNum 1)])]
  = Thrown (TypeError "toString is not a function").
Proof. reflexivity. Qed.



(** ** [JSON.stringify] is injective *)

(** *** Numbers *)

Lemma digit_char_spec (d : Z) :
  0 <= d < 10 -> is_digit (Js.digit_char d) = true /\ Js.code (Js.digit_char d) - 48 = d.
Proof.
  intros Hd.
  assert (Hcases : d = 0 \/ d = 1 \/ d = 2 \/ d = 3 \/ d = 4 \/ d = 5 \/ d = 6
                   \/ d = 7 \/ d = 8 \/ d = 9) by lia.
  repeat (destruct Hcases as [->|Hcases]; [split; reflexivity|]).
  subst d. split; reflexivity.
Qed.

Lemma value_append (a b : string) (acc : Z) :
  value acc (a ++ b) = value (value acc a) b.
Proof.
  revert acc. induction a as [|c a IH]; intros acc; [reflexivity|].
  rewrite append_cons. cbn [value]. apply IH.
Qed.

Lemma all_digits_append (a b : string) :
  all_digits (a ++ b) = all_digits a && all_digits b.
Proof.
  induction a as [|c a IH]; [reflexivity|].
  rewrite append_cons. cbn [all_digits]. rewrite IH, andb_assoc. reflexivity.
Qed.

Lemma digits_spec (fuel : nat) :
  forall n acc, 0 <= n < 2 ^ Z.of_nat fuel ->
  exists ds, Js.digits fuel n acc = ds ++ acc
             /\ all_digits ds = true
             /\ (fuel <> O -> ds <> "")
             /\ value 0 ds = n.
Proof.
  induction fuel as [|fuel IH]; intros n acc Hn.
  - exists "". cbn in Hn. assert (n = 0) by lia. subst. repeat split; congruence.
  - cbn [Js.digits].
    assert (Hmod : 0 <= n mod 10 < 10) by (apply Z.mod_pos_bound; lia).
    destruct (digit_char_spec _ Hmod) as [Hdigit Hcode].
    destruct (Z.eqb_spec (n / 10) 0) as [Hzero|Hnonzero].
    + exists (String (Js.digit_char (n mod 10)) "").
      split; [reflexivity|]. split; [cbn [all_digits]; rewrite Hdigit; reflexivity|].
      split; [discriminate|].
      cbn [value]. rewrite Hcode. rewrite (Z.div_mod n 10) at 2 by lia. lia.
    + destruct (IH (n / 10) (String (Js.digit_char (n mod 10)) acc))
        as (ds & Heq & Hall & _ & Hval).
      { split; [apply Z.div_pos; lia|].
        rewrite Nat2Z.inj_succ, Z.pow_succ_r in Hn by lia.
        apply Z.div_lt_upper_bound; lia. }
      exists (ds ++ String (Js.digit_char (n mod 10)) "").
      split; [rewrite Heq, append_assoc; reflexivity|].
      split; [rewrite all_digits_append, Hall; cbn [all_digits]; rewrite Hdigit; reflexivity|].
      split; [intros _; destruct ds; discriminate|].
      rewrite value_append, Hval. cbn [value]. rewrite Hcode.
      rewrite (Z.div_mod n 10) at 3 by lia. lia.
Qed.

Lemma value_bound (s : string) (acc : Z) : 0 <= acc -> all_digits s = true -> 0 <= value acc s.
Proof.
  revert acc. induction s as [|c s IH]; intros acc Hacc Hs; [exact Hacc|].
  cbn [all_digits] in Hs. apply andb_true_iff in Hs as [Hc Hs].
  cbn [value]. apply IH; [|exact Hs].
  unfold is_digit in Hc. apply andb_true_iff in Hc as [Hlo _]. lia.
Qed.

(** [show_Z] writes an optional sign and then the digits of the magnitude. *)
Lemma show_Z_spec (n : Z) :
  exists ds, all_digits ds = true /\ ds <> "" /\ value 0 ds = Z.abs n
             /\ Js.show_Z n = if n <? 0 then String "-" ds else ds.
Proof.
  unfold Js.show_Z. destruct (Z.ltb_spec n 0) as [Hneg|Hpos].
  - destruct (digits_spec (S (Z.to_nat (Z.log2 (- n)))) (- n) "") as (ds & Heq & Hall & Hne & Hval).
    { split; [lia|]. rewrite Nat2Z.inj_succ, Z2Nat.id by apply Z.log2_nonneg.
      apply Z.log2_spec. lia. }
    exists ds. rewrite Heq. repeat split; auto.
    + lia.
    + f_equal. clear. induction ds as [|c ds IH]; [reflexivity|].
      rewrite append_cons, IH. reflexivity.
  - destruct (digits_spec (S (Z.to_nat (Z.log2 n))) n "") as (ds & Heq & Hall & Hne & Hval).
    { split; [lia|]. rewrite Nat2Z.inj_succ, Z2Nat.id by apply Z.log2_nonneg.
      destruct (Z.eq_dec n 0) as [->|Hn]; [cbn; lia|]. apply Z.log2_spec. lia. }
    exists ds. rewrite Heq. repeat split; auto.
    + lia.
    + clear. induction ds as [|c ds IH]; [reflexivity|].
      rewrite append_cons, IH. reflexivity.
Qed.

Lemma digits_prefix_unique (a b r1 r2 : string) :
  all_digits a = true -> all_digits b = true ->
  after_value r1 -> after_value r2 ->
  a ++ r1 = b ++ r2 -> a = b /\ r1 = r2.
Proof.
  revert b. induction a as [|c a IH]; intros [|d b] Ha Hb Hr1 Hr2 Heq.
  - split; [reflexivity|exact Heq].
  - rewrite append_empty, append_cons in Heq. subst r1. cbn in Hr1.
    cbn [all_digits] in Hb. apply andb_true_iff in Hb as [Hd _]. congruence.
  - rewrite append_empty, append_cons in Heq. subst r2. cbn in Hr2.
    cbn [all_digits] in Ha. apply andb_true_iff in Ha as [Hc _]. congruence.
  - rewrite !append_cons in Heq. injection Heq as -> Heq.
    cbn [all_digits] in Ha, Hb.
    apply andb_true_iff in Ha as [_ Ha]. apply andb_true_iff in Hb as [_ Hb].
    destruct (IH b Ha Hb Hr1 Hr2 Heq) as [-> ->]. split; reflexivity.
Qed.

Lemma show_Z_injective (n1 n2 : Z) (r1 r2 : string) :
  after_value r1 -> after_value r2 ->
  Js.show_Z n1 ++ r1 = Js.show_Z n2 ++ r2 -> n1 = n2 /\ r1 = r2.
Proof.
  intros Hr1 Hr2.
  destruct (show_Z_spec n1) as (d1 & Hall1 & Hne1 & Hval1 & ->).
  destruct (show_Z_spec n2) as (d2 & Hall2 & Hne2 & Hval2 & ->).
  assert (Hhead : forall ds r, all_digits ds = true -> ds <> "" ->
                    forall t, String "-" t <> ds ++ r).
  { intros [|c ds] r Hall Hne t Heq; [congruence|].
    rewrite append_cons in Heq. injection Heq as <- _. discriminate Hall. }
  destruct (Z.ltb_spec n1 0), (Z.ltb_spec n2 0); intros Heq.
  - rewrite !append_cons in Heq. injection Heq as Heq.
    destruct (digits_prefix_unique d1 d2 r1 r2 Hall1 Hall2 Hr1 Hr2 Heq) as [-> ->].
    split; [lia|reflexivity].
  - rewrite append_cons in Heq. exfalso. exact (Hhead d2 r2 Hall2 Hne2 _ Heq).
  - rewrite append_cons in Heq. exfalso. symmetry in Heq.
    exact (Hhead d1 r1 Hall1 Hne1 _ Heq).
  - destruct (digits_prefix_unique d1 d2 r1 r2 Hall1 Hall2 Hr1 Hr2 Heq) as [-> ->].
    split; [lia|reflexivity].
Qed.

(** *** Strings *)

Lemma unescape_head_escape_char (c : ascii) (r : string) :
  unescape_head (JSON.escape_char c ++ r) = Some (c, r).
Proof. destruct c as [[] [] [] [] [] [] [] []]; reflexivity. Qed.

Lemma unescape_head_quote (r : string) : unescape_head (String JSON.dquote r) = None.
Proof. reflexivity. Qed.

Lemma escape_injective (s1 s2 r1 r2 : string) :
  JSON.escape s1 ++ String JSON.dquote r1 = JSON.escape s2 ++ String JSON.dquote r2 ->
  s1 = s2 /\ r1 = r2.
Proof.
  revert s2. induction s1 as [|c1 s1 IH]; intros [|c2 s2] Heq; cbn [JSON.escape] in Heq.
  - rewrite !append_empty in Heq. injection Heq as ->. split; reflexivity.
  - rewrite append_empty, append_assoc in Heq.
    apply (f_equal unescape_head) in Heq.
    rewrite unescape_head_escape_char, unescape_head_quote in Heq. discriminate.
  - rewrite append_empty, append_assoc in Heq.
    apply (f_equal unescape_head) in Heq.
    rewrite unescape_head_escape_char, unescape_head_quote in Heq. discriminate.
  - rewrite !append_assoc in Heq.
    pose proof (f_equal unescape_head Heq) as Hhead.
    rewrite !unescape_head_escape_char in Hhead. injection Hhead as -> Htail.
    destruct (IH s2 Htail) as [-> ->]. split; reflexivity.
Qed.

Lemma quote_injective (s1 s2 r1 r2 : string) :
  JSON.quote s1 ++ r1 = JSON.quote s2 ++ r2 -> s1 = s2 /\ r1 = r2.
Proof.
  unfold JSON.quote. rewrite !append_cons, !append_assoc, !append_cons, !append_empty.
  intros [= Heq]. exact (escape_injective _ _ _ _ Heq).
Qed.

(** *** Values *)

Lemma kind_of_digit (c : ascii) (s : string) :
  is_digit c = true -> kind_of_text (String c s) = 4.
Proof. destruct c as [[] [] [] [] [] [] [] []]; intros H; try discriminate H; reflexivity. Qed.

Lemma kind_of_stringify (v : json) (r : string) :
  kind_of_text (JSON.stringify v ++ r) = kind_of v.
Proof.
  destruct v as [|[]|n|s|items|members]; try reflexivity.
  cbn [JSON.stringify kind_of].
  destruct (show_Z_spec n) as (ds & Hall & Hne & _ & ->).
  destruct (n <? 0); [reflexivity|].
  destruct ds as [|c ds]; [congruence|].
  cbn [all_digits] in Hall. apply andb_true_iff in Hall as [Hc _].
  rewrite append_cons. apply kind_of_digit. exact Hc.
Qed.

Lemma join_single (sep x : string) : Js.join sep [x] = x.
Proof. reflexivity. Qed.

Lemma join_cons (sep x y : string) (l : list string) :
  Js.join sep (x :: y :: l) = x ++ sep ++ Js.join sep (y :: l).
Proof. reflexivity. Qed.

Lemma kind_of_positive (v : json) : kind_of v <> 0.
Proof. destruct v as [|[]| | | |]; discriminate. Qed.

Section Joined.

Context {A : Type} (text : A -> string) (close : ascii).

Hypothesis close_not_digit : is_digit close = false.
Hypothesis close_not_comma : close <> ","%char.
Hypothesis close_kind : forall r, kind_of_text (String close r) = 0.
Hypothesis text_kind : forall x r, kind_of_text (text x ++ r) <> 0.

Lemma joined_readable (items : list A) :
  Forall (element_readable text) items ->
  forall items' r r',
    Js.join "," (map text items) ++ String close r
    = Js.join "," (map text items') ++ String close r' ->
    items = items' /\ r = r'.
Proof using close_not_digit close_not_comma close_kind text_kind.
  induction 1 as [|x items Hx _ IH]; intros [|y items'] r r' Heq.
  - cbn [map Js.join] in Heq. rewrite !append_empty in Heq.
    injection Heq as ->. split; reflexivity.
  - exfalso. cbn [map] in Heq.
    apply (f_equal kind_of_text) in Heq. rewrite append_empty, close_kind in Heq.
    destruct items' as [|z items']; cbn [map] in Heq.
    + rewrite join_single in Heq. symmetry in Heq. exact (text_kind _ _ Heq).
    + rewrite join_cons, append_assoc in Heq. symmetry in Heq. exact (text_kind _ _ Heq).
  - exfalso. cbn [map] in Heq.
    apply (f_equal kind_of_text) in Heq. rewrite append_empty, close_kind in Heq.
    destruct items as [|z items]; cbn [map] in Heq.
    + rewrite join_single in Heq. exact (text_kind _ _ Heq).
    + rewrite join_cons, append_assoc in Heq. exact (text_kind _ _ Heq).
  - cbn [map] in Heq.
    destruct items as [|x2 items], items' as [|y2 items']; cbn [map] in Heq.
    + rewrite !join_single in Heq.
      apply Hx in Heq as [-> [= ->]]; [|exact close_not_digit|exact close_not_digit].
      split; reflexivity.
    + rewrite join_cons, join_single in Heq.
      rewrite (append_assoc (text y)) in Heq.
      apply Hx in Heq as [_ Htail]; [|exact close_not_digit|reflexivity].
      exfalso. rewrite append_cons in Htail. injection Htail as Hc _.
      congruence.
    + rewrite join_cons, join_single in Heq.
      rewrite (append_assoc (text x)) in Heq.
      apply Hx in Heq as [_ Htail]; [|reflexivity|exact close_not_digit].
      exfalso. rewrite append_cons in Htail. injection Htail as Hc _.
      congruence.
    + rewrite !join_cons in Heq.
      rewrite (append_assoc (text x)), (append_assoc (text y)) in Heq.
      apply Hx in Heq as [-> Htail]; [|reflexivity|reflexivity].
      rewrite !append_assoc, !append_cons, !append_empty in Htail.
      injection Htail as Htail.
      destruct (IH (y2 :: items') r r') as [Hitems ->].
      { cbn [map]. exact Htail. }
      rewrite Hitems. split; reflexivity.
Qed.

End Joined.

Lemma kind_of_member_text (kv : string * json) (r : string) :
  kind_of_text (member_text kv ++ r) <> 0.
Proof.
  unfold member_text, JSON.quote. rewrite !append_cons. discriminate.
Qed.

Lemma member_readable (kv : string * json) :
  readable (snd kv) -> element_readable member_text kv.
Proof.
  intros Hv [k' v'] r r' Hr Hr' Heq. destruct kv as [k v]. unfold member_text in Heq.
  cbn [fst snd] in *. rewrite !append_assoc in Heq.
  apply quote_injective in Heq as [-> Heq].
  rewrite !append_cons, !append_empty in Heq. injection Heq as Heq.
  apply Hv in Heq as [-> ->]; auto.
Qed.

Lemma stringify_readable (v : json) : readable v.
Proof.
  induction v as [|b|n|s|items IH|members IH] using json_induction;
    intros v' r r' Hr Hr' Heq;
    pose proof (f_equal kind_of_text Heq) as Hkind;
    rewrite !kind_of_stringify in Hkind;
    destruct v' as [|b'|n'|s'|items'|members'];
    try (destruct b); try (destruct b'); try discriminate Hkind; clear Hkind.
  - cbn [JSON.stringify] in Heq. rewrite !append_cons, !append_empty in Heq.
    injection Heq as ->. split; reflexivity.
  - cbn [JSON.stringify] in Heq. rewrite !append_cons, !append_empty in Heq.
    injection Heq as ->. split; reflexivity.
  - cbn [JSON.stringify] in Heq. rewrite !append_cons, !append_empty in Heq.
    injection Heq as ->. split; reflexivity.
  - cbn [JSON.stringify] in Heq.
    apply show_Z_injective in Heq as [-> ->]; auto.
  - cbn [JSON.stringify] in Heq.
    apply quote_injective in Heq as [-> ->]. split; reflexivity.
  - cbn [JSON.stringify] in Heq.
    rewrite !append_cons, !append_empty, !append_assoc, !append_cons, !append_empty in Heq.
    injection Heq as Heq.
    apply (joined_readable JSON.stringify "]") in Heq as [-> ->];
      [split; reflexivity|reflexivity|discriminate|reflexivity| |exact IH].
    intros x t. rewrite kind_of_stringify. apply kind_of_positive.
  - cbn [JSON.stringify] in Heq.
    rewrite !append_cons, !append_empty, !append_assoc, !append_cons, !append_empty in Heq.
    injection Heq as Heq.
    apply (joined_readable member_text "}") in Heq as [-> ->];
      [split; reflexivity|reflexivity|discriminate|reflexivity
      |exact kind_of_member_text|].
    eapply Forall_impl; [exact IH|]. intros kv Hkv. apply member_readable. exact Hkv.
Qed.

Lemma stringify_injective (v v' : json) :
  JSON.stringify v = JSON.stringify v' -> v = v'.
Proof.
  intros Heq.
  assert (Happ : JSON.stringify v ++ "" = JSON.stringify v' ++ "") by (rewrite Heq; reflexivity).
  apply stringify_readable in Happ as [-> _]; [reflexivity|exact I|exact I].
Qed.

(** ** The idempotency key *)

Lemma split_at_colon (a a' r r' : string) :
  colon_free a = true -> colon_free a' = true ->
  a ++ String ":" r = a' ++ String ":" r' -> a = a' /\ r = r'.
Proof.
  revert a'. induction a as [|c a IH]; intros [|c' a'] Ha Ha' Heq.
  - rewrite !append_empty in Heq. injection Heq as ->. split; reflexivity.
  - rewrite append_empty, append_cons in Heq. injection Heq as <- _.
    discriminate Ha'.
  - rewrite append_empty, append_cons in Heq. injection Heq as -> _.
    discriminate Ha.
  - rewrite !append_cons in Heq. injection Heq as -> Heq.
    cbn [colon_free] in Ha, Ha'.
    apply andb_true_iff in Ha as [_ Ha]. apply andb_true_iff in Ha' as [_ Ha'].
    destruct (IH a' Ha Ha' Heq) as [-> ->]. split; reflexivity.
Qed.

(** The hashed content determines the request, when neither the user id nor
    the template name contains the separator. *)
Lemma idempotency_content_injective (u1 t1 u2 t2 : string) (d1 d2 : JsObject) :
  colon_free u1 = true -> colon_free t1 = true ->
  colon_free u2 = true -> colon_free t2 = true ->
  idempotency_content u1 t1 d1 = idempotency_content u2 t2 d2 ->
  u1 = u2 /\ t1 = t2 /\ d1 = d2.
Proof.
  intros Hu1 Ht1 Hu2 Ht2 Heq. unfold idempotency_content in Heq.
  change (":" ++ ?x) with (String ":" x) in Heq.
  apply split_at_colon in Heq as [-> Heq]; [|assumption..].
  apply split_at_colon in Heq as [-> Heq]; [|assumption..].
  apply stringify_injective in Heq. injection Heq as ->. repeat split.
Qed.


(** The user id and the template name are joined by [:] without escaping:
    two different requests can hash the same content. *)
Example separator_is_ambiguous :
  idempotency_content "a:b" "c" [] = idempotency_content "a" "b:c" [].
Proof. reflexivity. Qed.



(** * Further properties of the code *)

(** ** The idempotency key: its shape *)

Section KeyShape.

Lemma blocks_length (n : nat) (h bs : list Z) :
  List.length h = 8%nat -> List.length (SHA256.blocks n h bs) = 8%nat.
Proof.
  revert h bs. induction n as [|n IH]; intros h bs Hh; cbn [SHA256.blocks]; [exact Hh|].
  apply IH. reflexivity.
Qed.

Lemma hex_char_is_hex (d : Z) : 0 <= d < 16 -> is_hex_digit (Js.hex_char d) = true.
Proof.
  intros Hd.
  assert (Hcases : d = 0 \/ d = 1 \/ d = 2 \/ d = 3 \/ d = 4 \/ d = 5 \/ d = 6 \/ d = 7
                   \/ d = 8 \/ d = 9 \/ d = 10 \/ d = 11 \/ d = 12 \/ d = 13 \/ d = 14
                   \/ d = 15) by lia.
  repeat (destruct Hcases as [->|Hcases]; [reflexivity|]). subst d. reflexivity.
Qed.

Lemma hex_byte_shape (b : Z) :
  0 <= b < 256 ->
  String.length (SHA256.hex_byte b) = 2%nat /\ all_hex (SHA256.hex_byte b) = true.
Proof.
  intros Hb. unfold SHA256.hex_byte. split; [reflexivity|]. cbn [all_hex].
  rewrite !hex_char_is_hex; [reflexivity| |].
  - apply Z.mod_pos_bound. lia.
  - split; [apply Z.div_pos; lia|apply Z.div_lt_upper_bound; lia].
Qed.

Lemma be_bytes_shape (n : nat) (x : Z) :
  List.length (SHA256.be_bytes n x) = n
  /\ Forall (fun b => 0 <= b < 256) (SHA256.be_bytes n x).
Proof.
  induction n as [|n [IHlen IHall]]; cbn [SHA256.be_bytes]; [split; [reflexivity|constructor]|].
  split; [cbn; rewrite IHlen; reflexivity|].
  constructor; [|exact IHall].
  change 255 with (Z.ones 8). rewrite Z.land_ones by lia.
  apply Z.mod_pos_bound. lia.
Qed.

Lemma all_hex_append (s t : string) : all_hex (s ++ t) = all_hex s && all_hex t.
Proof.
  induction s as [|c s IH]; [reflexivity|].
  rewrite append_cons. cbn [all_hex]. rewrite IH, andb_assoc. reflexivity.
Qed.

Lemma hex_bytes_shape (bytes : list Z) :
  Forall (fun b => 0 <= b < 256) bytes ->
  String.length (String.concat "" (map SHA256.hex_byte bytes)) = (2 * List.length bytes)%nat
  /\ all_hex (String.concat "" (map SHA256.hex_byte bytes)) = true.
Proof.
  induction 1 as [|b bytes Hb _ [IHlen IHall]]; [split; reflexivity|].
  destruct (hex_byte_shape b Hb) as [Hlen Hall].
  assert (Hconcat : String.concat "" (map SHA256.hex_byte (b :: bytes))
                    = SHA256.hex_byte b ++ String.concat "" (map SHA256.hex_byte bytes)).
  { cbn [map String.concat]. destruct (map SHA256.hex_byte bytes) as [|h rest] eqn:Hmap.
    - cbn. unfold SHA256.hex_byte. reflexivity.
    - reflexivity. }
  rewrite Hconcat, length_append, all_hex_append, Hlen, Hall, IHlen, IHall.
  split; [cbn [List.length]; lia|reflexivity].
Qed.

Lemma digest_shape (msg : list Z) :
  List.length (SHA256.digest msg) = 32%nat
  /\ Forall (fun b => 0 <= b < 256) (SHA256.digest msg).
Proof.
  unfold SHA256.digest. cbv zeta.
  pose proof (blocks_length (List.length (SHA256.pad msg) / 64) SHA256.H0 (SHA256.pad msg)
                eq_refl) as Hlen.
  destruct (SHA256.blocks _ _ _) as [|a [|b [|c [|d [|e [|f [|g [|h [|]]]]]]]]];
    try discriminate Hlen.
  cbn [flat_map]. rewrite !length_app, !Forall_app.
  repeat split; try apply be_bytes_shape; try constructor.
Qed.

End KeyShape.

(** X1: whatever the user, the template and the payload, the idempotency key
    is a string of 64 lowercase hexadecimal digits. *)
Theorem generateIdempotencyKey_shape (userId template : string) (data : JsObject) :
  String.length (generateIdempotencyKey userId template data) = 64%nat
  /\ all_hex (generateIdempotencyKey userId template data) = true.
Proof.
  unfold generateIdempotencyKey, SHA256.hex.
  destruct (digest_shape (SHA256.bytes_of_string (idempotency_content userId template data)))
    as [Hlen Hbytes].
  destruct (hex_bytes_shape _ Hbytes) as [Hl Hh].
  rewrite Hl, Hlen. split; [reflexivity|exact Hh].
Qed.

(** ** The cache of idempotency keys *)

Section Cache.

Lemma cache_key_injective (key key' : string) : cache_key key = cache_key key' -> key = key'.
Proof. unfold cache_key. intros H. injection H. auto. Qed.

Lemma prefix_append (s t : string) : String.prefix s (s ++ t) = true.
Proof.
  induction s as [|c s IH]; [destruct t; reflexivity|].
  rewrite append_cons. cbn [String.prefix].
  destruct (Ascii.ascii_dec c c); [exact IH|contradiction].
Qed.

Lemma cache_key_prefix (key : string) : String.prefix "idempotency:" (cache_key key) = true.
Proof. apply prefix_append. Qed.

Lemma del_keys_lookup (keys : list string) (now : Z) (c : gmap string (Uuid * Z))
    (k : string) :
  fst (Redis.del_keys keys now c) !! k = if decide (k ∈ keys) then None else c !! k.
Proof.
  revert c. induction keys as [|key rest IH]; intros c; cbn [Redis.del_keys].
  { rewrite decide_False by apply not_elem_of_nil. reflexivity. }
  specialize (IH (delete key c)).
  destruct (Redis.del_keys rest now (delete key c)) as [c' n]. cbn [fst] in *.
  rewrite IH. destruct (decide (k ∈ rest)) as [Hin|Hout].
  - rewrite decide_True by (right; exact Hin). reflexivity.
  - destruct (decide (k = key)) as [->|Hne].
    + rewrite decide_True by left. apply lookup_delete_eq.
    + rewrite decide_False by (intros Hin; apply elem_of_cons in Hin as [?|?]; tauto).
      apply lookup_delete_ne. congruence.
Qed.

Lemma del_keys_count (keys : list string) (now : Z) (c : gmap string (Uuid * Z)) :
  NoDup keys ->
  Forall (fun key => exists value expires, c !! key = Some (value, expires) /\ now < expires)
         keys ->
  snd (Redis.del_keys keys now c) = List.length keys.
Proof.
  revert c. induction keys as [|key rest IH]; intros c Hnodup Hlive; [reflexivity|].
  cbn [Redis.del_keys].
  apply NoDup_cons in Hnodup as [Hnotin Hnodup].
  apply Forall_cons in Hlive as [(value & expires & Hkey & Hnow) Hlive].
  specialize (IH (delete key c) Hnodup).
  destruct (Redis.del_keys rest now (delete key c)) as [c' n]. cbn [snd] in *.
  rewrite Hkey. replace (now <? expires) with true by (symmetry; apply Z.ltb_lt; exact Hnow).
  cbn [List.length]. f_equal. apply IH.
  apply Forall_forall. intros k Hk. rewrite Forall_forall in Hlive.
  destruct (Hlive k Hk) as (v & e & Hv & He). exists v, e. split; [|exact He].
  rewrite lookup_delete_ne; [exact Hv|]. intros ->. contradiction.
Qed.

Lemma NoDup_list_filter {A : Type} (f : A -> bool) (l : list A) :
  NoDup l -> NoDup (List.filter f l).
Proof.
  induction 1 as [|x l Hx _ IH]; cbn [List.filter]; [constructor|].
  destruct (f x); [|exact IH]. constructor; [|exact IH].
  intros Hin. apply Hx. apply list_elem_of_In, filter_In in Hin as [Hin _].
  apply list_elem_of_In. exact Hin.
Qed.

Lemma map_is_fmap {A B : Type} (f : A -> B) (l : list A) : map f l = f <$> l.
Proof. induction l as [|x l IH]; [reflexivity|]. cbn. rewrite IH. reflexivity. Qed.

Lemma live_lookup (key : string) (w : World) :
  Redis.live key w
  = match cache w !! key with
    | Some (value, expires) => if clock w <? expires then Some value else None
    | None => None
    end.
Proof. reflexivity. Qed.

End Cache.

(** X2: an idempotency key stored with a positive time to live is found by
    [checkIdempotency] as long as the clock has not reached the time of the
    store plus the time to live, and not from then on; storing it changes
    what is found under no other key. *)
Theorem stored_key_is_found_until_it_expires
    (key other : string) (id : Uuid) (ttl now : Z) (w : World) :
  0 < ttl ->
  other <> key ->
  let w' := fst (run (storeIdempotencyKey key id ttl) w) in
  run (checkIdempotency key) (at_time now w')
  = (at_time now w', Returned (if now <? clock w + ttl then Some id else None))
  /\ run (checkIdempotency other) (at_time now w')
     = (at_time now w', Returned (Redis.live (cache_key other) (at_time now w))).
Proof.
  intros _ Hother w'. subst w'. rewrite run_storeIdempotencyKey. cbn [fst].
  rewrite !run_checkIdempotency. split; f_equal; f_equal.
  - rewrite live_lookup. cbn [at_time set_cache cache clock].
    rewrite lookup_insert_eq. reflexivity.
  - rewrite !live_lookup. cbn [at_time set_cache cache clock].
    rewrite lookup_insert_ne; [reflexivity|].
    intros H. apply cache_key_injective in H. congruence.
Qed.

Lemma stored_key_is_found_until_it_expires_witness :
  0 < 60
  /\ "k2" <> "k1"
  /\ (let w' := fst (run (storeIdempotencyKey "k1" 7%nat 60) cached) in
      run (checkIdempotency "k1") (at_time 1059 w') = (at_time 1059 w', Returned (Some 7%nat))
      /\ run (checkIdempotency "k2") (at_time 1059 w')
         = (at_time 1059 w', Returned (Redis.live (cache_key "k2") (at_time 1059 cached)))).
Proof.
  assert (Hother : "k2" <> "k1") by discriminate.
  assert (Httl : 0 < 60) by lia.
  split; [exact Httl|]. split; [exact Hother|].
  exact (stored_key_is_found_until_it_expires "k1" "k2" 7%nat 60 1059 cached Httl Hother).
Defined.

(** X3: after [deleteIdempotencyKey] the key is not found any more, whatever
    was stored under it; what is found under another key is as before, and
    nothing but the cache is touched. *)
Theorem deleted_key_is_not_found (key other : string) (w : World) :
  other <> key ->
  let w' := fst (run (deleteIdempotencyKey key) w) in
  run (checkIdempotency key) w' = (w', Returned None)
  /\ run (checkIdempotency other) w' = (w', Returned (Redis.live (cache_key other) w))
  /\ w' = set_cache w (cache w').
Proof.
  intros Hother w'. subst w'. unfold deleteIdempotencyKey.
  rewrite run_bind, run_await. unfold Redis.del. cbn [Redis.del_keys].
  destruct (cache w !! cache_key key) as [[value expires]|] eqn:Hkey;
    cbn [run fst]; rewrite !run_checkIdempotency, !live_lookup;
    cbn [set_cache cache clock]; rewrite lookup_delete_eq;
    (rewrite lookup_delete_ne
      by (intros H; apply cache_key_injective in H; congruence));
    repeat split.
Qed.

Lemma deleted_key_is_not_found_witness :
  "k2" <> "k1"
  /\ (let w' := fst (run (deleteIdempotencyKey "k1") cached) in
      run (checkIdempotency "k1") w' = (w', Returned None)
      /\ run (checkIdempotency "k2") w' = (w', Returned (Redis.live (cache_key "k2") cached))
      /\ w' = set_cache cached (cache w')).
Proof.
  assert (Hother : "k2" <> "k1") by discriminate.
  split; [exact Hother|].
  exact (deleted_key_is_not_found "k1" "k2" cached Hother).
Defined.

Section ClearAll.

Variable w : World.

Lemma listed_keys_spec (k : string) :
  k ∈ List.filter
        (fun key => String.prefix "idempotency:" key
                    && match Redis.live key w with Some _ => true | None => false end)
        (map fst (map_to_list (cache w)))
  <-> String.prefix "idempotency:" k = true
      /\ exists value expires, cache w !! k = Some (value, expires) /\ clock w < expires.
Proof.
  rewrite list_elem_of_In, filter_In, andb_true_iff, <- list_elem_of_In, live_lookup.
  split.
  - intros [Hin [Hprefix Hlive]]. split; [exact Hprefix|].
    destruct (cache w !! k) as [[value expires]|]; [|discriminate].
    exists value, expires. split; [reflexivity|].
    destruct (clock w <? expires) eqn:Hlt; [|discriminate]. apply Z.ltb_lt. exact Hlt.
  - intros [Hprefix (value & expires & Hk & Hlt)]. split; [|split; [exact Hprefix|]].
    + apply list_elem_of_In, in_map_iff. exists (k, (value, expires)).
      split; [reflexivity|]. apply list_elem_of_In, elem_of_map_to_list. exact Hk.
    + rewrite Hk. apply Z.ltb_lt in Hlt. rewrite Hlt. reflexivity.
Qed.

Lemma listed_keys_count :
  List.length
    (List.filter
       (fun key => String.prefix "idempotency:" key
                   && match Redis.live key w with Some _ => true | None => false end)
       (map fst (map_to_list (cache w))))
  = List.length (live_idempotency_entries w).
Proof.
  unfold live_idempotency_entries.
  assert (Hall : Forall (fun entry => cache w !! fst entry = Some (snd entry))
                        (map_to_list (cache w))).
  { apply Forall_forall. intros [k v] Hin. apply elem_of_map_to_list in Hin. exact Hin. }
  induction Hall as [|[k [value expires]] rest Hk _ IH]; [reflexivity|].
  cbn [map List.filter fst snd]. rewrite live_lookup. cbn [fst snd] in Hk. rewrite Hk.
  destruct (String.prefix "idempotency:" k); cbn [andb]; [|exact IH].
  destruct (clock w <? expires); cbn [List.length]; [f_equal|]; exact IH.
Qed.

End ClearAll.

(** X4: [clearAllIdempotencyKeys] returns the number of idempotency keys that
    were live; afterwards no idempotency key is found, the entries of the
    cache whose key does not start with [idempotency:] are as they were, and
    nothing but the cache is touched. *)
Theorem clearAllIdempotencyKeys_clears (w : World) :
  exists w',
    run clearAllIdempotencyKeys w
    = (w', Returned (List.length (live_idempotency_entries w)))
    /\ (forall key, Redis.live (cache_key key) w' = None)
    /\ (forall k, String.prefix "idempotency:" k = false -> cache w' !! k = cache w !! k)
    /\ w' = set_cache w (cache w').
Proof.
  unfold clearAllIdempotencyKeys, getAllIdempotencyKeys.
  rewrite run_bind, run_await. unfold Redis.keys. rewrite <- listed_keys_count.
  pose proof (listed_keys_spec w) as Hspec.
  assert (Hnodup : NoDup (List.filter
                            (fun key => String.prefix "idempotency:" key
                                        && match Redis.live key w with
                                           | Some _ => true
                                           | None => false
                                           end)
                            (map fst (map_to_list (cache w)))))
    by (apply NoDup_list_filter; rewrite map_is_fmap; apply NoDup_fst_map_to_list).
  set (keys := List.filter _ (map fst (map_to_list (cache w)))) in *.
  destruct (Nat.eqb (List.length keys) 0) eqn:Hempty.
  - exists w. apply Nat.eqb_eq in Hempty. rewrite Hempty.
    split; [reflexivity|]. split; [|split].
    + intros key. rewrite live_lookup.
      destruct (cache w !! cache_key key) as [[value expires]|] eqn:Hk; [|reflexivity].
      destruct (clock w <? expires) eqn:Hlt; [|reflexivity].
      assert (Hin : cache_key key ∈ keys).
      { apply Hspec. split; [apply cache_key_prefix|]. exists value, expires.
        split; [exact Hk|apply Z.ltb_lt; exact Hlt]. }
      destruct keys; [|discriminate Hempty]. apply elem_of_nil in Hin. destruct Hin.
    + reflexivity.
    + destruct w; reflexivity.
  - rewrite run_await. unfold Redis.del.
    pose proof (del_keys_lookup keys (clock w) (cache w)) as Hlookup.
    pose proof (del_keys_count keys (clock w) (cache w) Hnodup) as Hcount.
    destruct (Redis.del_keys keys (clock w) (cache w)) as [c n].
    cbn [fst snd] in Hlookup, Hcount.
    exists (set_cache w c).
    assert (Hn : n = List.length keys).
    { apply Hcount. apply Forall_forall. intros k Hk. apply Hspec in Hk. tauto. }
    destruct keys as [|key rest] eqn:Hkeys; [discriminate Hempty|].
    rewrite <- Hkeys in *. subst n. split; [reflexivity|]. split; [|split].
    + intros k. rewrite live_lookup. cbn [set_cache cache clock]. rewrite Hlookup.
      destruct (decide (cache_key k ∈ keys)) as [Hin|Hout]; [reflexivity|].
      destruct (cache w !! cache_key k) as [[value expires]|] eqn:Hk; [|reflexivity].
      destruct (clock w <? expires) eqn:Hlt; [|reflexivity].
      exfalso. apply Hout, Hspec. split; [apply cache_key_prefix|].
      exists value, expires. split; [exact Hk|apply Z.ltb_lt; exact Hlt].
    + intros k Hk. cbn [set_cache cache]. rewrite Hlookup.
      destruct (decide (k ∈ keys)) as [Hin|Hout]; [|reflexivity].
      apply Hspec in Hin. destruct Hin as [Hprefix _]. congruence.
    + reflexivity.
Qed.

(** The live key of [cached] is cleared and counted; the expired one is not
    counted, and the entry of another kind stays. *)
Example clearAllIdempotencyKeys_of_cached :
  let '(w', result) := run clearAllIdempotencyKeys cached in
  result = Returned 1%nat
  /\ Redis.live (cache_key "k1") w' = None
  /\ cache w' !! "session:9" = Some (9%nat, 2000).
Proof. vm_compute. repeat split. Qed.

(** ** The notification model: deleting, and identifiers that are not stored *)

Section Deleting.

Lemma filter_out_then_filter {A : Type} (key : A -> nat) (id other : nat) (l : list A) :
  List.filter (fun x => Nat.eqb (key x) other)
    (List.filter (fun x => negb (Nat.eqb (key x) id)) l)
  = if Nat.eqb other id then [] else List.filter (fun x => Nat.eqb (key x) other) l.
Proof.
  induction l as [|x l IH]; cbn [List.filter]; [destruct (Nat.eqb other id); reflexivity|].
  destruct (Nat.eqb (key x) id) eqn:Hid, (Nat.eqb (key x) other) eqn:Hother,
    (Nat.eqb other id) eqn:Heq; cbn [negb List.filter]; rewrite ?Hother, ?IH, ?Heq;
    try reflexivity;
    rewrite ?Nat.eqb_eq, ?Nat.eqb_neq in *; congruence.
Qed.

Lemma filter_filter_out (id other : Uuid) (rows : list Notification) :
  List.filter (Db.has_id other) (List.filter (fun n => negb (Db.has_id id n)) rows)
  = if Nat.eqb other id then [] else List.filter (Db.has_id other) rows.
Proof. exact (filter_out_then_filter n_id id other rows). Qed.

Lemma logs_filter_out (id other : Uuid) (logs : list DeliveryLog) :
  List.filter (Db.log_of other) (List.filter (fun l => negb (Db.log_of id l)) logs)
  = if Nat.eqb other id then [] else List.filter (Db.log_of other) logs.
Proof. exact (filter_out_then_filter l_notification_id id other logs). Qed.

Lemma update_of_no_row (id : Uuid) (change : Notification -> Notification)
    (rows : list Notification) :
  existsb (Db.has_id id) rows = false ->
  map (fun n => if Db.has_id id n then change n else n) rows = rows.
Proof.
  induction rows as [|n rows IH]; cbn [existsb map]; [reflexivity|].
  destruct (Db.has_id id n); cbn [orb]; [discriminate|].
  intros H. rewrite IH by exact H. reflexivity.
Qed.

Lemma set_notifications_same (w : World) : set_notifications w (notifications w) = w.
Proof. destruct w; reflexivity. Qed.

Lemma no_row_with_id (id : Uuid) (rows : list Notification) :
  existsb (Db.has_id id) rows = false -> List.filter (Db.has_id id) rows = [].
Proof.
  rewrite existsb_filter. destruct (List.filter _ _); [reflexivity|discriminate].
Qed.

Lemma run_findByNotification (id : Uuid) (w : World) :
  run (DeliveryLogModel.findByNotification id) w
  = (w, Returned (Db.order_by Db.lower_attempt
                    (List.filter (Db.log_of id) (delivery_logs w)))).
Proof.
  unfold DeliveryLogModel.findByNotification. rewrite run_bind, run_await.
  unfold Db.select_logs_by_notification, DeliveryLogModel.parseDeliveryLog.
  cbn [run]. rewrite map_id. reflexivity.
Qed.

End Deleting.

(** X5: deleting a stored notification removes it and, with it, its delivery
    logs: afterwards [findById] throws a [NotFoundError] and
    [findByNotification] returns no log; the notifications and the logs of
    every other id are as they were, and the cache and the queue are not
    touched -- the idempotency key of the deleted notification stays
    cached. *)
Theorem delete_removes_notification_and_logs (id : Uuid) (w : World) :
  existsb (Db.has_id id) (notifications w) = true ->
  exists w',
    run (NotificationModel.delete id) w = (w', Returned tt)
    /\ run (NotificationModel.findById id) w' = (w', Thrown (NotificationModel.not_found id))
    /\ run (DeliveryLogModel.findByNotification id) w' = (w', Returned [])
    /\ (forall other, other <> id ->
          List.filter (Db.has_id other) (notifications w')
          = List.filter (Db.has_id other) (notifications w)
          /\ List.filter (Db.log_of other) (delivery_logs w')
             = List.filter (Db.log_of other) (delivery_logs w))
    /\ cache w' = cache w
    /\ queue w' = queue w.
Proof.
  intros Hrow. unfold NotificationModel.delete.
  rewrite run_bind, run_await. unfold Db.delete_notification. rewrite Hrow.
  rewrite existsb_filter in Hrow.
  destruct (List.filter (Db.has_id id) (notifications w)) as [|row rows] eqn:Hrows;
    [discriminate|].
  cbn [List.length Nat.eqb run]. eexists. split; [reflexivity|].
  rewrite run_findById, run_findByNotification.
  cbn [set_delivery_logs set_notifications notifications delivery_logs cache queue].
  rewrite filter_filter_out, logs_filter_out, Nat.eqb_refl.
  split; [reflexivity|]. split; [reflexivity|]. split; [|split; reflexivity].
  intros other Hother. rewrite filter_filter_out, logs_filter_out.
  apply Nat.eqb_neq in Hother. rewrite Hother. split; reflexivity.
Qed.

Lemma delete_removes_notification_and_logs_witness :
  existsb (Db.has_id 0%nat) (notifications delivered) = true
  /\ exists w',
       run (NotificationModel.delete 0%nat) delivered = (w', Returned tt)
       /\ run (NotificationModel.findById 0%nat) w'
          = (w', Thrown (NotificationModel.not_found 0%nat))
       /\ run (DeliveryLogModel.findByNotification 0%nat) w' = (w', Returned [])
       /\ (forall other, other <> 0%nat ->
             List.filter (Db.has_id other) (notifications w')
             = List.filter (Db.has_id other) (notifications delivered)
             /\ List.filter (Db.log_of other) (delivery_logs w')
                = List.filter (Db.log_of other) (delivery_logs delivered))
       /\ cache w' = cache delivered
       /\ queue w' = queue delivered.
Proof.
  assert (Hrow : existsb (Db.has_id 0%nat) (notifications delivered) = true) by reflexivity.
  split; [exact Hrow|].
  exact (delete_removes_notification_and_logs 0%nat delivered Hrow).
Defined.

(** X6: on an id that no stored notification has, [findById], [updateStatus],
    [incrementRetryCount] and [delete] each throw the [NotFoundError] that
    names the id, and leave the world as it is. *)
Theorem unknown_id_is_not_found (id : Uuid) (w : World) :
  existsb (Db.has_id id) (notifications w) = false ->
  run (NotificationModel.findById id) w = (w, Thrown (NotificationModel.not_found id))
  /\ (forall status message,
        run (NotificationModel.updateStatus id status message) w
        = (w, Thrown (NotificationModel.not_found id)))
  /\ run (NotificationModel.incrementRetryCount id) w
     = (w, Thrown (NotificationModel.not_found id))
  /\ run (NotificationModel.delete id) w = (w, Thrown (NotificationModel.not_found id)).
Proof.
  intros Hnone. pose proof (no_row_with_id id _ Hnone) as Hrows.
  split; [|split; [|split]].
  - rewrite run_findById, Hrows. reflexivity.
  - intros status message. rewrite run_updateStatus, Hrows.
    unfold Db.update_status, Db.update_notification. cbn [fst].
    rewrite update_of_no_row by exact Hnone. rewrite set_notifications_same. reflexivity.
  - unfold NotificationModel.incrementRetryCount. rewrite run_bind, run_await.
    unfold Db.increment_retry_count, Db.update_notification.
    rewrite update_of_no_row by exact Hnone. rewrite set_notifications_same, Hrows.
    reflexivity.
  - unfold NotificationModel.delete. rewrite run_bind, run_await.
    unfold Db.delete_notification. rewrite Hnone. reflexivity.
Qed.

Lemma unknown_id_is_not_found_witness :
  existsb (Db.has_id 5%nat) (notifications Sample.accepted) = false
  /\ run (NotificationModel.findById 5%nat) Sample.accepted
     = (Sample.accepted, Thrown (NotFoundError "Notification with ID 5 not found"))
  /\ (forall status message,
        run (NotificationModel.updateStatus 5%nat status message) Sample.accepted
        = (Sample.accepted, Thrown (NotificationModel.not_found 5%nat)))
  /\ run (NotificationModel.incrementRetryCount 5%nat) Sample.accepted
     = (Sample.accepted, Thrown (NotificationModel.not_found 5%nat))
  /\ run (NotificationModel.delete 5%nat) Sample.accepted
     = (Sample.accepted, Thrown (NotificationModel.not_found 5%nat)).
Proof.
  assert (Hnone : existsb (Db.has_id 5%nat) (notifications Sample.accepted) = false)
    by reflexivity.
  split; [exact Hnone|].
  exact (unknown_id_is_not_found 5%nat Sample.accepted Hnone).
Defined.

(** X7: a request whose idempotency key is still cached for a notification
    that is no longer stored is not served: [createNotification] throws the
    [NotFoundError] of the cached id, whatever the template and the channel,
    and creates nothing. *)
Theorem cached_key_of_deleted_notification
    (dto : CreateNotificationDTO) (id : Uuid) (w : World) :
  Redis.live (cache_key (request_key dto)) w = Some id ->
  existsb (Db.has_id id) (notifications w) = false ->
  run (NotificationService.createNotification dto) w
  = (w, Thrown (NotificationModel.not_found id)).
Proof.
  intros Hhit Hnone.
  rewrite (createNotification_cache_hit dto w id Hhit), run_findById.
  rewrite (no_row_with_id id _ Hnone). reflexivity.
Qed.

Lemma cached_key_of_deleted_notification_witness :
  Redis.live (cache_key (request_key Sample.request)) deleted = Some 0%nat
  /\ existsb (Db.has_id 0%nat) (notifications deleted) = false
  /\ run (NotificationService.createNotification Sample.request) deleted
     = (deleted, Thrown (NotFoundError "Notification with ID 0 not found")).
Proof.
  assert (Hhit : Redis.live (cache_key (request_key Sample.request)) deleted = Some 0%nat)
    by (vm_compute; reflexivity).
  assert (Hnone : existsb (Db.has_id 0%nat) (notifications deleted) = false) by reflexivity.
  split; [exact Hhit|]. split; [exact Hnone|].
  exact (cached_key_of_deleted_notification Sample.request 0%nat deleted Hhit Hnone).
Defined.

(** ** The worker: what an attempt does to the notification *)

Section Attempt.

Lemma map_filter_update (id : Uuid) (change : Notification -> Notification)
    (rows : list Notification) :
  map (fun n => if Db.has_id id n then change n else n) (List.filter (Db.has_id id) rows)
  = map change (List.filter (Db.has_id id) rows).
Proof.
  induction rows as [|n rows IH]; cbn [List.filter]; [reflexivity|].
  destruct (Db.has_id id n) eqn:Hid; [|exact IH].
  cbn [map]. rewrite Hid, IH. reflexivity.
Qed.

Lemma map_filter_other (id other : Uuid) (change : Notification -> Notification)
    (rows : list Notification) :
  other <> id ->
  map (fun n => if Db.has_id id n then change n else n) (List.filter (Db.has_id other) rows)
  = List.filter (Db.has_id other) rows.
Proof.
  intros Hother. induction rows as [|n rows IH]; cbn [List.filter]; [reflexivity|].
  destruct (Db.has_id other n) eqn:Hn; [|exact IH].
  cbn [map]. rewrite IH. unfold Db.has_id in *. apply Nat.eqb_eq in Hn.
  replace (Nat.eqb (n_id n) id) with false; [reflexivity|].
  symmetry. apply Nat.eqb_neq. congruence.
Qed.

Lemma rows_after_update (id : Uuid) (status : NotificationStatus) (w : World) :
  List.filter (Db.has_id id)
    (notifications (fst (Db.update_status id status None w)))
  = map (Db.set_status status None (clock w)) (List.filter (Db.has_id id) (notifications w))
  /\ forall other, other <> id ->
       List.filter (Db.has_id other)
         (notifications (fst (Db.update_status id status None w)))
       = List.filter (Db.has_id other) (notifications w).
Proof.
  split; [|intros other Hother]; rewrite filter_after_update.
  - apply map_filter_update.
  - apply map_filter_other. exact Hother.
Qed.

Variables (env : Env) (job : Job) (w : World) (e : Notification) (rest : list Notification).

Hypothesis Hrow :
  List.filter (Db.has_id (job_notificationId job)) (notifications w) = e :: rest.
Hypothesis Hstatus : n_status e <> SENT.

Lemma run_processNotification :
  exists w',
    run (NotificationWorker.processNotification env job) w
    = (w', result_of_attempt (attempt_outcome env e w))
    /\ List.filter (Db.has_id (job_notificationId job)) (notifications w')
       = map (Db.set_status (status_after job (attempt_outcome env e w)) None (clock w))
           (e :: rest)
    /\ forall other, other <> job_notificationId job ->
         List.filter (Db.has_id other) (notifications w')
         = List.filter (Db.has_id other) (notifications w).
Proof using Hrow Hstatus.
  unfold NotificationWorker.processNotification. cbv zeta.
  set (id := job_notificationId job) in *.
  rewrite run_try_catch, run_bind, run_findById, Hrow.
  cbn [NotificationModel.parseNotification].
  rewrite bool_decide_false by exact Hstatus.
  rewrite run_bind, run_updateStatus, Hrow. cbn [NotificationModel.or_null].
  destruct (rows_after_update id PROCESSING w) as [Hrows1 Hothers1].
  set (w1 := fst (Db.update_status id PROCESSING None w)) in *.
  rewrite Hrow in Hrows1.
  assert (Hrow1 : List.filter (Db.has_id id) (notifications w1) <> [])
    by (rewrite Hrows1; discriminate).
  rewrite run_bind, run_TemplateModel_findById.
  change (templates w1) with (templates w).
  unfold attempt_outcome, template_named.
  destruct (List.filter _ (templates w)) as [|template ts]; cbn [head].
  { rewrite run_bind, run_try_catch, run_bind, run_log_create by exact Hrow1.
    cbn [run fst]. eexists. split; [reflexivity|].
    cbn [log_appended fresh_uuid set_delivery_logs notifications].
    split; [exact Hrows1|exact Hothers1]. }
  rewrite run_bind, run_lift. unfold send_outcome.
  destruct (ChannelFactory.getChannel (n_channel e)) as [channel|err] eqn:Hchannel.
  2:{ destruct (n_channel e); discriminate. }
  cbn [mbind Outcome_bind].
  rewrite run_bind, run_lift.
  destruct (send channel env _ template (n_data e)) as [result|err] eqn:Hsend.
  2:{ rewrite run_bind, run_try_catch, run_bind, run_log_create by exact Hrow1.
      cbn [run fst]. eexists. split; [reflexivity|].
      cbn [log_appended fresh_uuid set_delivery_logs notifications].
      split; [exact Hrows1|exact Hothers1]. }
  cbn [status_after result_of_attempt].
  set (final := if success result then SENT
                else if NotificationWorker.max_attempts job <=? job_attemptsMade job + 1
                     then FAILED else RETRYING).
  destruct (rows_after_update id final w1) as [Hrows2 Hothers2].
  set (w2 := fst (Db.update_status id final None w1)) in *.
  rewrite Hrows1 in Hrows2. change (clock w1) with (clock w) in Hrows2.
  assert (Hrow2 : List.filter (Db.has_id id) (notifications w2) <> [])
    by (rewrite Hrows2; discriminate).
  assert (Hfinal : List.filter (Db.has_id id) (notifications w2)
                   = map (Db.set_status final None (clock w)) (e :: rest)).
  { rewrite Hrows2, map_map. reflexivity. }
  assert (Hothers : forall other, other <> id ->
                      List.filter (Db.has_id other) (notifications w2)
                      = List.filter (Db.has_id other) (notifications w)).
  { intros other Hother. rewrite Hothers2, Hothers1 by exact Hother. reflexivity. }
  assert (Hupdate : run (if success result
                         then NotificationModel.updateStatus id SENT None
                         else NotificationModel.updateStatus id
                                (if NotificationWorker.max_attempts job
                                    <=? job_attemptsMade job + 1
                                 then FAILED else RETRYING) None) w1
                    = (w2, Returned (Db.set_status final None (clock w)
                                       (Db.set_status PROCESSING None (clock w) e)))).
  { subst final w2. destruct (success result);
      rewrite run_updateStatus, Hrows1; reflexivity. }
  rewrite run_bind, Hupdate.
  rewrite run_bind, run_log_create by exact Hrow2.
  destruct (success result) eqn:Hsuccess.
  - cbn [run]. eexists. split; [reflexivity|].
    cbn [log_appended fresh_uuid set_delivery_logs notifications].
    split; [exact Hfinal|exact Hothers].
  - cbn [run].
    rewrite run_bind, run_try_catch, run_bind, run_log_create by exact Hrow2.
    cbn [run fst]. eexists. split; [reflexivity|].
    cbn [log_appended fresh_uuid set_delivery_logs notifications].
    split; [exact Hfinal|exact Hothers].
Qed.

End Attempt.

(** X8: one attempt of the worker on a stored notification that is not SENT.
    The job resolves with the message id when the channel reports success,
    and is rejected otherwise; the notification is left SENT after a
    success, FAILED after a reported failure of the last attempt and RETRYING
    after an earlier one -- and PROCESSING, at whatever attempt, when the
    template is not stored or the channel throws; its error message is
    NULL in every case, and no other notification is touched. *)
Theorem processNotification_outcome
    (env : Env) (job : Job) (w : World) (e : Notification) (rest : list Notification) :
  List.filter (Db.has_id (job_notificationId job)) (notifications w) = e :: rest ->
  n_status e <> SENT ->
  exists w',
    run (NotificationWorker.processNotification env job) w
    = (w', result_of_attempt (attempt_outcome env e w))
    /\ List.filter (Db.has_id (job_notificationId job)) (notifications w')
       = map (Db.set_status (status_after job (attempt_outcome env e w)) None (clock w))
           (e :: rest)
    /\ forall other, other <> job_notificationId job ->
         List.filter (Db.has_id other) (notifications w')
         = List.filter (Db.has_id other) (notifications w).
Proof. apply run_processNotification. Qed.

Lemma processNotification_outcome_witness :
  List.filter (Db.has_id (job_notificationId last_attempt)) (notifications without_templates)
  = [Sample.stored]
  /\ n_status Sample.stored <> SENT
  /\ status_after last_attempt (attempt_outcome Sample.accepting Sample.stored without_templates)
     = PROCESSING
  /\ exists w',
       run (NotificationWorker.processNotification Sample.accepting last_attempt)
           without_templates
       = (w', Thrown (NotFoundError "Template with ID welcome_email not found"))
       /\ List.filter (Db.has_id 0%nat) (notifications w')
          = map (Db.set_status PROCESSING None 1000) [Sample.stored]
       /\ forall other, other <> 0%nat ->
            List.filter (Db.has_id other) (notifications w')
            = List.filter (Db.has_id other) (notifications without_templates).
Proof.
  assert (Hrow : List.filter (Db.has_id (job_notificationId last_attempt))
                   (notifications without_templates) = [Sample.stored]) by reflexivity.
  assert (Hstatus : n_status Sample.stored <> SENT) by discriminate.
  split; [exact Hrow|]. split; [exact Hstatus|]. split; [reflexivity|].
  exact (processNotification_outcome Sample.accepting last_attempt without_templates
           Sample.stored [] Hrow Hstatus).
Defined.

(** X9: a job for a notification that is already SENT is skipped: the worker
    resolves it as a success without a message id, and the world is as it
    was -- nothing is sent, updated or logged. *)
Theorem processNotification_skips_sent
    (env : Env) (job : Job) (w : World) (e : Notification) (rest : list Notification) :
  List.filter (Db.has_id (job_notificationId job)) (notifications w) = e :: rest ->
  n_status e = SENT ->
  run (NotificationWorker.processNotification env job) w
  = (w, Returned {| NotificationWorker.jr_success := true;
                    NotificationWorker.jr_messageId := None |}).
Proof.
  intros Hrow Hsent. unfold NotificationWorker.processNotification. cbv zeta.
  rewrite run_try_catch, run_bind, run_findById, Hrow.
  cbn [NotificationModel.parseNotification].
  rewrite bool_decide_true by exact Hsent. reflexivity.
Qed.

Lemma processNotification_skips_sent_witness :
  List.filter (Db.has_id (job_notificationId Sample.first_attempt)) (notifications delivered)
  = [Db.set_status SENT None 1000 Sample.stored]
  /\ n_status (Db.set_status SENT None 1000 Sample.stored) = SENT
  /\ run (NotificationWorker.processNotification Sample.rejecting Sample.first_attempt)
         delivered
     = (delivered, Returned {| NotificationWorker.jr_success := true;
                               NotificationWorker.jr_messageId := None |}).
Proof.
  assert (Hrow : List.filter (Db.has_id (job_notificationId Sample.first_attempt))
                   (notifications delivered)
                 = [Db.set_status SENT None 1000 Sample.stored]) by reflexivity.
  split; [exact Hrow|]. split; [reflexivity|].
  exact (processNotification_skips_sent Sample.rejecting Sample.first_attempt delivered
           _ [] Hrow eq_refl).
Defined.

(** X10: a job whose notification is not stored is rejected with the
    [NotFoundError] of [findById]; the delivery log that the worker then
    tries to write is refused by the foreign key, that failure is swallowed,
    and the world is as it was. *)
Theorem processNotification_unknown_notification (env : Env) (job : Job) (w : World) :
  existsb (Db.has_id (job_notificationId job)) (notifications w) = false ->
  run (NotificationWorker.processNotification env job) w
  = (w, Thrown (NotificationModel.not_found (job_notificationId job))).
Proof.
  intros Hnone. unfold NotificationWorker.processNotification. cbv zeta.
  rewrite run_try_catch, run_bind, run_findById, (no_row_with_id _ _ Hnone).
  rewrite run_bind, run_try_catch, run_bind.
  unfold DeliveryLogModel.create. rewrite run_bind, run_await.
  unfold Db.insert_delivery_log. rewrite Hnone. reflexivity.
Qed.

Lemma processNotification_unknown_notification_witness :
  existsb (Db.has_id (job_notificationId Sample.first_attempt)) (notifications deleted)
  = false
  /\ run (NotificationWorker.processNotification Sample.accepting Sample.first_attempt)
         deleted
     = (deleted, Thrown (NotFoundError "Notification with ID 0 not found")).
Proof.
  assert (Hnone : existsb (Db.has_id (job_notificationId Sample.first_attempt))
                    (notifications deleted) = false) by reflexivity.
  split; [exact Hnone|].
  exact (processNotification_unknown_notification Sample.accepting Sample.first_attempt
           deleted Hnone).
Defined.

(** ** What the worker and the service leave alone *)

Section Frames.

Lemma attempt_frame_refl (job : Job) (w : World) : attempt_frame job w w.
Proof.
  split; try reflexivity. exists []. rewrite app_nil_r. split; [reflexivity|constructor].
Qed.

Lemma attempt_frame_trans (job : Job) (w1 w2 w3 : World) :
  attempt_frame job w1 w2 -> attempt_frame job w2 w3 -> attempt_frame job w1 w3.
Proof.
  intros [Ht1 Hc1 Hq1 Hr1 (new1 & Hl1 & Hn1)] [Ht2 Hc2 Hq2 Hr2 (new2 & Hl2 & Hn2)].
  split; try congruence.
  exists (new1 ++ new2)%list. split.
  - rewrite Hl2, Hl1, app_assoc. reflexivity.
  - apply Forall_app. split; assumption.
Qed.

Lemma update_status_attempt_frame (job : Job) (id : Uuid) (status : NotificationStatus)
    (message : option string) (w : World) :
  attempt_frame job w (fst (Db.update_status id status message w)).
Proof.
  unfold Db.update_status, Db.update_notification. cbn [fst].
  split; try reflexivity.
  - cbn [set_notifications notifications]. rewrite map_map. apply map_ext.
    intros n. destruct (Db.has_id id n); reflexivity.
  - exists []. rewrite app_nil_r. split; [reflexivity|constructor].
Qed.

Lemma insert_delivery_log_attempt_frame (job : Job) (status : NotificationStatus)
    (message response : option string) (w : World) :
  status = SENT \/ status = FAILED ->
  attempt_frame job w
    (fst (Db.insert_delivery_log (job_notificationId job) (job_attemptsMade job + 1)
            status message response w)).
Proof.
  intros Hstatus. unfold Db.insert_delivery_log.
  destruct (existsb _ _); [|apply attempt_frame_refl].
  split; try reflexivity. cbn [fst fresh_uuid set_delivery_logs delivery_logs].
  eexists [_]. split; [reflexivity|].
  constructor; [|constructor]. split; [reflexivity|]. split; [reflexivity|exact Hstatus].
Qed.

Lemma request_frame_refl (w : World) : request_frame w w.
Proof.
  split; try reflexivity; try (exists []; rewrite app_nil_r; reflexivity).
Qed.

Lemma request_frame_trans (w1 w2 w3 : World) :
  request_frame w1 w2 -> request_frame w2 w3 -> request_frame w1 w3.
Proof.
  intros [Ht1 Hl1 [r1 Hr1] [j1 Hj1] Hc1] [Ht2 Hl2 [r2 Hr2] [j2 Hj2] Hc2].
  split; try congruence.
  - exists (r1 ++ r2)%list. rewrite Hr2, Hr1, app_assoc. reflexivity.
  - exists (j1 ++ j2)%list. rewrite Hj2, Hj1, app_assoc. reflexivity.
  - intros k Hk. rewrite Hc2, Hc1 by exact Hk. reflexivity.
Qed.

Lemma insert_notification_request_frame (user_id : string)
    (channel : NotificationChannel) (template_id : string) (data : JsObject)
    (status : NotificationStatus) (key : string) (w : World) :
  request_frame w
    (fst (Db.insert_notification user_id channel template_id data status key w)).
Proof.
  unfold Db.insert_notification. destruct (existsb _ _); [apply request_frame_refl|].
  split; try reflexivity; cbn [fst fresh_uuid set_notifications notifications queue].
  - eexists. reflexivity.
  - exists []. rewrite app_nil_r. reflexivity.
Qed.

Lemma queue_add_request_frame (name : string) (id : Uuid) (attempts : option Z)
    (delay : Z) (w : World) :
  request_frame w (fst (Queue.add name id attempts delay w)).
Proof.
  unfold Queue.add. destruct (queue_up w); [|apply request_frame_refl].
  split; try reflexivity; cbn [fst set_queue notifications queue].
  - exists []. rewrite app_nil_r. reflexivity.
  - eexists. reflexivity.
Qed.

Lemma setex_request_frame (key : string) (ttl : Z) (id : Uuid) (w : World) :
  request_frame w (fst (Redis.setex (cache_key key) ttl id w)).
Proof.
  unfold Redis.setex. cbn [fst].
  split; try reflexivity; cbn [set_cache notifications queue cache];
    try (exists []; rewrite app_nil_r; reflexivity).
  intros k Hk. apply lookup_insert_ne. intros <-.
  rewrite cache_key_prefix in Hk. discriminate.
Qed.

End Frames.

(** X11: what an attempt of the worker never does, whatever the job, the
    provider and the store: it inserts and deletes no notification and
    changes none but in its status, error message and time of update; it
    leaves the templates, the cache and the queue alone; and it only appends
    to the delivery logs, rows of the notification and the attempt of the
    job whose status is SENT or FAILED. *)
Theorem processNotification_frame (env : Env) (job : Job) (w : World) :
  attempt_frame job w (fst (run (NotificationWorker.processNotification env job) w)).
Proof.
  apply (Respects_run (attempt_frame job) (attempt_frame_refl job) (attempt_frame_trans job)).
  unfold NotificationWorker.processNotification, NotificationModel.findById,
    NotificationModel.updateStatus, TemplateModel.findById, DeliveryLogModel.create.
  cbv zeta.
  repeat respects_step;
    first [ apply attempt_frame_refl
          | apply update_status_attempt_frame
          | apply insert_delivery_log_attempt_frame;
            first [ right; reflexivity | destruct (success _); auto ] ].
Qed.

(** X12: what a create request never does, whatever the request and the
    store: it changes and removes no stored notification and no queued job --
    it only appends to both --, it leaves the templates and the delivery logs
    alone, and in the cache it writes under idempotency keys only. *)
Theorem createNotification_frame (dto : CreateNotificationDTO) (w : World) :
  request_frame w (fst (run (NotificationService.createNotification dto) w)).
Proof.
  apply (Respects_run request_frame request_frame_refl request_frame_trans).
  unfold NotificationService.createNotification, NotificationService.find_template,
    checkIdempotency, storeIdempotencyKey, NotificationModel.findById,
    NotificationModel.findByIdempotencyKey, NotificationModel.create,
    TemplateModel.findById.
  cbv zeta.
  repeat respects_step;
    first [ apply request_frame_refl
          | apply insert_notification_request_frame
          | apply queue_add_request_frame
          | apply setex_request_frame ].
Qed.

(** ** The service: requests that are refused or half done *)

Lemma refusal_changes_nothing
    (dto : CreateNotificationDTO) (w w' : World) (e : Error) :
  run (NotificationService.createNotification dto) w = (w', Thrown e) ->
  (exists message, e = BadRequestError message)
  \/ (exists message, e = NotFoundError message) ->
  w' = w.
Proof.
  intros Hrun Herror.
  destruct (Redis.live (cache_key (request_key dto)) w) as [id|] eqn:Hlive.
  { rewrite (createNotification_cache_hit dto w id Hlive), run_findById in Hrun.
    injection Hrun as <- _. reflexivity. }
  destruct (head (List.filter (Db.has_key (request_key dto)) (notifications w)))
    as [existing|] eqn:Hhead.
  { rewrite (createNotification_store_hit dto w existing Hlive Hhead) in Hrun.
    discriminate Hrun. }
  assert (Hfresh : not_duplicate dto w).
  { split; [exact Hlive|]. apply no_row_with_key.
    destruct (List.filter _ _); [reflexivity|discriminate]. }
  rewrite (createNotification_checks dto w Hfresh) in Hrun.
  destruct (template_named (dto_template dto) w) as [template|];
    [|injection Hrun as <- _; reflexivity].
  destruct (bool_decide _); [injection Hrun as <- _; reflexivity|].
  destruct (negb _); [injection Hrun as <- _; reflexivity|].
  destruct (queue_up w); [discriminate Hrun|].
  injection Hrun as _ <-. destruct Herror as [[m Hm]|[m Hm]]; discriminate Hm.
Qed.

(** The notification that a create request returns is stored. *)
Lemma returned_notification_is_stored
    (dto : CreateNotificationDTO) (w w' : World) (n : Notification) :
  run (NotificationService.createNotification dto) w = (w', Returned n) ->
  In n (notifications w').
Proof.
  intros Hrun.
  destruct (Redis.live (cache_key (request_key dto)) w) as [id|] eqn:Hlive.
  { rewrite (createNotification_cache_hit dto w id Hlive), run_findById in Hrun.
    destruct (List.filter (Db.has_id id) (notifications w)) as [|row rows] eqn:Hrows;
      [discriminate Hrun|].
    injection Hrun as <- <-.
    assert (Hin : In row (List.filter (Db.has_id id) (notifications w)))
      by (rewrite Hrows; left; reflexivity).
    apply filter_In in Hin. tauto. }
  destruct (head (List.filter (Db.has_key (request_key dto)) (notifications w)))
    as [existing|] eqn:Hhead.
  { rewrite (createNotification_store_hit dto w existing Hlive Hhead) in Hrun.
    injection Hrun as <- <-. cbn [set_cache notifications].
    destruct (List.filter (Db.has_key (request_key dto)) (notifications w))
      as [|row rows] eqn:Hrows; [discriminate Hhead|].
    injection Hhead as <-.
    assert (Hin : In row (List.filter (Db.has_key (request_key dto)) (notifications w)))
      by (rewrite Hrows; left; reflexivity).
    apply filter_In in Hin. tauto. }
  assert (Hfresh : not_duplicate dto w).
  { split; [exact Hlive|]. apply no_row_with_key.
    destruct (List.filter _ _); [reflexivity|discriminate]. }
  rewrite (createNotification_checks dto w Hfresh) in Hrun.
  destruct (template_named (dto_template dto) w) as [template|]; [|discriminate Hrun].
  destruct (bool_decide _); [discriminate Hrun|].
  destruct (negb _); [discriminate Hrun|].
  destruct (queue_up w); [|discriminate Hrun].
  injection Hrun as <- <-. cbn [accept notifications].
  apply in_or_app. right. left. reflexivity.
Qed.

(** X13: a create request that ends in a [BadRequestError] or in a
    [NotFoundError] has changed nothing: no notification, no job, no cache
    entry. *)
Theorem refused_request_changes_nothing
    (dto : CreateNotificationDTO) (w w' : World) (e : Error) :
  run (NotificationService.createNotification dto) w = (w', Thrown e) ->
  (exists message, e = BadRequestError message)
  \/ (exists message, e = NotFoundError message) ->
  w' = w.
Proof. apply refusal_changes_nothing. Qed.

Lemma refused_request_changes_nothing_witness :
  run (NotificationService.createNotification Sample.request_sms) Sample.seeded
  = (Sample.seeded, Thrown (BadRequestError "Template 'welcome_email' is for email, not sms"))
  /\ Sample.seeded = Sample.seeded.
Proof.
  assert (Hrun : run (NotificationService.createNotification Sample.request_sms)
                     Sample.seeded
                 = (Sample.seeded,
                    Thrown (BadRequestError "Template 'welcome_email' is for email, not sms")))
    by (vm_compute; reflexivity).
  split; [exact Hrun|].
  exact (refused_request_changes_nothing Sample.request_sms Sample.seeded Sample.seeded _
           Hrun (or_introl (ex_intro _ _ eq_refl))).
Defined.



(** ** The service: retrying a failed notification *)

(** X15: [retryFailedNotification] refuses a notification whose status is not
    FAILED with a [BadRequestError] that names the status, and changes
    nothing. *)
Theorem retryFailedNotification_refuses
    (id : Uuid) (w : World) (e : Notification) (rest : list Notification) :
  List.filter (Db.has_id id) (notifications w) = e :: rest ->
  n_status e <> FAILED ->
  run (NotificationService.retryFailedNotification id) w
  = (w, Thrown (BadRequestError ("Cannot retry notification with status: "
                                   ++ status_name (n_status e)))).
Proof.
  intros Hrow Hstatus. unfold NotificationService.retryFailedNotification.
  rewrite run_bind, run_findById, Hrow. cbn [NotificationModel.parseNotification].
  rewrite bool_decide_true by exact Hstatus. reflexivity.
Qed.

Lemma retryFailedNotification_refuses_witness :
  List.filter (Db.has_id 0%nat) (notifications Sample.accepted) = [Sample.stored]
  /\ n_status Sample.stored <> FAILED
  /\ run (NotificationService.retryFailedNotification 0%nat) Sample.accepted
     = (Sample.accepted,
        Thrown (BadRequestError "Cannot retry notification with status: pending")).
Proof.
  assert (Hrow : List.filter (Db.has_id 0%nat) (notifications Sample.accepted)
                 = [Sample.stored]) by reflexivity.
  assert (Hstatus : n_status Sample.stored <> FAILED) by discriminate.
  split; [exact Hrow|]. split; [exact Hstatus|].
  exact (retryFailedNotification_refuses 0%nat Sample.accepted Sample.stored [] Hrow Hstatus).
Defined.

(** X16: [retryFailedNotification] on a FAILED notification sets it to
    RETRYING, with its error message cleared and its retry count as it was,
    and then enqueues a job of three attempts and returns the notification.
    The two steps are not one: when the queue cannot be reached the call
    fails with the status already RETRYING and no job enqueued. *)
Theorem retryFailedNotification_requeues
    (id : Uuid) (w : World) (e : Notification) (rest : list Notification) :
  List.filter (Db.has_id id) (notifications w) = e :: rest ->
  n_status e = FAILED ->
  exists w',
    run (NotificationService.retryFailedNotification id) w
    = (w', if queue_up w then Returned (Db.set_status RETRYING None (clock w) e)
           else Thrown (JsError "Connection is closed."))
    /\ List.filter (Db.has_id id) (notifications w')
       = map (Db.set_status RETRYING None (clock w)) (e :: rest)
    /\ (forall other, other <> id ->
          List.filter (Db.has_id other) (notifications w')
          = List.filter (Db.has_id other) (notifications w))
    /\ queue w' = (if queue_up w then queue w ++ [retry_job id] else queue w)%list.
Proof.
  intros Hrow Hfailed. unfold NotificationService.retryFailedNotification.
  rewrite run_bind, run_findById, Hrow. cbn [NotificationModel.parseNotification].
  rewrite bool_decide_false by (intros Hne; apply Hne; exact Hfailed).
  rewrite run_bind, run_updateStatus, Hrow. cbn [NotificationModel.or_null].
  destruct (rows_after_update id RETRYING w) as [Hrows1 Hothers1].
  set (w1 := fst (Db.update_status id RETRYING None w)) in *.
  rewrite Hrow in Hrows1.
  rewrite run_bind, run_await. unfold Queue.add.
  change (queue_up w1) with (queue_up w).
  destruct (queue_up w).
  - rewrite run_findById.
    cbn [set_queue notifications queue]. rewrite Hrows1. cbn [map].
    eexists. split; [reflexivity|]. cbn [set_queue notifications queue].
    split; [exact Hrows1|]. split; [exact Hothers1|reflexivity].
  - eexists. split; [reflexivity|]. split; [exact Hrows1|].
    split; [exact Hothers1|reflexivity].
Qed.

Lemma retryFailedNotification_requeues_witness :
  List.filter (Db.has_id 0%nat) (notifications failed)
  = [Db.set_status FAILED None 1000 Sample.stored]
  /\ exists w',
       run (NotificationService.retryFailedNotification 0%nat) failed
       = (w', Returned (Db.set_status RETRYING None 1000 Sample.stored))
       /\ List.filter (Db.has_id 0%nat) (notifications w')
          = [Db.set_status RETRYING None 1000 Sample.stored]
       /\ (forall other, other <> 0%nat ->
             List.filter (Db.has_id other) (notifications w')
             = List.filter (Db.has_id other) (notifications failed))
       /\ queue w' = (queue failed ++ [retry_job 0%nat])%list.
Proof.
  assert (Hrow : List.filter (Db.has_id 0%nat) (notifications failed)
                 = [Db.set_status FAILED None 1000 Sample.stored]) by reflexivity.
  split; [exact Hrow|].
  exact (retryFailedNotification_requeues 0%nat failed _ [] Hrow eq_refl).
Defined.

(** ** Concurrent requests *)

Section Interleaving.

Context (R : World -> World -> Prop).
Hypothesis R_refl : forall w, R w w.
Hypothesis R_trans : forall w1 w2 w3, R w1 w2 -> R w2 w3 -> R w1 w3.

Lemma Respects_step {A : Type} (p : Prog A) (w : World) :
  Respects R p -> R w (fst (step p w)) /\ Respects R (snd (step p w)).
Proof using R_refl.
  intros Hp. destruct Hp as [a|e|X action k Haction Hk]; cbn [step].
  - split; [apply R_refl|constructor].
  - split; [apply R_refl|constructor].
  - specialize (Haction w). destruct (action w) as [w' x]. cbn [fst snd] in *.
    split; [exact Haction|apply Hk].
Qed.

Lemma Respects_concurrently {A B : Type} (schedule : list bool) (p : Prog A) (q : Prog B)
    (w : World) :
  Respects R p -> Respects R q -> R w (world_after schedule p q w).
Proof using R_refl R_trans.
  unfold world_after. revert p q w.
  induction schedule as [|[|] rest IH]; intros p q w Hp Hq; cbn [concurrently].
  - pose proof (Respects_run R R_refl R_trans p Hp w) as H1.
    destruct (run p w) as [w1 rp]. cbn [fst] in H1.
    pose proof (Respects_run R R_refl R_trans q Hq w1) as H2.
    destruct (run q w1) as [w2 rq]. cbn [fst] in *. eapply R_trans; eassumption.
  - destruct (Respects_step p w Hp) as [Hw Hp'].
    destruct (step p w) as [w' p']. cbn [fst snd] in *.
    eapply R_trans; [exact Hw|]. apply IH; assumption.
  - destruct (Respects_step q w Hq) as [Hw Hq'].
    destruct (step q w) as [w' q']. cbn [fst snd] in *.
    eapply R_trans; [exact Hw|]. apply IH; assumption.
Qed.

End Interleaving.

Section Credits.

Lemma Credit_weaken {A : Type} (post : A -> nat) (b b' : nat) (p : Prog A) :
  (b <= b')%nat -> Credit post b p -> Credit post b' p.
Proof.
  intros Hle Hp. destruct Hp as [b a Ha|b e|b X action k next Haction Hk].
  - constructor. lia.
  - constructor.
  - apply (Credit_Await post b' X action k next); [|exact Hk].
    intros w. specialize (Haction w). unfold pays in *. lia.
Qed.

Lemma Credit_bind {A B : Type} (mid : A -> nat) (post : B -> nat) (b : nat)
    (p : Prog A) (f : A -> Prog B) :
  Credit mid b p -> (forall a, Credit post (mid a) (f a)) -> Credit post b (p ≫= f).
Proof.
  intros Hp Hf. unfold mbind, Prog_bind.
  induction Hp as [b a Ha|b e|b X action k next Haction _ IH]; cbn [bind].
  - apply (Credit_weaken post (mid a)); [exact Ha|apply Hf].
  - constructor.
  - apply (Credit_Await post b X action _ next); [exact Haction|exact IH].
Qed.

Lemma Credit_try_catch {A : Type} (post : A -> nat) (b : nat) (p : Prog A)
    (handler : Error -> Prog A) :
  Credit post b p -> (forall e, Credit post 0 (handler e)) ->
  Credit post b (try_catch p handler).
Proof.
  intros Hp Hh.
  induction Hp as [b a Ha|b e|b X action k next Haction _ IH]; cbn [try_catch].
  - constructor. exact Ha.
  - apply (Credit_weaken post 0); [lia|apply Hh].
  - apply (Credit_Await post b X action _ next); [exact Haction|exact IH].
Qed.

Lemma Credit_await {X : Type} (b : nat) (next : Outcome X -> nat)
    (action : World -> World * Outcome X) :
  (forall w, pays b (next (snd (action w))) w (fst (action w))) ->
  Credit (fun x => next (Returned x)) b (await action).
Proof.
  intros Haction. unfold await.
  apply (Credit_Await _ b (Outcome X) action _ next); [exact Haction|].
  intros [x|e]; constructor. lia.
Qed.

(** An action that adds neither a notification nor a job keeps the credit. *)
Lemma Credit_await_same {X : Type} (b : nat) (action : World -> World * Outcome X) :
  (forall w, notifications (fst (action w)) = notifications w
             /\ queue (fst (action w)) = queue w) ->
  Credit (fun _ => b) b (await action).
Proof.
  intros Hsame. apply (Credit_await b (fun _ => b)).
  intros w. destruct (Hsame w) as [Hn Hq]. unfold pays. rewrite Hn, Hq. lia.
Qed.

Lemma Credit_step {A : Type} (post : A -> nat) (b : nat) (p : Prog A) (w : World) :
  Credit post b p ->
  exists b', pays b b' w (fst (step p w)) /\ Credit post b' (snd (step p w)).
Proof.
  intros Hp. destruct Hp as [b a Ha|b e|b X action k next Haction Hk]; cbn [step].
  - exists b. cbn [fst snd]. split; [unfold pays; lia|constructor; exact Ha].
  - exists b. cbn [fst snd]. split; [unfold pays; lia|constructor].
  - specialize (Haction w). destruct (action w) as [w' x]. cbn [fst snd] in *.
    exists (next x). split; [exact Haction|apply Hk].
Qed.

Lemma Credit_run {A : Type} (post : A -> nat) (b : nat) (p : Prog A) (w : World) :
  Credit post b p -> pays b 0 w (fst (run p w)).
Proof.
  intros Hp. revert w.
  induction Hp as [b a Ha|b e|b X action k next Haction _ IH]; intros w; cbn [run].
  - unfold pays. cbn. lia.
  - unfold pays. cbn. lia.
  - specialize (Haction w). destruct (action w) as [w' x]. cbn [fst snd] in *.
    specialize (IH x w'). unfold pays in *. lia.
Qed.

Lemma Credit_concurrently {A B : Type} (postp : A -> nat) (postq : B -> nat)
    (schedule : list bool) (bp bq : nat) (p : Prog A) (q : Prog B) (w : World) :
  Credit postp bp p -> Credit postq bq q ->
  pays (bp + bq) 0 w (world_after schedule p q w).
Proof.
  unfold world_after. revert bp bq p q w.
  induction schedule as [|[|] rest IH]; intros bp bq p q w Hp Hq; cbn [concurrently].
  - pose proof (Credit_run postp bp p w Hp) as H1.
    destruct (run p w) as [w1 rp]. cbn [fst] in H1.
    pose proof (Credit_run postq bq q w1 Hq) as H2.
    destruct (run q w1) as [w2 rq]. cbn [fst] in *. unfold pays in *. lia.
  - destruct (Credit_step postp bp p w Hp) as (bp' & Hw & Hp').
    destruct (step p w) as [w' p']. cbn [fst snd] in *.
    specialize (IH bp' bq p' q w' Hp' Hq). unfold pays in *. lia.
  - destruct (Credit_step postq bq q w Hq) as (bq' & Hw & Hq').
    destruct (step q w) as [w' q']. cbn [fst snd] in *.
    specialize (IH bp bq' p q' w' Hp Hq'). unfold pays in *. lia.
Qed.

Lemma createNotification_credit (dto : CreateNotificationDTO) :
  Credit (fun _ => 0%nat) 0 (NotificationService.createNotification dto).
Proof.
  unfold NotificationService.createNotification. cbv zeta.
  apply (Credit_bind (fun _ => 0%nat)).
  { unfold checkIdempotency. apply Credit_await_same. intros w. split; reflexivity. }
  intros [cached|].
  { unfold NotificationModel.findById. apply (Credit_bind (fun _ => 0%nat)).
    - apply Credit_await_same. intros w. split; reflexivity.
    - intros [|row rows]; constructor. lia. }
  apply (Credit_bind (fun _ => 0%nat)).
  { unfold NotificationModel.findByIdempotencyKey. apply (Credit_bind (fun _ => 0%nat)).
    - apply Credit_await_same. intros w. split; reflexivity.
    - intros [|row rows]; constructor; lia. }
  intros [existing|].
  { apply (Credit_bind (fun _ => 0%nat)).
    - unfold storeIdempotencyKey. apply Credit_await_same. intros w. split; reflexivity.
    - intros _. constructor. lia. }
  apply (Credit_bind (fun _ => 0%nat)).
  { unfold NotificationService.find_template, TemplateModel.findById.
    apply Credit_try_catch.
    - apply (Credit_bind (fun _ => 0%nat)).
      + apply Credit_await_same. intros w. split; reflexivity.
      + intros [|row rows]; constructor. lia.
    - intros e. destruct e; constructor. }
  intros template.
  destruct (bool_decide _); [constructor|].
  destruct (negb _); [constructor|].
  apply (Credit_bind (fun _ => 1%nat)).
  { unfold NotificationModel.create.
    apply (Credit_bind (fun rows : list Notification => List.length rows)).
    - apply (Credit_await 0 (fun r => match r with
                                      | Returned rows => List.length rows
                                      | Thrown _ => 0%nat
                                      end)).
      intros w. unfold Db.insert_notification, pays.
      destruct (existsb _ _); cbn [fst snd fresh_uuid set_notifications notifications queue];
        rewrite ?length_app; cbn [List.length]; lia.
    - intros [|row rows]; constructor. cbn [List.length]. lia. }
  intros notification.
  apply (Credit_bind (fun _ => 0%nat)).
  { apply (Credit_await 1 (fun _ => 0%nat)).
    intros w. unfold Queue.add, pays.
    destruct (queue_up w); cbn [fst snd set_queue notifications queue];
      rewrite ?length_app; cbn [List.length]; lia. }
  intros _.
  apply (Credit_bind (fun _ => 0%nat)).
  { unfold storeIdempotencyKey. apply Credit_await_same. intros w. split; reflexivity. }
  intros _. constructor. lia.
Qed.

End Credits.

Section AppendedKeys.

Variables k1 k2 : string.

Lemma appends_keys_refl (w : World) : appends_keys k1 k2 w w.
Proof. exists []. rewrite app_nil_r. split; [reflexivity|constructor]. Qed.

Lemma appends_keys_trans (w1 w2 w3 : World) :
  appends_keys k1 k2 w1 w2 -> appends_keys k1 k2 w2 w3 -> appends_keys k1 k2 w1 w3.
Proof.
  intros (new1 & H1 & Hk1) (new2 & H2 & Hk2). exists (new1 ++ new2)%list. split.
  - rewrite H2, H1, app_assoc. reflexivity.
  - apply Forall_app. split; assumption.
Qed.

Lemma same_rows_append_none (w w' : World) :
  notifications w' = notifications w -> appends_keys k1 k2 w w'.
Proof.
  intros Hrows. exists []. rewrite app_nil_r. split; [exact Hrows|constructor].
Qed.

Lemma insert_notification_appends_keys (user_id : string)
    (channel : NotificationChannel) (template_id : string) (data : JsObject)
    (status : NotificationStatus) (key : string) (w : World) :
  key = k1 \/ key = k2 ->
  appends_keys k1 k2 w
    (fst (Db.insert_notification user_id channel template_id data status key w)).
Proof.
  intros Hkey. unfold Db.insert_notification.
  destruct (existsb _ _); [apply appends_keys_refl|].
  eexists [_]. split; [reflexivity|]. constructor; [exact Hkey|constructor].
Qed.

Lemma queue_add_appends_keys (name : string) (id : Uuid) (attempts : option Z)
    (delay : Z) (w : World) :
  appends_keys k1 k2 w (fst (Queue.add name id attempts delay w)).
Proof.
  apply same_rows_append_none. unfold Queue.add. destruct (queue_up w); reflexivity.
Qed.

Lemma createNotification_appends_keys (dto : CreateNotificationDTO) :
  request_key dto = k1 \/ request_key dto = k2 ->
  Respects (appends_keys k1 k2) (NotificationService.createNotification dto).
Proof.
  intros Hkey.
  unfold NotificationService.createNotification, NotificationService.find_template,
    checkIdempotency, storeIdempotencyKey, NotificationModel.findById,
    NotificationModel.findByIdempotencyKey, NotificationModel.create,
    TemplateModel.findById.
  cbv zeta. fold (request_key dto).
  repeat respects_step;
    first [ apply insert_notification_appends_keys; exact Hkey
          | apply queue_add_appends_keys
          | apply same_rows_append_none; reflexivity ].
Qed.

End AppendedKeys.

Lemma createNotification_respects_frame (dto : CreateNotificationDTO) :
  Respects request_frame (NotificationService.createNotification dto).
Proof.
  unfold NotificationService.createNotification, NotificationService.find_template,
    checkIdempotency, storeIdempotencyKey, NotificationModel.findById,
    NotificationModel.findByIdempotencyKey, NotificationModel.create,
    TemplateModel.findById.
  cbv zeta.
  repeat respects_step;
    first [ apply request_frame_refl
          | apply insert_notification_request_frame
          | apply queue_add_request_frame
          | apply setex_request_frame ].
Qed.

Lemma interleaved_requests
    (schedule : list bool) (dto1 dto2 : CreateNotificationDTO) (w : World) :
  store_ok w ->
  let w' := world_after schedule (NotificationService.createNotification dto1)
              (NotificationService.createNotification dto2) w in
  store_ok w'
  /\ request_frame w w'
  /\ (List.length (queue w') + List.length (notifications w)
      <= List.length (notifications w') + List.length (queue w))%nat.
Proof.
  intros Hok w'. subst w'. split; [|split].
  - revert Hok.
    apply (Respects_concurrently keeps_store_ok keeps_store_ok_refl keeps_store_ok_trans);
      apply createNotification_respects_store_ok.
  - apply (Respects_concurrently request_frame request_frame_refl request_frame_trans);
      apply createNotification_respects_frame.
  - pose proof (Credit_concurrently _ _ schedule 0 0 _ _ w
                  (createNotification_credit dto1) (createNotification_credit dto2)) as H.
    unfold pays in H. lia.
Qed.

(** X17: whatever the interleaving of two create requests at their awaited
    calls, the stored notifications keep distinct ids and distinct
    idempotency keys, nothing that was stored or queued is changed or lost,
    and no more jobs are added than notifications are inserted. *)
Theorem concurrent_requests_are_safe
    (schedule : list bool) (dto1 dto2 : CreateNotificationDTO) (w : World) :
  store_ok w ->
  let w' := world_after schedule (NotificationService.createNotification dto1)
              (NotificationService.createNotification dto2) w in
  store_ok w'
  /\ request_frame w w'
  /\ (List.length (queue w') + List.length (notifications w)
      <= List.length (notifications w') + List.length (queue w))%nat.
Proof. apply interleaved_requests. Qed.

Lemma concurrent_requests_are_safe_witness :
  store_ok Sample.seeded
  /\ (let w' := world_after [true; true; false; true; false; false]
                  (NotificationService.createNotification Sample.request)
                  (NotificationService.createNotification Sample.request_sms)
                  Sample.seeded in
      store_ok w'
      /\ request_frame Sample.seeded w'
      /\ (List.length (queue w') + List.length (notifications Sample.seeded)
          <= List.length (notifications w') + List.length (queue Sample.seeded))%nat).
Proof.
  assert (Hok : store_ok Sample.seeded) by (split; cbn; constructor).
  split; [exact Hok|].
  exact (concurrent_requests_are_safe [true; true; false; true; false; false]
           Sample.request Sample.request_sms Sample.seeded Hok).
Defined.

(** X18: two create requests with the same idempotency key, served
    concurrently in whatever interleaving, insert at most one notification
    and enqueue at most one job between them. *)
Theorem concurrent_duplicates_create_once
    (schedule : list bool) (dto1 dto2 : CreateNotificationDTO) (w : World) :
  store_ok w ->
  request_key dto1 = request_key dto2 ->
  let w' := world_after schedule (NotificationService.createNotification dto1)
              (NotificationService.createNotification dto2) w in
  exists rows jobs,
    notifications w' = (notifications w ++ rows)%list
    /\ queue w' = (queue w ++ jobs)%list
    /\ (List.length jobs <= List.length rows <= 1)%nat.
Proof.
  intros Hok Hsame w'.
  destruct (interleaved_requests schedule dto1 dto2 w Hok)
    as (Hok' & [_ _ _ [jobs Hjobs] _] & Hpays).
  fold w' in Hok', Hjobs, Hpays.
  assert (Hkeys : appends_keys (request_key dto1) (request_key dto1) w w').
  { apply (Respects_concurrently _ (appends_keys_refl _ _) (appends_keys_trans _ _));
      apply createNotification_appends_keys; auto. }
  destruct Hkeys as (rows & Hrows & Hall).
  exists rows, jobs. split; [exact Hrows|]. split; [exact Hjobs|].
  rewrite Hrows, Hjobs, !length_app in Hpays. split; [lia|].
  destruct Hok' as [_ _ Hnodup]. rewrite Hrows, map_app in Hnodup.
  apply NoDup_app in Hnodup as (_ & _ & Hnodup).
  destruct rows as [|r1 [|r2 rows]]; cbn [List.length]; try lia.
  exfalso. apply Forall_cons in Hall as [H1 Hall]. apply Forall_cons in Hall as [H2 _].
  cbn [map] in Hnodup. apply NoDup_cons in Hnodup as [Hnotin _].
  apply Hnotin. apply elem_of_cons. left. destruct H1, H2; congruence.
Qed.

Lemma concurrent_duplicates_create_once_witness :
  store_ok Sample.seeded
  /\ (let w' := world_after [true; true; true; false; false; false; false; true]
                  (NotificationService.createNotification Sample.request)
                  (NotificationService.createNotification Sample.request)
                  Sample.seeded in
      exists rows jobs,
        notifications w' = (notifications Sample.seeded ++ rows)%list
        /\ queue w' = (queue Sample.seeded ++ jobs)%list
        /\ (List.length jobs <= List.length rows <= 1)%nat).
Proof.
  assert (Hok : store_ok Sample.seeded) by (split; cbn; constructor).
  split; [exact Hok|].
  exact (concurrent_duplicates_create_once
           [true; true; true; false; false; false; false; true]
           Sample.request Sample.request Sample.seeded Hok eq_refl).
Defined.

(** ** The channels: the addresses that the email channel accepts *)

Section EmailAddresses.

Lemma code_is (c : ascii) (n : nat) :
  (n < 256)%nat -> (Js.code c =? Z.of_nat n) = true -> c = ascii_of_nat n.
Proof.
  intros Hn Hc. apply Z.eqb_eq in Hc. unfold Js.code in Hc. apply Nat2Z.inj in Hc.
  rewrite <- Hc, ascii_nat_embedding. reflexivity.
Qed.

Lemma forallb_plain (s : string) :
  forallb EmailChannel.plain (list_ascii_of_string s) = no_space_no_at s.
Proof. induction s as [|c s IH]; [reflexivity|]. cbn. rewrite IH. reflexivity. Qed.

Lemma no_space_no_at_append (s t : string) :
  no_space_no_at (s ++ t) = no_space_no_at s && no_space_no_at t.
Proof.
  induction s as [|c s IH]; [reflexivity|].
  rewrite append_cons. cbn [no_space_no_at]. rewrite IH, andb_assoc. reflexivity.
Qed.

Lemma inner_dot_spec (first : bool) (s : string) :
  EmailChannel.inner_dot first s = true
  <-> exists a b, s = a ++ String "." b /\ b <> "" /\ (first = true -> a <> "").
Proof.
  revert first. induction s as [|c s IH]; intros first.
  { split; [discriminate|]. intros (a & b & Hs & _). destruct a; discriminate Hs. }
  destruct s as [|d t].
  { split; [discriminate|]. intros (a & b & Hs & Hb & _).
    destruct a as [|x a]; [|destruct a; discriminate Hs].
    rewrite append_empty in Hs. injection Hs as _ <-. contradiction. }
  cbn [EmailChannel.inner_dot]. rewrite orb_true_iff, andb_true_iff, negb_true_iff.
  rewrite (IH false). split.
  - intros [[Hfirst Hdot]|(a & b & Hs & Hb & _)].
    + exists "", (String d t). apply (code_is c 46) in Hdot; [|lia]. subst c first.
      split; [reflexivity|]. split; [discriminate|discriminate].
    + exists (String c a), b. rewrite append_cons, <- Hs.
      split; [reflexivity|]. split; [exact Hb|intros _; discriminate].
  - intros (a & b & Hs & Hb & Hfirst). destruct a as [|x a].
    + rewrite append_empty in Hs. injection Hs as -> _. left.
      split; [|reflexivity]. destruct first; [|reflexivity]. exfalso. exact (Hfirst eq_refl eq_refl).
    + rewrite append_cons in Hs. injection Hs as _ Hs. right.
      exists a, b. split; [exact Hs|]. split; [exact Hb|discriminate].
Qed.

Lemma validate_spec (seen : bool) (s : string) :
  EmailChannel.validate seen s = true
  <-> exists name rest,
        s = name ++ String "@" rest
        /\ no_space_no_at name = true /\ (seen = false -> name <> "")
        /\ no_space_no_at rest = true /\ EmailChannel.inner_dot true rest = true.
Proof.
  revert seen. induction s as [|c s IH]; intros seen.
  { split; [discriminate|]. intros (name & rest & Hs & _). destruct name; discriminate Hs. }
  cbn [EmailChannel.validate]. destruct (Js.code c =? 64) eqn:Hat.
  - apply (code_is c 64) in Hat; [|lia]. subst c.
    rewrite !andb_true_iff, forallb_plain. split.
    + intros [[Hseen Hplain] Hdot]. exists "", s. subst seen.
      repeat split; try assumption. discriminate.
    + intros (name & rest & Hs & Hname & Hseen & Hrest & Hdot).
      destruct name as [|x name].
      * rewrite append_empty in Hs. injection Hs as ->.
        repeat split; try assumption. destruct seen; [reflexivity|]. exfalso. exact (Hseen eq_refl eq_refl).
      * rewrite append_cons in Hs. injection Hs as <- _. discriminate Hname.
  - rewrite andb_true_iff, (IH true). split.
    + intros [Hc (name & rest & Hs & Hname & _ & Hrest & Hdot)].
      exists (String c name), rest. rewrite append_cons, <- Hs.
      repeat split; try assumption; [|discriminate].
      cbn [no_space_no_at]. rewrite Hc, Hname. reflexivity.
    + intros (name & rest & Hs & Hname & Hseen & Hrest & Hdot).
      destruct name as [|x name].
      * rewrite append_empty in Hs. injection Hs as -> _. discriminate Hat.
      * rewrite append_cons in Hs. injection Hs as <- Hs.
        cbn [no_space_no_at] in Hname. apply andb_true_iff in Hname as [Hx Hname].
        split; [exact Hx|]. exists name, rest. repeat split; try assumption. discriminate.
Qed.

End EmailAddresses.

(** X19: the email channel accepts exactly the addresses of the form
    [name@domain.tld] whose three parts are not empty and hold neither white
    space nor [@] (the domain and the last part may hold dots); for ASCII
    strings this is what the pattern of [validateRecipient] matches. *)
Theorem email_validateRecipient_accepts (email : string) :
  is_ascii email = true ->
  (EmailChannel.validateRecipient email = true
   <-> exists name domain tld,
         email = name ++ "@" ++ domain ++ "." ++ tld
         /\ address_part name /\ address_part domain /\ address_part tld).
Proof.
  intros _. unfold EmailChannel.validateRecipient, address_part.
  rewrite validate_spec. split.
  - intros (name & rest & Hs & Hname & Hseen & Hrest & Hdot).
    apply inner_dot_spec in Hdot as (domain & tld & -> & Htld & Hdomain).
    rewrite no_space_no_at_append in Hrest. apply andb_true_iff in Hrest as [Hd Ht].
    cbn [no_space_no_at] in Ht. apply andb_true_iff in Ht as [_ Ht].
    exists name, domain, tld. repeat split; auto.
  - intros (name & domain & tld & -> & [Hn Hname] & [Hd Hdomain] & [Ht Htld]).
    exists name, (domain ++ String "." tld). repeat split; auto.
    + rewrite no_space_no_at_append, Hdomain. cbn [no_space_no_at]. rewrite Htld. reflexivity.
    + apply inner_dot_spec. exists domain, tld. repeat split; auto.
Qed.

Lemma email_validateRecipient_accepts_witness :
  is_ascii "user1@example.com" = true
  /\ (EmailChannel.validateRecipient "user1@example.com" = true
      <-> exists name domain tld,
            "user1@example.com" = name ++ "@" ++ domain ++ "." ++ tld
            /\ address_part name /\ address_part domain /\ address_part tld).
Proof.
  split; [reflexivity|].
  exact (email_validateRecipient_accepts "user1@example.com" eq_refl).
Defined.

(** ** The channels: the result contract of the push channel *)


(** ** The service: the variables of the template *)

(** X21: a request that is not a duplicate and names a template of its
    channel is refused, with nothing changed, when its payload lacks a
    variable of the template; the [BadRequestError] lists, in the order of
    the template, exactly the variables that are neither members of the
    payload -- whatever their value, [null] included -- nor names of members
    of [Object.prototype]. *)
Theorem createNotification_missing_variables
    (dto : CreateNotificationDTO) (w : World) (template : Template) :
  not_duplicate dto w ->
  template_named (dto_template dto) w = Some template ->
  t_channel template = dto_channel dto ->
  TemplateModel.missingVars template (dto_data dto) <> [] ->
  run (NotificationService.createNotification dto) w
  = (w, Thrown (BadRequestError
                  ("Missing required template variables: "
                     ++ Js.join ", " (TemplateModel.missingVars template (dto_data dto)))))
  /\ TemplateModel.missingVars template (dto_data dto)
     = List.filter
         (fun v => match JsValue.assoc v (dto_data dto),
                         JsValue.assoc v JsValue.object_prototype with
                   | None, None => true
                   | _, _ => false
                   end) (t_variables template).
Proof.
  intros Hfresh Htemplate Hchannel Hmissing. split.
  - rewrite (createNotification_checks dto w Hfresh), Htemplate.
    rewrite bool_decide_false by (intros Hne; apply Hne; exact Hchannel).
    unfold TemplateModel.validateVariables. cbn [fst snd].
    destruct (TemplateModel.missingVars template (dto_data dto)); [contradiction|].
    reflexivity.
  - unfold TemplateModel.missingVars, JsValue.get. apply filter_ext. intros v.
    destruct (JsValue.assoc v (dto_data dto)); [reflexivity|].
    destruct (JsValue.assoc v JsValue.object_prototype); reflexivity.
Qed.

Lemma createNotification_missing_variables_witness :
  not_duplicate request_without_link Sample.seeded
  /\ TemplateModel.missingVars Sample.welcome_email (dto_data request_without_link)
     = ["app_name"; "link"]
  /\ run (NotificationService.createNotification request_without_link) Sample.seeded
     = (Sample.seeded,
        Thrown (BadRequestError "Missing required template variables: app_name, link")).
Proof.
  assert (Hfresh : not_duplicate request_without_link Sample.seeded)
    by (split; vm_compute; reflexivity).
  split; [exact Hfresh|]. split; [reflexivity|].
  exact (proj1 (createNotification_missing_variables request_without_link Sample.seeded
                  Sample.welcome_email Hfresh eq_refl eq_refl ltac:(discriminate))).
Defined.

(** ** The template model *)

Section Templates.

Lemma run_create_template (t : Template) (w : World) :
  fits_columns t ->
  run (TemplateModel.create t) w
  = if existsb (Db.template_with_id (t_id t)) (templates w)
    then (w, Thrown (DatabaseError "23505" "templates_pkey"))
    else (set_templates w (templates w ++ [stored_template t]),
          Returned (stored_template t)).
Proof.
  intros (Hid & Hname & Hsubject). unfold TemplateModel.create.
  rewrite run_bind, run_await. unfold Db.insert_template.
  replace (255 <? Js.chars (t_id t))%nat with false
    by (symmetry; apply Nat.ltb_ge; exact Hid).
  replace (255 <? Js.chars (t_name t))%nat with false
    by (symmetry; apply Nat.ltb_ge; exact Hname).
  assert (Hwidth : match NotificationModel.or_null (t_subject t) with
                   | Some s => (500 <? Js.chars s)%nat
                   | None => false
                   end = false).
  { destruct (t_subject t) as [subject|]; cbn [NotificationModel.or_null]; [|reflexivity].
    destruct (String.eqb subject ""); [reflexivity|]. apply Nat.ltb_ge. exact Hsubject. }
  rewrite Hwidth. cbn [orb].
  destruct (existsb _ _); reflexivity.
Qed.

Lemma no_template_with_id (id : string) (ts : list Template) :
  existsb (Db.template_with_id id) ts = false
  <-> List.filter (fun t => String.eqb (t_id t) id) ts = [].
Proof.
  induction ts as [|t ts IH]; cbn; [tauto|].
  unfold Db.template_with_id at 1.
  destruct (String.eqb (t_id t) id); cbn; [split; discriminate|exact IH].
Qed.

Lemma template_named_none (id : string) (w : World) :
  template_named id w = None <-> existsb (Db.template_with_id id) (templates w) = false.
Proof.
  rewrite no_template_with_id. unfold template_named.
  destruct (List.filter _ _); cbn; split; congruence.
Qed.

Lemma filter_out_template (id other : string) (ts : list Template) :
  List.filter (fun t => String.eqb (t_id t) other)
    (List.filter (fun t => negb (Db.template_with_id id t)) ts)
  = if String.eqb other id then []
    else List.filter (fun t => String.eqb (t_id t) other) ts.
Proof.
  unfold Db.template_with_id.
  induction ts as [|t ts IH]; cbn [List.filter]; [destruct (String.eqb other id); reflexivity|].
  destruct (String.eqb (t_id t) id) eqn:Hid, (String.eqb (t_id t) other) eqn:Hother,
    (String.eqb other id) eqn:Heq; cbn [negb List.filter]; rewrite ?Hother, ?IH, ?Heq;
    try reflexivity;
    rewrite ?String.eqb_eq, ?String.eqb_neq in *; congruence.
Qed.

End Templates.

(** X22: [TemplateModel.create] stores a template whose id is not in use --
    with an empty subject stored as NULL -- so that [findById] then returns
    it, and the templates of other ids, like the notifications, are as they
    were; for an id that is in use it throws the error of the primary key and
    stores nothing. *)
Theorem created_template_is_found (t : Template) (w : World) :
  fits_columns t ->
  match template_named (t_id t) w with
  | Some _ =>
      run (TemplateModel.create t) w
      = (w, Thrown (DatabaseError "23505" "templates_pkey"))
  | None =>
      exists w',
        run (TemplateModel.create t) w = (w', Returned (stored_template t))
        /\ run (TemplateModel.findById (t_id t)) w' = (w', Returned (stored_template t))
        /\ (forall other, other <> t_id t -> template_named other w' = template_named other w)
        /\ notifications w' = notifications w
  end.
Proof.
  intros Hfits. rewrite (run_create_template t w Hfits).
  destruct (template_named (t_id t) w) as [used|] eqn:Hused.
  - destruct (existsb _ _) eqn:Hexists; [reflexivity|].
    apply template_named_none in Hexists. congruence.
  - pose proof (proj1 (template_named_none _ _) Hused) as Hnone. rewrite Hnone.
    eexists. split; [reflexivity|].
    rewrite run_TemplateModel_findById. unfold template_named in *.
    cbn [set_templates templates notifications].
    split; [|split; [|reflexivity]].
    + rewrite List.filter_app. apply no_template_with_id in Hnone. rewrite Hnone.
      cbn [List.filter app stored_template t_id]. rewrite String.eqb_refl. reflexivity.
    + intros other Hother. rewrite List.filter_app. cbn [List.filter stored_template t_id].
      apply String.eqb_neq in Hother. rewrite String.eqb_sym, Hother, app_nil_r.
      reflexivity.
Qed.

Lemma created_template_is_found_witness :
  fits_columns push_alert
  /\ exists w',
       run (TemplateModel.create push_alert) Sample.seeded
       = (w', Returned (stored_template push_alert))
       /\ run (TemplateModel.findById "push_alert") w' = (w', Returned (stored_template push_alert))
       /\ (forall other, other <> "push_alert" ->
             template_named other w' = template_named other Sample.seeded)
       /\ notifications w' = notifications Sample.seeded.
Proof.
  assert (Hfits : fits_columns push_alert)
    by (repeat split; apply Nat.leb_le; reflexivity).
  split; [exact Hfits|].
  exact (created_template_is_found push_alert Sample.seeded Hfits).
Defined.

(** X23: [TemplateModel.delete] removes a stored template, whether or not
    notifications refer to it: afterwards [findById] throws a
    [NotFoundError], the other templates and all notifications are as they
    were, and a create request that names the template and is not a duplicate
    is refused with a [BadRequestError]. *)
Theorem deleted_template_is_gone (id : string) (w : World) (t : Template) :
  template_named id w = Some t ->
  exists w',
    run (TemplateModel.delete id) w = (w', Returned tt)
    /\ run (TemplateModel.findById id) w'
       = (w', Thrown (NotFoundError ("Template with ID " ++ id ++ " not found")))
    /\ (forall other, other <> id -> template_named other w' = template_named other w)
    /\ notifications w' = notifications w
    /\ (forall dto, dto_template dto = id -> not_duplicate dto w' ->
          run (NotificationService.createNotification dto) w'
          = (w', Thrown (BadRequestError ("Template '" ++ id ++ "' not found")))).
Proof.
  intros Hstored. unfold TemplateModel.delete.
  rewrite run_bind, run_await. unfold Db.delete_template.
  assert (Hcount : Nat.eqb (List.length (List.filter (Db.template_with_id id) (templates w))) 0
                   = false).
  { unfold template_named in Hstored. unfold Db.template_with_id.
    destruct (List.filter _ _); [discriminate|reflexivity]. }
  rewrite Hcount. cbn [run]. eexists. split; [reflexivity|].
  assert (Hgone : forall other,
            template_named other
              (set_templates w
                 (List.filter (fun t => negb (Db.template_with_id id t)) (templates w)))
            = if String.eqb other id then None else template_named other w).
  { intros other. unfold template_named. cbn [set_templates templates].
    rewrite filter_out_template. destruct (String.eqb other id); reflexivity. }
  split; [|split; [|split; [reflexivity|]]].
  - rewrite run_TemplateModel_findById. cbn [set_templates templates].
    rewrite filter_out_template, String.eqb_refl. reflexivity.
  - intros other Hother. rewrite Hgone. apply String.eqb_neq in Hother.
    rewrite Hother. reflexivity.
  - intros dto Hid Hfresh. rewrite (createNotification_checks dto _ Hfresh).
    rewrite Hid, Hgone, String.eqb_refl. reflexivity.
Qed.

Lemma deleted_template_is_gone_witness :
  template_named "welcome_email" Sample.accepted = Some Sample.welcome_email
  /\ exists w',
       run (TemplateModel.delete "welcome_email") Sample.accepted = (w', Returned tt)
       /\ run (TemplateModel.findById "welcome_email") w'
          = (w', Thrown (NotFoundError "Template with ID welcome_email not found"))
       /\ (forall other, other <> "welcome_email" ->
             template_named other w' = template_named other Sample.accepted)
       /\ notifications w' = notifications Sample.accepted
       /\ (forall dto, dto_template dto = "welcome_email" -> not_duplicate dto w' ->
             run (NotificationService.createNotification dto) w'
             = (w', Thrown (BadRequestError "Template 'welcome_email' not found"))).
Proof.
  split; [reflexivity|].
  exact (deleted_template_is_gone "welcome_email" Sample.accepted Sample.welcome_email
           eq_refl).
Defined.

(** ** The worker: notifications that have been sent *)

(** X24: under the constraints of the store, no attempt of the worker takes a
    notification out of the status SENT or changes it in any way: a SENT
    notification is in the store, as it was, after any attempt for any
    job. *)
Theorem sent_notification_stays_sent
    (env : Env) (job : Job) (w : World) (e : Notification) :
  store_ok w ->
  e ∈ notifications w ->
  n_status e = SENT ->
  e ∈ notifications (fst (run (NotificationWorker.processNotification env job) w)).
Proof.
  intros Hok Hin Hsent.
  pose proof (select_by_id w e Hok Hin) as Hrow.
  destruct (decide (job_notificationId job = n_id e)) as [Hsame|Hother].
  - rewrite <- Hsame in Hrow.
    unfold NotificationWorker.processNotification. cbv zeta.
    rewrite run_try_catch, run_bind, run_findById, Hrow.
    cbn [NotificationModel.parseNotification].
    rewrite bool_decide_true by exact Hsent. exact Hin.
  - destruct (List.filter (Db.has_id (job_notificationId job)) (notifications w))
      as [|row rest] eqn:Hjob.
    + assert (Hnone : existsb (Db.has_id (job_notificationId job)) (notifications w) = false)
        by (rewrite existsb_filter, Hjob; reflexivity).
      unfold NotificationWorker.processNotification. cbv zeta.
      rewrite run_try_catch, run_bind, run_findById, Hjob.
      rewrite run_bind, run_try_catch, run_bind.
      unfold DeliveryLogModel.create. rewrite run_bind, run_await.
      unfold Db.insert_delivery_log. rewrite Hnone. exact Hin.
    + destruct (decide (n_status row = SENT)) as [Hrowsent|Hrowstatus].
      * unfold NotificationWorker.processNotification. cbv zeta.
        rewrite run_try_catch, run_bind, run_findById, Hjob.
        cbn [NotificationModel.parseNotification].
        rewrite bool_decide_true by exact Hrowsent. exact Hin.
      * destruct (run_processNotification env job w row rest Hjob Hrowstatus)
          as (w' & Hrun & _ & Hothers).
        rewrite Hrun. cbn [fst].
        assert (Hfilter : In e (List.filter (Db.has_id (n_id e)) (notifications w'))).
        { rewrite Hothers by congruence. rewrite Hrow. left. reflexivity. }
        apply filter_In in Hfilter as [Hfilter _]. apply list_elem_of_In. exact Hfilter.
Qed.

Lemma sent_notification_stays_sent_witness :
  store_ok delivered
  /\ Db.set_status SENT None 1000 Sample.stored ∈ notifications delivered
  /\ Db.set_status SENT None 1000 Sample.stored
     ∈ notifications
         (fst (run (NotificationWorker.processNotification Sample.rejecting last_attempt)
                 delivered)).
Proof.
  assert (Hok : store_ok delivered) by store_ok_by_computation.
  assert (Hin : Db.set_status SENT None 1000 Sample.stored ∈ notifications delivered)
    by (apply list_elem_of_In; left; reflexivity).
  split; [exact Hok|]. split; [exact Hin|].
  exact (sent_notification_stays_sent Sample.rejecting last_attempt delivered _ Hok Hin
           eq_refl).
Defined.

(** ** Ordered queries *)

Section OrderBy.

Context {A : Type} (key : A -> Z).

Lemma insert_by_permutation (le : A -> A -> bool) (x : A) (l : list A) :
  Db.insert_by le x l ≡ₚ x :: l.
Proof.
  induction l as [|y l IH]; cbn [Db.insert_by]; [reflexivity|].
  destruct (le x y); [reflexivity|]. rewrite IH. apply Permutation_swap.
Qed.

Lemma order_by_permutation (le : A -> A -> bool) (l : list A) : Db.order_by le l ≡ₚ l.
Proof.
  induction l as [|x l IH]; cbn; [reflexivity|].
  rewrite insert_by_permutation, IH. reflexivity.
Qed.

Lemma insert_by_sorted (le : A -> A -> bool) (x : A) (l : list A) :
  (forall a b, le a b = false -> le b a = true) ->
  (forall a b c, le a b = true -> le b c = true -> le a c = true) ->
  StronglySorted (fun a b => le a b = true) l ->
  StronglySorted (fun a b => le a b = true) (Db.insert_by le x l).
Proof.
  intros Htotal Htrans. induction 1 as [|y l Hsorted IH Hy]; cbn [Db.insert_by].
  { constructor; constructor. }
  destruct (le x y) eqn:Hxy.
  - constructor; [constructor; assumption|].
    constructor; [exact Hxy|].
    rewrite List.Forall_forall in *. intros z Hz. eapply Htrans; [exact Hxy|auto].
  - constructor; [exact IH|].
    rewrite List.Forall_forall in *. intros z Hz.
    apply (Permutation_in _ (insert_by_permutation le x l)) in Hz.
    destruct Hz as [<-|Hz]; [apply Htotal; exact Hxy|auto].
Qed.

Lemma order_by_sorted (le : A -> A -> bool) (l : list A) :
  (forall a b, le a b = false -> le b a = true) ->
  (forall a b c, le a b = true -> le b c = true -> le a c = true) ->
  StronglySorted (fun a b => le a b = true) (Db.order_by le l).
Proof.
  intros Htotal Htrans. induction l as [|x l IH]; cbn; [constructor|].
  apply insert_by_sorted; assumption.
Qed.

Lemma StronglySorted_weaken (R S : A -> A -> Prop) (l : list A) :
  (forall a b, R a b -> S a b) -> StronglySorted R l -> StronglySorted S l.
Proof.
  intros Himpl. induction 1 as [|x l _ IH Hx]; constructor; [exact IH|].
  rewrite List.Forall_forall in *. auto.
Qed.

Lemma order_by_ascending (l : list A) :
  StronglySorted (fun a b => key a <= key b) (Db.order_by (fun x y => key x <=? key y) l).
Proof.
  eapply StronglySorted_weaken; [|apply order_by_sorted].
  - intros a b Hab. apply Z.leb_le. exact Hab.
  - cbn. intros a b Hab. apply Z.leb_gt in Hab. apply Z.leb_le. lia.
  - cbn. intros a b c Hab Hbc. apply Z.leb_le in Hab, Hbc.
    apply Z.leb_le. lia.
Qed.

Lemma order_by_descending (l : list A) :
  StronglySorted (fun a b => key b <= key a) (Db.order_by (fun x y => key y <=? key x) l).
Proof.
  eapply StronglySorted_weaken; [|apply order_by_sorted].
  - intros a b Hab. apply Z.leb_le. exact Hab.
  - cbn. intros a b Hab. apply Z.leb_gt in Hab. apply Z.leb_le. lia.
  - cbn. intros a b c Hab Hbc. apply Z.leb_le in Hab, Hbc.
    apply Z.leb_le. lia.
Qed.

End OrderBy.

Section Pages.

Context {A : Type} (R : A -> A -> Prop).

Lemma StronglySorted_skipn (n : nat) (l : list A) :
  StronglySorted R l -> StronglySorted R (skipn n l).
Proof.
  revert l. induction n as [|n IH]; intros l Hl; [exact Hl|].
  destruct l as [|x l]; [constructor|]. cbn [skipn]. apply IH.
  apply StronglySorted_inv in Hl. tauto.
Qed.

Lemma StronglySorted_firstn (n : nat) (l : list A) :
  StronglySorted R l -> StronglySorted R (firstn n l).
Proof.
  revert l. induction n as [|n IH]; intros l Hl; [constructor|].
  destruct l as [|x l]; [constructor|]. cbn [firstn].
  apply StronglySorted_inv in Hl as [Hl Hx]. constructor; [apply IH; exact Hl|].
  rewrite List.Forall_forall in *. intros y Hy. apply Hx.
  rewrite <- (firstn_skipn n l). apply in_or_app. left. exact Hy.
Qed.

Lemma page_incl (limit offset : nat) (l : list A) (x : A) :
  In x (firstn limit (skipn offset l)) -> In x l.
Proof.
  intros Hx. rewrite <- (firstn_skipn offset l). apply in_or_app. right.
  rewrite <- (firstn_skipn limit (skipn offset l)). apply in_or_app. left. exact Hx.
Qed.

End Pages.

(** The history of the notification 0 of [logged], by attempt, and its logs
    from the latest on. *)
Example history_of_logged :
  run (DeliveryLogModel.findByNotification 0%nat) logged
  = (logged, Returned (Db.order_by Db.lower_attempt
                         (List.filter (Db.log_of 0%nat) (delivery_logs logged))))
  /\ map l_id (Db.order_by Db.lower_attempt
                 (List.filter (Db.log_of 0%nat) (delivery_logs logged)))
     = [12%nat; 13%nat; 10%nat]
  /\ map l_id (Db.order_by Db.later_log
                 (List.filter (Db.log_of 0%nat) (delivery_logs logged)))
     = [10%nat; 12%nat; 13%nat].
Proof. repeat split. Qed.

(** X25: the history of a notification.  [findByNotification] returns its
    delivery logs, all of them and no other, in the order of their attempt
    numbers; [findLatest] returns no log exactly when it has none, and
    otherwise one of its logs that none of them is later than. *)
Theorem delivery_log_history (id : Uuid) (w : World) :
  exists logs latest,
    run (DeliveryLogModel.findByNotification id) w = (w, Returned logs)
    /\ logs ≡ₚ List.filter (Db.log_of id) (delivery_logs w)
    /\ StronglySorted (fun l m => l_attempt l <= l_attempt m) logs
    /\ run (DeliveryLogModel.findLatest id) w = (w, Returned latest)
    /\ match latest with
       | None => logs = []
       | Some l => In l logs /\ Forall (fun m => l_created_at m <= l_created_at l) logs
       end.
Proof.
  rewrite run_findByNotification.
  unfold DeliveryLogModel.findLatest. rewrite run_bind, run_await.
  unfold Db.select_latest_log.
  set (mine := List.filter (Db.log_of id) (delivery_logs w)).
  pose proof (order_by_permutation Db.lower_attempt mine) as Hhistory.
  pose proof (order_by_permutation Db.later_log mine) as Hperm.
  pose proof (order_by_descending l_created_at mine) as Hsorted.
  change (Db.order_by (fun x y => l_created_at y <=? l_created_at x))
    with (Db.order_by Db.later_log) in Hsorted.
  assert (Hboth : Db.order_by Db.later_log mine ≡ₚ Db.order_by Db.lower_attempt mine)
    by (rewrite Hperm, Hhistory; reflexivity).
  exists (Db.order_by Db.lower_attempt mine).
  destruct (Db.order_by Db.later_log mine) as [|l rest].
  - exists None. split; [reflexivity|]. split; [exact Hhistory|].
    split; [apply (order_by_ascending l_attempt)|]. split; [reflexivity|].
    apply Permutation_nil. exact Hboth.
  - exists (Some l). split; [reflexivity|]. split; [exact Hhistory|].
    split; [apply (order_by_ascending l_attempt)|]. split; [reflexivity|]. split.
    + apply (Permutation_in _ Hboth). left. reflexivity.
    + apply StronglySorted_inv in Hsorted as [_ Hl].
      rewrite List.Forall_forall in *. intros m Hm.
      apply (Permutation_in _ (Permutation_sym Hboth)) in Hm.
      destruct Hm as [<-|Hm]; [lia|auto].
Qed.



(** ** The delivery log: counts and success rate *)

(** X27: [countByStatus] and [getSuccessRate] agree: in a log whose rows are
    all SENT or FAILED -- as are the rows that the worker writes -- the
    success rate over a window is the percentage of the sent count in the sum
    of the sent and the failed count of that window. *)
Theorem success_rate_of_status_counts (since : option Z) (w : World) :
  Forall (fun l => l_status l = SENT \/ l_status l = FAILED) (delivery_logs w) ->
  run (DeliveryLogModel.countByStatus SENT since) w = (w, Returned (status_count SENT since w))
  /\ run (DeliveryLogModel.countByStatus FAILED since) w
     = (w, Returned (status_count FAILED since w))
  /\ run (DeliveryLogModel.getSuccessRate since) w
     = (w, Returned (percentage (status_count SENT since w)
                       (status_count SENT since w + status_count FAILED since w))).
Proof.
  intros Hall. split; [reflexivity|]. split; [reflexivity|].
  rewrite run_getSuccessRate. unfold sent_count, total_count, status_count.
  assert (Hwindow : Forall (fun l => l_status l = SENT \/ l_status l = FAILED)
                           (Db.logs_since since w)).
  { unfold Db.logs_since. destruct since as [s|]; [|exact Hall].
    rewrite List.Forall_forall in *. intros l Hl. apply filter_In in Hl. apply Hall. tauto. }
  assert (Hsum : List.length (Db.logs_since since w)
                 = (List.length (List.filter (fun l => bool_decide (l_status l = SENT))
                                   (Db.logs_since since w))
                    + List.length (List.filter (fun l => bool_decide (l_status l = FAILED))
                                     (Db.logs_since since w)))%nat).
  { induction Hwindow as [|l logs Hl _ IH]; [reflexivity|].
    cbn [List.filter List.length]. destruct Hl as [Hl|Hl]; rewrite Hl.
    - rewrite (bool_decide_true (SENT = SENT)) by reflexivity.
      rewrite (bool_decide_false (SENT = FAILED)) by discriminate.
      cbn [List.length]. lia.
    - rewrite (bool_decide_false (FAILED = SENT)) by discriminate.
      rewrite (bool_decide_true (FAILED = FAILED)) by reflexivity.
      cbn [List.length]. lia. }
  rewrite Hsum. reflexivity.
Qed.

Lemma success_rate_of_status_counts_witness :
  Forall (fun l => l_status l = SENT \/ l_status l = FAILED) (delivery_logs logged)
  /\ run (DeliveryLogModel.countByStatus SENT (Some 20)) logged = (logged, Returned 2%nat)
  /\ run (DeliveryLogModel.countByStatus FAILED None) logged = (logged, Returned 2%nat)
  /\ run (DeliveryLogModel.getSuccessRate None) logged
     = (logged, Returned (percentage 2 (2 + 2))).
Proof.
  assert (Hall : Forall (fun l => l_status l = SENT \/ l_status l = FAILED)
                        (delivery_logs logged))
    by (repeat constructor; cbn; auto).
  split; [exact Hall|].
  pose proof (success_rate_of_status_counts None logged Hall) as (_ & Hfailed & Hrate).
  pose proof (success_rate_of_status_counts (Some 20) logged Hall) as (Hsent & _ & _).
  split; [exact Hsent|]. split; [exact Hfailed|exact Hrate].
Defined.

(** ** The routes *)

Section Responses.

Lemma run_post (dto : CreateNotificationDTO) (w : World) :
  run (Routes.post dto) w
  = match run (NotificationService.createNotification dto) w with
    | (w', Returned n) => (w', Returned (queued_response n))
    | (w', Thrown e) => (w', Returned (errorHandler e))
    end.
Proof.
  unfold Routes.post, asyncHandler. rewrite run_try_catch, run_bind.
  destruct (run (NotificationService.createNotification dto) w) as [w' [n|e]]; reflexivity.
Qed.

End Responses.

(** X28: the answers of [POST /api/notifications].  It answers 202 with the
    id, the status and the time of creation of a notification that is then
    stored; or 400 or 404 with the message of the error, and then nothing has
    changed; or 500 with the fixed text [Internal Server Error] -- the
    message of an error of the database, the queue or the cache does not
    reach the client. *)
Theorem post_answers (dto : CreateNotificationDTO) (w : World) :
  exists w' response,
    run (Routes.post dto) w = (w', Returned response)
    /\ ((exists n, response = queued_response n /\ In n (notifications w'))
        \/ ((res_status response = 400 \/ res_status response = 404)
            /\ (exists message, res_body response = ErrorBody message) /\ w' = w)
        \/ response = {| res_status := 500; res_body := ErrorBody "Internal Server Error" |}).
Proof.
  rewrite run_post.
  destruct (run (NotificationService.createNotification dto) w) as [w' [n|e]] eqn:Hrun.
  - exists w', (queued_response n). split; [reflexivity|]. left.
    exists n. split; [reflexivity|].
    exact (returned_notification_is_stored dto w w' n Hrun).
  - exists w', (errorHandler e). split; [reflexivity|].
    destruct e as [m|m|code constraint|m details|m|m]; try (right; right; reflexivity);
      right; left.
    + split; [right; reflexivity|]. split; [exists m; reflexivity|].
      apply (refusal_changes_nothing dto w w' _ Hrun). right. exists m. reflexivity.
    + split; [left; reflexivity|]. split; [exists m; reflexivity|].
      apply (refusal_changes_nothing dto w w' _ Hrun). left. exists m. reflexivity.
Qed.



(** ** The template model: the statement of an update *)

(** X30: [TemplateModel.update] throws [No fields to update] exactly when
    none of the name, the subject, the body and the variables is given.
    Otherwise the statement that it sends binds the id and one value for each
    field that is given, and yet its text refers to one parameter only, the
    [$1] of the id: the SET clauses hold the index of each value without a
    [$]. *)
Theorem update_statement_parameters (id : string) (updates : TemplateModel.TemplateUpdates) :
  match TemplateModel.update_statement id updates with
  | Thrown e => fields_given updates = 0%nat /\ e = JsError "No fields to update"
  | Returned (text, values) =>
      (1 <= fields_given updates)%nat
      /\ List.length values = (1 + fields_given updates)%nat
      /\ count_char "$" text = 1%nat
  end.
Proof.
  destruct updates as [[name|] [subject|] [body|] [variables|]];
    cbv -[JSON.stringify]; repeat split; lia.
Qed.

(** An update of the name and of the body: the statement and its values. *)
Example update_statement_of_rename :
  TemplateModel.update_statement "welcome_email" rename
  = Returned ("
      UPDATE templates
      SET name = 2, body = 3, updated_at = CURRENT_TIMESTAMP
      WHERE id = $1
      RETURNING *
    ",
              [JStr "welcome_email"; JStr "Welcome"; JStr "Hi {{name}}"]).
Proof. reflexivity. Qed.
